(** * tauri-update-server: the conditional-fetch caching layer

    A shallow embedding of [src/index.ts] (the ETag-validated fetch
    pipeline [fetchGitHubData], the classifier [determinePlatform], the
    signature fetch [fetchSignature] and the [GET /] handler) and of the
    later revision of the same file that adds the minimum re-fetch interval
    ([MIN_FETCH_INTERVAL]); and, in module [Legacy], of the earlier
    revision of the file, which keeps a single validator and makes the
    conditional release-list request in the handler.

    Conventions of the embedding:
    - a JavaScript string is a [string]; the suffixes tested by the code are
      ASCII, so tests on code units and on bytes agree;
    - [undefined] is [None]; an object used as a dictionary is a [gmap];
    - the three JSON files and the in-memory [QuickLRU] form the [Store];
    - every upstream request is appended to a log, so that "no upstream
      call" is a statement about that log;
    - [async] code is written in a state-and-exception monad; the callbacks
      of [Promise.all] run to their first [await] in list order, and the
      replies are consumed in an order chosen by the environment. *)

From Equations Require Import Equations.
From stdpp Require Import gmap strings list fin_maps.
From Stdlib Require Import String Ascii ZArith Permutation.

Local Open Scope string_scope.
Local Open Scope Z_scope.

(** ** JavaScript string primitives used by the source *)

Module JsString.

(** [s.endsWith(suffix)] *)
Definition endsWith (s suffix : string) : bool :=
  (String.length suffix <=? String.length s)%nat
  && String.eqb
       (String.substring (String.length s - String.length suffix)
                         (String.length suffix) s)
       suffix.

(** [s.slice(0, -k)]: the string without its last [k] characters (empty
    when it has fewer than [k]). *)
Definition slice_to_neg (k : nat) (s : string) : string :=
  String.substring 0 (String.length s - k) s.

(** [s.includes(sub)] *)
Fixpoint includes (s sub : string) : bool :=
  if String.prefix sub s then true
  else match s with
       | EmptyString => false
       | String _ s' => includes s' sub
       end.

(** [s.split(sep)] for a one-character separator: never empty. *)
Fixpoint split (sep : ascii) (s : string) : list string :=
  match s with
  | EmptyString => [EmptyString]
  | String c s' =>
      if Ascii.eqb c sep then EmptyString :: split sep s'
      else match split sep s' with
           | [] => [String c EmptyString]
           | w :: ws => String c w :: ws
           end
  end.

(** [a.pop()] on a freshly built array: its last element, if any. *)
Definition pop (a : list string) : option string := last a.

(** [s || ''] for an optional string: the empty string is falsy. *)
Definition or_empty (o : option string) : string :=
  match o with Some s => s | None => "" end.

(** Truthiness of a string. *)
Definition truthy (s : string) : bool :=
  negb (String.eqb s "").

End JsString.
Import JsString.

(** ** The platform classifier *)

(** Matching on a test while keeping the equation that it evaluated so. *)
Definition inspect {A : Type} (x : A) : { y : A | x = y } := exist _ x eq_refl.

(** [determinePlatform] of [src/index.ts].  The recursion strips one
    [.sig] suffix per call, so it is on the length of the name. *)
Equations determinePlatform (filename : string) : string
  by wf (String.length filename) lt :=
  determinePlatform filename with inspect (endsWith filename ".sig") := {
    | exist _ true Hsig => determinePlatform (slice_to_neg 4 filename)
    | exist _ false _ =>
        if endsWith filename ".AppImage" then "linux-x86_64"
        else if endsWith filename ".msi" then
          if includes filename "arm64" then "windows-aarch64"
          else "windows-x86_64"
        else if endsWith filename "_intel.app.tar.gz" then "darwin-x86_64"
        else if endsWith filename "_silicon.app.tar.gz" then "darwin-aarch64"
        else "unknown" }.
Next Obligation.
  intros filename Hsig _. unfold endsWith in Hsig.
  apply andb_prop in Hsig as [Hlen _]. apply Nat.leb_le in Hlen.
  simpl in Hlen. unfold slice_to_neg.
  assert (L : forall (s : string) (n : nat),
             (n <= String.length s)%nat ->
             String.length (String.substring 0 n s) = n).
  { induction s as [|c s IH]; intros [|n] Hn; simpl in *; try lia.
    rewrite IH; lia. }
  rewrite L; lia.
Qed.

(** ** Configuration ([config.yml]) *)

(** A flag of [enabled_platforms]: [None] when the key is absent from the
    file (or holds something that is not a boolean). *)
Record Config := {
  release_repo : string;
  archive_repo : string;
  linux : option bool;
  windows_x86 : option bool;
  windows_arm64 : option bool;
  macos_intel : option bool;
  macos_silicon : option bool
}.

(** [flag !== false] *)
Definition not_false (flag : option bool) : bool :=
  match flag with
  | Some false => false
  | _ => true
  end.

(** The object literal [ENABLED_PLATFORMS], as its entries in declaration
    order (what [Object.entries] returns). *)
Definition ENABLED_PLATFORMS (cfg : Config) : list (string * bool) :=
  [ ("linux-x86_64", not_false (linux cfg));
    ("windows-x86_64", not_false (windows_x86 cfg));
    ("windows-aarch64", not_false (windows_arm64 cfg));
    ("darwin-x86_64", not_false (macos_intel cfg));
    ("darwin-aarch64", not_false (macos_silicon cfg)) ].

(** Lookup of a property in a list of entries. *)
Fixpoint entry {A : Type} (key : string) (entries : list (string * A)) : option A :=
  match entries with
  | [] => None
  | (k, v) :: rest => if String.eqb k key then Some v else entry key rest
  end.

(** Truthiness of [ENABLED_PLATFORMS[platformKey]]; a key that is not a
    property (such as ["unknown"]) reads [undefined]. *)
Definition enabled (cfg : Config) (platformKey : string) : bool :=
  match entry platformKey (ENABLED_PLATFORMS cfg) with
  | Some b => b
  | None => false
  end.

(** ** Data model *)

(** An element of the release list, as far as the code reads it. *)
Record Release := { tag_name : string; published_at : string }.

(** [interface File] *)
Record File := { name : string; url : string }.

(** A value of [platformFiles]: [{ signature, url }]. *)
Record PlatformAsset := { signature : string; asset_url : string }.

(** A value of [orderedPlatforms]: [platformFiles[key] || {}]. *)
Inductive Descriptor :=
| EmptyDescriptor
| Asset (a : PlatformAsset).

(** The object literal [cacheData] built by [fetchGitHubData]; the order of
    the entries of [platforms] is the order of the JSON text. *)
Record Manifest := {
  version : string;
  notes : string;
  pub_date : string;
  platforms : list (string * Descriptor)
}.

(** What [./cache/data.json] can hold: the [{}] written by
    [ensureFileExists], or a manifest. *)
Inductive CacheData :=
| EmptyObject
| ManifestData (m : Manifest).

(** [interface ETagData] *)
Record ETagData := {
  releases : option string;
  archives : option (gmap string string);
  signatures : option (gmap string string);
  lastFetchTime : option Z
}.

(** [./cache/stats.json] *)
Record StatsData := { cacheHits : option Z; fetches : option Z }.

(** The [QuickLRU] instance [cache]; it holds at most three keys, far below
    [maxSize], so nothing is ever evicted. *)
Record Lru := {
  lru_cacheData : option CacheData;
  lru_statsData : option StatsData;
  lru_etagData : option ETagData
}.

(** The three files; [None] when the file does not exist. *)
Record Disk := {
  CACHE_FILE : option CacheData;
  STATS_FILE : option StatsData;
  ETAG_FILE : option ETagData
}.

Record Store := { cache : Lru; disk : Disk }.

(** Identity of an object held by the handler: the very object stored in
    the LRU, or one allocated since (by [JSON.parse] or an object literal),
    which is identical to no other. *)
Inductive Ref := InLru | Allocated.

Record Obj := { ref : Ref; val : CacheData }.

(** [a !== b] on two such objects. *)
Definition not_identical (a b : Obj) : bool :=
  match ref a, ref b with
  | InLru, InLru => false
  | _, _ => true
  end.

(** ** Upstream *)

Inductive Request :=
| GetReleases (if_none_match : string)
| GetArchive (tag : string) (if_none_match : string)
| GetSignature (target_url : string) (if_none_match : string).

(** What the network gives back to one [axios.get]. *)
Inductive Reply (A : Type) :=
| NetworkError
| Http (status : Z) (etag : option string) (data : A).
Arguments NetworkError {A}.
Arguments Http {A} status etag data.

(** A signature request in flight: its result will be stored in
    [platformFiles[target].signature]. *)
Record Pending := { target : string; sig_url : string; sent_etag : string }.

(** The environment of one fetch cycle: the replies, and the order in which
    the concurrent signature requests complete. *)
Record Upstream := {
  releases_reply : string -> Reply (list Release);
  archive_reply : string -> string -> Reply (list string);
  signature_reply : string -> string -> Reply string;
  arrival : list Pending -> list Pending;
  arrival_perm : forall l, Permutation (arrival l) l
}.

(** ** Exceptions and the monad of [async] code *)

Inductive Error :=
| AxiosError (response_status : option Z)
| TypeError
| ENOENT.

(** [error.response && error.response.status === 403] *)
Definition is_403 (e : Error) : bool :=
  match e with
  | AxiosError (Some st) => st =? 403
  | _ => false
  end.

(** What a fetch cycle can touch: the store, the [etagData] object it was
    handed, and the network. *)
Record World := { store : Store; etagData : ETagData; log : list Request }.

Definition M (A : Type) : Type := World -> (Error + A) * World.

Definition ret {A : Type} (a : A) : M A := fun w => (inr a, w).

Definition bind {A B : Type} (c : M A) (k : A -> M B) : M B :=
  fun w => match c w with
           | (inl e, w') => (inl e, w')
           | (inr a, w') => k a w'
           end.

Definition throw {A : Type} (e : Error) : M A := fun w => (inl e, w).

(** [try { body } catch (error) { handler }]: what [body] changed before
    it threw stays changed. *)
Definition try_catch {A : Type} (body : M A) (handler : Error -> M A) : M A :=
  fun w => match body w with
           | (inl e, w') => handler e w'
           | (inr a, w') => (inr a, w')
           end.

Definition get_world : M World := fun w => (inr w, w).

Definition set_etagData (e : ETagData) : M unit :=
  fun w => (inr tt, {| store := store w; etagData := e; log := log w |}).

Definition set_store (s : Store) : M unit :=
  fun w => (inr tt, {| store := s; etagData := etagData w; log := log w |}).

Definition send (rq : Request) : M unit :=
  fun w => (inr tt, {| store := store w; etagData := etagData w;
                       log := log w ++ [rq] |}).

Notation "'let*' x ':=' c 'in' k" := (bind c (fun x => k))
  (at level 10, x name, c at level 100, k at level 200).
Notation "'let*' ' p ':=' c 'in' k" := (bind c (fun x => match x with p => k end))
  (at level 10, p pattern, c at level 100, k at level 200).
Notation "'run' c 'in' k" := (bind c (fun _ => k))
  (at level 10, c at level 100, k at level 200).

(** ** [axios.get] *)

(** [validateStatus: (status) => status >= 200 && status < 300 || status === 304] *)
Definition validateStatus (status : Z) : bool :=
  (200 <=? status) && (status <? 300) || (status =? 304).

Record Response (A : Type) := {
  status : Z;
  headers_etag : option string;
  data : A
}.
Arguments status {A} _.
Arguments headers_etag {A} _.
Arguments data {A} _.

(** The promise of [axios.get] settles: it rejects on a network failure and
    on a status that [validateStatus] refuses. *)
Definition receive {A : Type} (r : Reply A) : M (Response A) :=
  match r with
  | NetworkError => throw (AxiosError None)
  | Http st e d =>
      if validateStatus st
      then ret {| status := st; headers_etag := e; data := d |}
      else throw (AxiosError (Some st))
  end.

(** [await axios.get(...)]: the request leaves, the reply is awaited. *)
Definition axios_get {A : Type} (rq : Request) (r : Reply A) : M (Response A) :=
  run send rq in receive r.

(** ** Reading the cached manifest *)

(** [cache.get(key) || JSON.parse(await readFileAsync(file, ...))]: the
    object, and whether it is the one the LRU holds. *)
Definition get_or_read {A : Type} (cached file : option A) : option (Ref * A) :=
  match cached with
  | Some o => Some (InLru, o)
  | None =>
      match file with
      | Some o => Some (Allocated, o)
      | None => None
      end
  end.

(** [cache.get('cacheData') || JSON.parse(await readFileAsync(CACHE_FILE, ...))];
    an object in the LRU is truthy, whatever it holds; reading a file that
    does not exist throws. *)
Definition cached_or_file : M Obj :=
  fun w =>
    match get_or_read (lru_cacheData (cache (store w)))
                      (CACHE_FILE (disk (store w))) with
    | Some (r, d) => (inr {| ref := r; val := d |}, w)
    | None => (inl ENOENT, w)
    end.

(** [cacheData?.platforms?.[platformKey]?.signature || ''] *)
Definition cached_signature (d : CacheData) (platformKey : string) : string :=
  match d with
  | EmptyObject => ""
  | ManifestData m =>
      match entry platformKey (platforms m) with
      | Some (Asset a) => signature a
      | _ => ""
      end
  end.

(** ** Validator tokens *)

(** [tokens[key] = etag], where [etag] is a response header that may be
    missing.  A property holding [undefined] reads like an absent one
    ([tokens[key] || '']) and [JSON.stringify] omits it, so it is removed. *)
Definition assign (key : string) (etag : option string)
    (tokens : gmap string string) : gmap string string :=
  match etag with
  | Some t => <[key := t]> tokens
  | None => delete key tokens
  end.

(** [tokens || {}] for an optional dictionary. *)
Definition or_empty_object (tokens : option (gmap string string)) : gmap string string :=
  match tokens with
  | Some t => t
  | None => ∅
  end.

(** [etagData.signatures?.[url] || ''] *)
Definition signature_header (e : ETagData) (target_url : string) : string :=
  or_empty (or_empty_object (signatures e) !! target_url).

(** ** [fetchSignature] *)

(** Up to the [await]: the conditional request leaves. *)
Definition fetchSignature_send (target_url : string) : M string :=
  let* w := get_world in
  let header := signature_header (etagData w) target_url in
  run send (GetSignature target_url header) in
  ret header.

(** From the [await] on.  Every exception ends in the [catch], which
    returns the empty string. *)
Definition fetchSignature_receive (u : Upstream) (target_url header : string) : M string :=
  try_catch
    (let* response := receive (signature_reply u target_url header) in
     if status response =? 304 then
       let* cacheData := cached_or_file in
       let platformKey :=
         determinePlatform (or_empty (pop (split "/" target_url))) in
       ret (cached_signature (val cacheData) platformKey)
     else
       let* w := get_world in
       let e := etagData w in
       run set_etagData
             {| releases := releases e;
                archives := archives e;
                signatures :=
                  Some (assign target_url (headers_etag response)
                               (or_empty_object (signatures e)));
                lastFetchTime := lastFetchTime e |} in
       ret (data response))
    (fun _ => ret "").

(** [fetchSignature(url, etagData)] awaited on its own. *)
Definition fetchSignature (u : Upstream) (target_url : string) : M string :=
  let* header := fetchSignature_send target_url in
  fetchSignature_receive u target_url header.

(** ** The callbacks of [Promise.all(files.map(async (file) => ...))] *)

(** One callback up to its first [await]: [platformFiles[platformKey]] is
    read, and the object it denotes is fixed, before [fetchSignature] is
    called; a base asset never awaits. *)
Definition callback_start (cfg : Config)
    (platformFiles : gmap string PlatformAsset) (file : File)
  : M (gmap string PlatformAsset * option Pending) :=
  let platformKey := determinePlatform (name file) in
  if enabled cfg platformKey then
    if endsWith (name file) ".sig" then
      match platformFiles !! platformKey with
      | Some _ =>
          let* header := fetchSignature_send (url file) in
          ret (platformFiles,
               Some {| target := platformKey; sig_url := url file;
                       sent_etag := header |})
      | None => ret (platformFiles, None)
      end
    else
      match platformFiles !! platformKey with
      | None =>
          ret (<[platformKey := {| signature := ""; asset_url := url file |}]>
                 platformFiles, None)
      | Some _ => ret (platformFiles, None)
      end
  else ret (platformFiles, None).

(** [files.map] calls the callbacks in list order. *)
Fixpoint start_all (cfg : Config) (files : list File)
    (platformFiles : gmap string PlatformAsset)
  : M (gmap string PlatformAsset * list Pending) :=
  match files with
  | [] => ret (platformFiles, [])
  | file :: rest =>
      let* '(platformFiles1, started) := callback_start cfg platformFiles file in
      let* '(platformFiles2, pending) := start_all cfg rest platformFiles1 in
      ret (platformFiles2,
           match started with
           | Some p => p :: pending
           | None => pending
           end)
  end.

(** [entry.signature = <the awaited string>] *)
Definition set_signature (sig : string) (a : PlatformAsset) : PlatformAsset :=
  {| signature := sig; asset_url := asset_url a |}.

(** One callback resumes when its signature request completes. *)
Definition callback_finish (u : Upstream) (p : Pending)
    (platformFiles : gmap string PlatformAsset)
  : M (gmap string PlatformAsset) :=
  let* sig := fetchSignature_receive u (sig_url p) (sent_etag p) in
  ret (alter (set_signature sig) (target p) platformFiles).

Fixpoint finish_all (u : Upstream) (completed : list Pending)
    (platformFiles : gmap string PlatformAsset)
  : M (gmap string PlatformAsset) :=
  match completed with
  | [] => ret platformFiles
  | p :: rest =>
      let* platformFiles1 := callback_finish u p platformFiles in
      finish_all u rest platformFiles1
  end.

(** [const platformFiles = {}; await Promise.all(files.map(...))] *)
Definition Promise_all (cfg : Config) (u : Upstream) (files : list File)
  : M (gmap string PlatformAsset) :=
  let* '(platformFiles, pending) := start_all cfg files ∅ in
  finish_all u (arrival u pending) platformFiles.

(** ** The manifest *)

(** [Object.fromEntries(Object.entries(ENABLED_PLATFORMS)
      .filter(([_, enabled]) => enabled)
      .map(([key]) => [key, platformFiles[key] || {}]))].
    The keys are distinct strings that are not array indices, so the
    object keeps them in the order of the entries; [descriptor_of] is
    [platformFiles[key] || {}]. *)
Definition descriptor_of (platformFiles : gmap string PlatformAsset)
    (key : string) : Descriptor :=
  match platformFiles !! key with
  | Some a => Asset a
  | None => EmptyDescriptor
  end.

Definition orderedPlatforms (cfg : Config)
    (platformFiles : gmap string PlatformAsset) : list (string * Descriptor) :=
  map (fun kv : string * bool => (fst kv, descriptor_of platformFiles (fst kv)))
      (List.filter (fun kv : string * bool => snd kv) (ENABLED_PLATFORMS cfg)).

(** [`https://github.com/${GITHUB_ARCHIVE_REPO}/raw/main/${tag}/${file.name}`] *)
Definition file_of (cfg : Config) (tag file_name : string) : File :=
  {| name := file_name;
     url := String.append "https://github.com/"
           (String.append (archive_repo cfg)
           (String.append "/raw/main/"
           (String.append tag (String.append "/" file_name)))) |}.

Definition writeFile_CACHE_FILE (d : CacheData) : M unit :=
  let* w := get_world in
  set_store {| cache := cache (store w);
               disk := {| CACHE_FILE := Some d;
                          STATS_FILE := STATS_FILE (disk (store w));
                          ETAG_FILE := ETAG_FILE (disk (store w)) |} |}.

Definition writeFile_ETAG_FILE : M unit :=
  let* w := get_world in
  set_store {| cache := cache (store w);
               disk := {| CACHE_FILE := CACHE_FILE (disk (store w));
                          STATS_FILE := STATS_FILE (disk (store w));
                          ETAG_FILE := Some (etagData w) |} |}.

(** Lines 96-129 of [fetchGitHubData]: from the file list to the manifest
    that is written and returned. *)
Definition build (cfg : Config) (u : Upstream) (latestRelease : Release)
    (files : list File) : M Obj :=
  let* platformFiles := Promise_all cfg u files in
  let cacheData :=
    ManifestData {| version := tag_name latestRelease;
                    notes := "A new version is available";
                    pub_date := published_at latestRelease;
                    platforms := orderedPlatforms cfg platformFiles |} in
  run writeFile_CACHE_FILE cacheData in
  run writeFile_ETAG_FILE in
  ret {| ref := Allocated; val := cacheData |}.

(** [currentData && currentData.version === latestRelease.tag_name] *)
Definition version_is (d : CacheData) (tag : string) : bool :=
  match d with
  | EmptyObject => false
  | ManifestData m => String.eqb (version m) tag
  end.

(** ** [fetchGitHubData] *)

Definition fetchGitHubData (cfg : Config) (u : Upstream) : M Obj :=
  let* w0 := get_world in
  let releases_header := or_empty (releases (etagData w0)) in
  let* releasesResponse :=
    axios_get (GetReleases releases_header) (releases_reply u releases_header) in
  if status releasesResponse =? 304 then cached_or_file
  else
    let latestRelease := head (data releasesResponse) in
    let* w1 := get_world in
    let e1 :=
      {| releases := headers_etag releasesResponse;
         archives := Some (or_empty_object (archives (etagData w1)));
         signatures := Some (or_empty_object (signatures (etagData w1)));
         lastFetchTime := lastFetchTime (etagData w1) |} in
    run set_etagData e1 in
    match latestRelease with
    | None => throw TypeError
    | Some latestRelease =>
        let tag := tag_name latestRelease in
        let archive_header := or_empty (or_empty_object (archives e1) !! tag) in
        let* filesResponse :=
          axios_get (GetArchive tag archive_header)
                    (archive_reply u tag archive_header) in
        if negb (status filesResponse =? 304) then
          let* w2 := get_world in
          let e2 := etagData w2 in
          run set_etagData
                {| releases := releases e2;
                   archives :=
                     Some (assign tag (headers_etag filesResponse)
                                  (or_empty_object (archives e2)));
                   signatures := signatures e2;
                   lastFetchTime := lastFetchTime e2 |} in
          build cfg u latestRelease (map (file_of cfg tag) (data filesResponse))
        else
          let* currentData := cached_or_file in
          if version_is (val currentData) tag then ret currentData
          else build cfg u latestRelease []
    end.

(** ** The request handler *)

Record HttpRequest := { user_agent : option string }.

(** How a request ends: [res.json(body)] answers with the default status
    200; an exception that no [catch] takes leaves the handler. *)
Inductive Outcome :=
| Responded (code : Z) (body : CacheData)
| Escaped (e : Error).

Definition res_json (body : CacheData) : Outcome := Responded 200 body.

Record Served := {
  outcome : Outcome;
  store_after : Store;
  requests : list Request
}.

(** [ensureFileExists]: a missing file is created holding [{}]. *)
Definition ensureFileExists {A : Type} (empty : A) (file : option A) : option A :=
  match file with
  | Some content => Some content
  | None => Some empty
  end.

Definition no_stats : StatsData := {| cacheHits := None; fetches := None |}.

Definition no_etags : ETagData :=
  {| releases := None; archives := None; signatures := None;
     lastFetchTime := None |}.

Definition ensureFilesExist (s : Store) : Store :=
  {| cache := cache s;
     disk := {| CACHE_FILE := ensureFileExists EmptyObject (CACHE_FILE (disk s));
                STATS_FILE := ensureFileExists no_stats (STATS_FILE (disk s));
                ETAG_FILE := ensureFileExists no_etags (ETAG_FILE (disk s)) |} |}.

(** [userAgent.includes('Better Uptime Bot')] *)
Definition isBetterUptimeBot (req : HttpRequest) : bool :=
  includes (or_empty (user_agent req)) "Better Uptime Bot".

(** [!cacheData || !Object.keys(cacheData).length] *)
Definition is_empty (d : CacheData) : bool :=
  match d with
  | EmptyObject => true
  | ManifestData _ => false
  end.

(** [(counter || 0) + 1] *)
Definition bump (counter : option Z) : option Z :=
  Some (match counter with Some n => n | None => 0 end + 1).

Definition cache_set_cacheData (d : CacheData) (s : Store) : Store :=
  {| cache := {| lru_cacheData := Some d;
                 lru_statsData := lru_statsData (cache s);
                 lru_etagData := lru_etagData (cache s) |};
     disk := disk s |}.

Definition cache_set_statsData (st : StatsData) (s : Store) : Store :=
  {| cache := {| lru_cacheData := lru_cacheData (cache s);
                 lru_statsData := Some st;
                 lru_etagData := lru_etagData (cache s) |};
     disk := disk s |}.

Definition cache_set_etagData (e : ETagData) (s : Store) : Store :=
  {| cache := {| lru_cacheData := lru_cacheData (cache s);
                 lru_statsData := lru_statsData (cache s);
                 lru_etagData := Some e |};
     disk := disk s |}.

Definition writeFile_STATS_FILE (st : StatsData) (s : Store) : Store :=
  {| cache := cache s;
     disk := {| CACHE_FILE := CACHE_FILE (disk s);
                STATS_FILE := Some st;
                ETAG_FILE := ETAG_FILE (disk s) |} |}.

Definition writeFile_ETAG (e : ETagData) (s : Store) : Store :=
  {| cache := cache s;
     disk := {| CACHE_FILE := CACHE_FILE (disk s);
                STATS_FILE := STATS_FILE (disk s);
                ETAG_FILE := Some e |} |}.

(** [if (!isBot) { statsData.fetches = (statsData.fetches || 0) + 1;
    cache.set('statsData', statsData) }] *)
Definition count_fetch (isBot : bool) (st : StatsData) (s : Store) : StatsData * Store :=
  if isBot then (st, s)
  else
    let st' := {| cacheHits := cacheHits st; fetches := bump (fetches st) |} in
    (st', cache_set_statsData st' s).

(** The same for [statsData.cacheHits]. *)
Definition count_hit (isBot : bool) (st : StatsData) (s : Store) : StatsData * Store :=
  if isBot then (st, s)
  else
    let st' := {| cacheHits := bump (cacheHits st); fetches := fetches st |} in
    (st', cache_set_statsData st' s).

(** [if (!isBot) await writeFileAsync(STATS_FILE, JSON.stringify(statsData))] *)
Definition persist_stats (isBot : bool) (st : StatsData) (s : Store) : Store :=
  if isBot then s else writeFile_STATS_FILE st s.

(** The store once [fetchGitHubData(etagData)] has run: when [etagData] is
    the object held by the LRU, what the pipeline assigned to it is there
    too, whether the pipeline returned or threw. *)
Definition store_after_fetch (alias : Ref) (w : World) : Store :=
  match alias with
  | InLru => cache_set_etagData (etagData w) (store w)
  | Allocated => store w
  end.

(** [app.get('/', ...)] of [src/index.ts].  Both branches of the test on
    [cacheData] begin with the same call [fetchGitHubData(etagData)], which
    is therefore written once, before the test.  File writes do not fail in
    this model, so the outer [catch], which only they could reach, is not
    modelled. *)
Definition handler (cfg : Config) (u : Upstream) (req : HttpRequest)
    (s0 : Store) : Served :=
  let s := ensureFilesExist s0 in
  match get_or_read (lru_cacheData (cache s)) (CACHE_FILE (disk s)),
        get_or_read (lru_statsData (cache s)) (STATS_FILE (disk s)),
        get_or_read (lru_etagData (cache s)) (ETAG_FILE (disk s)) with
  | Some (cref, cdata), Some (_, statsData), Some (alias, etags) =>
      let cacheData := {| ref := cref; val := cdata |} in
      let isBot := isBetterUptimeBot req in
      let '(result, w) :=
        fetchGitHubData cfg u {| store := s; etagData := etags; log := [] |} in
      let s1 := store_after_fetch alias w in
      if is_empty (val cacheData) then
        match result with
        | inr fetched =>
            let s2 := cache_set_cacheData (val fetched) s1 in
            let '(statsData', s3) := count_fetch isBot statsData s2 in
            {| outcome := res_json (val fetched);
               store_after := persist_stats isBot statsData' s3;
               requests := log w |}
        | inl fetchError =>
            if is_403 fetchError then
              {| outcome := res_json (val cacheData);
                 store_after := s1;
                 requests := log w |}
            else
              {| outcome := res_json (val cacheData);
                 store_after := persist_stats isBot statsData s1;
                 requests := log w |}
        end
      else
        match result with
        | inr updatedData =>
            if not_identical updatedData cacheData then
              let s2 := cache_set_cacheData (val updatedData) s1 in
              let '(statsData', s3) := count_fetch isBot statsData s2 in
              {| outcome := res_json (val updatedData);
                 store_after := persist_stats isBot statsData' s3;
                 requests := log w |}
            else
              let '(statsData', s2) := count_hit isBot statsData s1 in
              {| outcome := res_json (val cacheData);
                 store_after := persist_stats isBot statsData' s2;
                 requests := log w |}
        | inl _ =>
            let '(statsData', s2) := count_hit isBot statsData s1 in
            {| outcome := res_json (val cacheData);
               store_after := persist_stats isBot statsData' s2;
               requests := log w |}
        end
  | _, _, _ =>
      {| outcome := Escaped ENOENT; store_after := s; requests := [] |}
  end.

(** ** The handler with the minimum re-fetch interval *)

Module Interval.

(** [const MIN_FETCH_INTERVAL = 5 * 60 * 1000] (milliseconds) *)
Definition MIN_FETCH_INTERVAL : Z := 5 * 60 * 1000.

(** Truthiness of [cacheData.version]. *)
Definition has_version (d : CacheData) : bool :=
  match d with
  | EmptyObject => false
  | ManifestData m => truthy (version m)
  end.

(** [etagData.lastFetchTime || 0] *)
Definition lastFetchTime_or_0 (e : ETagData) : Z :=
  match lastFetchTime e with
  | Some t => t
  | None => 0
  end.

(** [cacheData.version && now - lastFetchTime < MIN_FETCH_INTERVAL] *)
Definition trust_cache (d : CacheData) (e : ETagData) (now : Z) : bool :=
  has_version d && (now - lastFetchTime_or_0 e <? MIN_FETCH_INTERVAL).

Definition set_lastFetchTime (now : Z) (e : ETagData) : ETagData :=
  {| releases := releases e; archives := archives e;
     signatures := signatures e; lastFetchTime := Some now |}.

(** [app.get('/', ...)] of the revision with [MIN_FETCH_INTERVAL];
    [now] is what [Date.now()] returns. *)
Definition handler (cfg : Config) (u : Upstream) (now : Z)
    (req : HttpRequest) (s0 : Store) : Served :=
  let s := ensureFilesExist s0 in
  let isBot := isBetterUptimeBot req in
  match get_or_read (lru_cacheData (cache s)) (CACHE_FILE (disk s)),
        get_or_read (lru_statsData (cache s)) (STATS_FILE (disk s)),
        get_or_read (lru_etagData (cache s)) (ETAG_FILE (disk s)) with
  | Some (_, cacheData), Some (_, statsData), Some (alias, etags) =>
      if trust_cache cacheData etags now then
        let '(statsData', s1) := count_hit isBot statsData s in
        {| outcome := res_json cacheData;
           store_after := persist_stats isBot statsData' s1;
           requests := [] |}
      else
        let '(result, w) :=
          fetchGitHubData cfg u {| store := s; etagData := etags; log := [] |} in
        match result with
        | inr fetched =>
            let etags' := set_lastFetchTime now (etagData w) in
            let s1 := cache_set_cacheData (val fetched) (store w) in
            let s2 := cache_set_etagData etags' s1 in
            let s3 := writeFile_ETAG etags' s2 in
            let '(statsData', s4) := count_fetch isBot statsData s3 in
            {| outcome := res_json (val fetched);
               store_after := persist_stats isBot statsData' s4;
               requests := log w |}
        | inl _ =>
            let s1 := store_after_fetch alias w in
            let '(statsData', s2) := count_hit isBot statsData s1 in
            {| outcome := res_json cacheData;
               store_after := persist_stats isBot statsData' s2;
               requests := log w |}
        end
  | _, _, _ =>
      {| outcome := Escaped ENOENT; store_after := s; requests := [] |}
  end.

End Interval.

(** ** What the statements below speak of *)

(** The platform ids in the order in which [ENABLED_PLATFORMS] declares
    them. *)
Definition declared_order : list string :=
  [ "linux-x86_64"; "windows-x86_64"; "windows-aarch64";
    "darwin-x86_64"; "darwin-aarch64" ].

(** Everything [determinePlatform] can return. *)
Definition platform_ids : list string :=
  (declared_order ++ ["unknown"])%list.

(** A file that creates the entry of [key] in [platformFiles]: [key] is
    enabled and the file is not a signature. *)
Definition is_base (cfg : Config) (key : string) (file : File) : Prop :=
  enabled cfg key = true
  /\ endsWith (name file) ".sig" = false
  /\ determinePlatform (name file) = key.

(** The world once the request of a started signature fetch has left. *)
Definition sent (p : Pending) (w : World) : World :=
  {| store := store w; etagData := etagData w;
     log := log w ++ [GetSignature (sig_url p) (sent_etag p)] |}.

(** The manifest a handler starts from: the LRU entry, else the file, which
    [ensureFileExists] has created as [{}] if it was missing. *)
Definition current_cacheData (s : Store) : CacheData :=
  match lru_cacheData (cache s) with
  | Some d => d
  | None =>
      match CACHE_FILE (disk s) with
      | Some d => d
      | None => EmptyObject
      end
  end.

(** The validator tokens a handler starts from, likewise. *)
Definition current_etagData (s : Store) : ETagData :=
  match lru_etagData (cache s) with
  | Some e => e
  | None =>
      match ETAG_FILE (disk s) with
      | Some e => e
      | None => no_etags
      end
  end.

(** The world in which a handler calls [fetchGitHubData(etagData)]. *)
Definition fetch_world (s : Store) : World :=
  {| store := ensureFilesExist s; etagData := current_etagData s; log := [] |}.

(** An upstream that answers 304 to every conditional request. *)
Definition not_modified (u : Upstream) : Prop :=
  (forall h, exists e d, releases_reply u h = Http 304 e d)
  /\ (forall tag h, exists e d, archive_reply u tag h = Http 304 e d)
  /\ (forall target_url h, exists e d, signature_reply u target_url h = Http 304 e d).

(** Where a handler's object comes from. *)
Definition origin {A : Type} (cached : option A) : Ref :=
  match cached with
  | Some _ => InLru
  | None => Allocated
  end.

(** The world once the release-list request has left. *)
Definition asked_releases (w : World) : World :=
  {| store := store w; etagData := etagData w;
     log := (log w ++ [GetReleases (or_empty (releases (etagData w)))])%list |}.

(** What [build] leaves behind once the table [pf'] is complete. *)
Definition built (cfg : Config) (latestRelease : Release)
    (pf' : gmap string PlatformAsset) : Manifest :=
  {| version := tag_name latestRelease;
     notes := "A new version is available";
     pub_date := published_at latestRelease;
     platforms := orderedPlatforms cfg pf' |}.

(** The manifest that an empty file set yields. *)
Definition degraded (cfg : Config) (latestRelease : Release) : Manifest :=
  {| version := tag_name latestRelease;
     notes := "A new version is available";
     pub_date := published_at latestRelease;
     platforms := map (fun key => (key, EmptyDescriptor))
                      (List.filter (enabled cfg) declared_order) |}.

(** No signature file of platform [key] comes after a base asset of
    [key]. *)
Definition all_signatures_early (cfg : Config) (key : string)
    (files : list File) : Prop :=
  forall before file after,
    files = (before ++ file :: after)%list ->
    endsWith (name file) ".sig" = true ->
    determinePlatform (name file) = key ->
    forall base, In base before -> ~ is_base cfg key base.

(** ** A small deployment, for running the definitions *)

Module Example.

Definition cfg : Config :=
  {| release_repo := "user/app"; archive_repo := "user/archives";
     linux := Some true; windows_x86 := Some true; windows_arm64 := Some false;
     macos_intel := None; macos_silicon := None |}.

Definition release : Release :=
  {| tag_name := "v1.0.0"; published_at := "2024-05-01T10:00:00Z" |}.

Definition newer : Release :=
  {| tag_name := "v1.1.0"; published_at := "2024-06-01T10:00:00Z" |}.

(** An upstream that answers every request with fresh content. *)
Definition upstream (releases : list Release) (listing : list string) : Upstream :=
  {| releases_reply := fun _ => Http 200 (Some "W/r1") releases;
     archive_reply := fun _ _ => Http 200 (Some "W/a1") listing;
     signature_reply := fun _ _ => Http 200 (Some "W/s1") "SIGNATURE";
     arrival := fun l => l;
     arrival_perm := fun l => Permutation_refl l |}.

(** An upstream that answers every request with the same status and no
    content. *)
Definition answering (st : Z) : Upstream :=
  {| releases_reply := fun _ => Http st None [];
     archive_reply := fun _ _ => Http st None [];
     signature_reply := fun _ _ => Http st None "";
     arrival := fun l => l;
     arrival_perm := fun l => Permutation_refl l |}.

(** An upstream with a new release list whose archive listing answers
    304. *)
Definition archive_unchanged (releases : list Release) : Upstream :=
  {| releases_reply := fun _ => Http 200 (Some "W/r2") releases;
     archive_reply := fun _ _ => Http 304 None [];
     signature_reply := fun _ _ => Http 304 None "";
     arrival := fun l => l;
     arrival_perm := fun l => Permutation_refl l |}.

(** First boot: nothing cached, no file. *)
Definition cold : Store :=
  {| cache := {| lru_cacheData := None; lru_statsData := None;
                 lru_etagData := None |};
     disk := {| CACHE_FILE := None; STATS_FILE := None; ETAG_FILE := None |} |}.

Definition cold_world : World :=
  {| store := cold; etagData := no_etags; log := [] |}.

Definition manifest : Manifest :=
  {| version := "v1.0.0";
     notes := "A new version is available";
     pub_date := "2024-05-01T10:00:00Z";
     platforms :=
       [ ("linux-x86_64", EmptyDescriptor);
         ("windows-x86_64",
          Asset {| signature := "SIGNATURE";
                   asset_url :=
                     "https://github.com/user/archives/raw/main/v1.0.0/App-1.0.0.msi" |});
         ("darwin-x86_64", EmptyDescriptor);
         ("darwin-aarch64", EmptyDescriptor) ] |}.

Definition etags (last : Z) : ETagData :=
  {| releases := Some "W/r1";
     archives := Some {[ "v1.0.0" := "W/a1" ]};
     signatures := Some ∅;
     lastFetchTime := Some last |}.

(** A server that fetched [manifest] at time [last]. *)
Definition warm (last : Z) : Store :=
  {| cache := {| lru_cacheData := Some (ManifestData manifest);
                 lru_statsData := Some {| cacheHits := None; fetches := Some 1 |};
                 lru_etagData := Some (etags last) |};
     disk := {| CACHE_FILE := Some (ManifestData manifest);
                STATS_FILE := Some {| cacheHits := None; fetches := Some 1 |};
                ETAG_FILE := Some (etags last) |} |}.

Definition warm_world : World :=
  {| store := warm 0; etagData := etags 0; log := [] |}.

Definition browser : HttpRequest := {| user_agent := Some "tauri-updater" |}.

End Example.

(** ** Further notions for the statements *)

(** The world once [etagData.signatures[url] = etag] has run. *)
Definition store_signature_token (target_url : string) (etag : option string)
    (w : World) : World :=
  {| store := store w;
     etagData :=
       {| releases := releases (etagData w);
          archives := archives (etagData w);
          signatures := Some (assign target_url etag
                                     (or_empty_object (signatures (etagData w))));
          lastFetchTime := lastFetchTime (etagData w) |};
     log := log w |}.

(** The statistics a handler starts from. *)
Definition current_statsData (s : Store) : StatsData :=
  match lru_statsData (cache s) with
  | Some st => st
  | None =>
      match STATS_FILE (disk s) with
      | Some st => st
      | None => no_stats
      end
  end.

(** [counter || 0] *)
Definition or_zero (counter : option Z) : Z :=
  match counter with
  | Some n => n
  | None => 0
  end.

(** The world after a 2xx release list: the request has left, the
    release-list token is assigned and the two dictionaries exist. *)
Definition release_stage (etag : option string) (w : World) : World :=
  {| store := store w;
     etagData :=
       {| releases := etag;
          archives := Some (or_empty_object (archives (etagData w)));
          signatures := Some (or_empty_object (signatures (etagData w)));
          lastFetchTime := lastFetchTime (etagData w) |};
     log := log w ++ [GetReleases (or_empty (releases (etagData w)))] |}.

(** The [If-None-Match] header of the archive request for [tag]. *)
Definition archive_header (w : World) (tag : string) : string :=
  or_empty (or_empty_object (archives (etagData w)) !! tag).

(** The world once the archive request for [tag] has left. *)
Definition asked_archive (tag : string) (w : World) : World :=
  {| store := store w; etagData := etagData w;
     log := log w ++ [GetArchive tag (archive_header w tag)] |}.

(** The world once [etagData.archives[tag] = etag] has run. *)
Definition store_archive_token (tag : string) (etag : option string)
    (w : World) : World :=
  {| store := store w;
     etagData :=
       {| releases := releases (etagData w);
          archives := Some (assign tag etag (or_empty_object (archives (etagData w))));
          signatures := signatures (etagData w);
          lastFetchTime := lastFetchTime (etagData w) |};
     log := log w |}.

(** The ETag that a signature reply makes the code store for its URL:
    [Some etag] when the reply is a 2xx (the header may be missing), [None]
    when the reply is a 304, is refused, or never arrives. *)
Definition stored_etag (u : Upstream) (target_url header : string)
  : option (option string) :=
  match signature_reply u target_url header with
  | NetworkError => None
  | Http st e _ =>
      if validateStatus st && negb (st =? 304) then Some e else None
  end.

(** The signature token of a URL. *)
Definition signature_token (e : ETagData) (target_url : string) : option string :=
  or_empty_object (signatures e) !! target_url.

(** Whether a signature request for the URL is among the started ones. *)
Definition requested (pending : list Pending) (target_url : string) : bool :=
  existsb (fun p => String.eqb (sig_url p) target_url) pending.

(** [statsData] after [statsData.cacheHits = (statsData.cacheHits || 0) + 1]. *)
Definition counted_hit (st : StatsData) : StatsData :=
  {| cacheHits := bump (cacheHits st); fetches := fetches st |}.

(** [statsData] after [statsData.fetches = (statsData.fetches || 0) + 1]. *)
Definition counted_fetch (st : StatsData) : StatsData :=
  {| cacheHits := cacheHits st; fetches := bump (fetches st) |}.

(** A request that [axios.get] rejects: no reply, or a status that
    [validateStatus] refuses. *)
Definition rejected {A : Type} (r : Reply A) : Prop :=
  match r with
  | NetworkError => True
  | Http st _ _ => validateStatus st = false
  end.

(** The last character of a string. *)
Fixpoint last_char (s : string) : option ascii :=
  match s with
  | EmptyString => None
  | String c EmptyString => Some c
  | String _ rest => last_char rest
  end.

(** ** The earlier revision of the server

    The revision of [index.ts] that reads the enabled platforms from
    [config.yml] but keeps a single validator, the ETag of the release
    list: the handler makes the conditional release-list request itself, and
    [fetchGitHubData()] then fetches everything again, unconditionally. *)

Module Legacy.

(** [config.yml] of that revision: one flag for Windows. *)
Record Config := {
  release_repo : string;
  archive_repo : string;
  linux : option bool;
  windows : option bool;
  macos_intel : option bool;
  macos_silicon : option bool
}.

Definition ENABLED_PLATFORMS (cfg : Config) : list (string * bool) :=
  [ ("linux-x86_64", not_false (linux cfg));
    ("windows-x86_64", not_false (windows cfg));
    ("darwin-x86_64", not_false (macos_intel cfg));
    ("darwin-aarch64", not_false (macos_silicon cfg)) ].

Definition enabled (cfg : Config) (platformKey : string) : bool :=
  match entry platformKey (ENABLED_PLATFORMS cfg) with
  | Some b => b
  | None => false
  end.

(** [determinePlatform] of that revision: the rule for [.sig] is there,
    the one for [arm64] is not. *)
Equations determinePlatform (filename : string) : string
  by wf (String.length filename) lt :=
  determinePlatform filename with inspect (endsWith filename ".sig") := {
    | exist _ true Hsig => determinePlatform (slice_to_neg 4 filename)
    | exist _ false _ =>
        if endsWith filename ".AppImage" then "linux-x86_64"
        else if endsWith filename ".msi" then "windows-x86_64"
        else if endsWith filename "_intel.app.tar.gz" then "darwin-x86_64"
        else if endsWith filename "_silicon.app.tar.gz" then "darwin-aarch64"
        else "unknown" }.
Next Obligation.
  intros filename Hsig _. unfold endsWith in Hsig.
  apply andb_prop in Hsig as [Hlen _]. apply Nat.leb_le in Hlen.
  simpl in Hlen. unfold slice_to_neg.
  remember (String.length filename - 4)%nat as n eqn:Hn.
  assert (Hle : (n <= String.length filename)%nat) by lia.
  assert (Hlt : (n < String.length filename)%nat) by lia.
  clear Hn Hlen. revert n Hle Hlt.
  induction filename as [|c s IH]; intros [|n] Hle Hlt; simpl in *; try lia.
  specialize (IH n). lia.
Qed.

(** [./cache/etag.json]: [{ etag }], or [{}]. *)
Record ETag := { etag : option string }.

Record Lru := {
  lru_cacheData : option CacheData;
  lru_statsData : option StatsData;
  lru_etagData : option ETag
}.

Record Disk := {
  CACHE_FILE : option CacheData;
  STATS_FILE : option StatsData;
  ETAG_FILE : option ETag
}.

Record Store := { cache : Lru; disk : Disk }.

(** The requests of that revision; only the release-list request of the
    handler carries [If-None-Match] ([None]: no such header). *)
Inductive Request :=
| GetReleases (if_none_match : option string)
| GetArchive (tag : string)
| GetSignature (target_url : string).

(** A signature request in flight. *)
Record Pending := { target : string; sig_url : string }.

Record World := { store : Store; log : list Request }.

Definition M (A : Type) : Type := World -> (Error + A) * World.

Definition ret {A : Type} (a : A) : M A := fun w => (inr a, w).

Definition bind {A B : Type} (c : M A) (k : A -> M B) : M B :=
  fun w => match c w with
           | (inl e, w') => (inl e, w')
           | (inr a, w') => k a w'
           end.

Definition throw {A : Type} (e : Error) : M A := fun w => (inl e, w).

Definition send (rq : Request) : M unit :=
  fun w => (inr tt, {| store := store w; log := log w ++ [rq] |}).

Definition set_store (s : Store) : M unit :=
  fun w => (inr tt, {| store := s; log := log w |}).

Definition get_world : M World := fun w => (inr w, w).

(** The default [validateStatus] of axios. *)
Definition validateStatus_default (status : Z) : bool :=
  (200 <=? status) && (status <? 300).

(** The promise of an [axios.get] settles. *)
Definition receive {A : Type} (validate : Z -> bool) (r : Reply A) : M (Response A) :=
  match r with
  | NetworkError => throw (AxiosError None)
  | Http st e d =>
      if validate st
      then ret {| status := st; headers_etag := e; data := d |}
      else throw (AxiosError (Some st))
  end.

(** One callback of [files.map] up to its first [await]; [fetchSignature]
    sends a plain request. *)
Definition callback_start (cfg : Config)
    (platformFiles : gmap string PlatformAsset) (file : File)
  : M (gmap string PlatformAsset * option Pending) :=
  let platformKey := determinePlatform (name file) in
  if enabled cfg platformKey then
    if endsWith (name file) ".sig" then
      match platformFiles !! platformKey with
      | Some _ =>
          bind (send (GetSignature (url file)))
               (fun _ => ret (platformFiles,
                              Some {| target := platformKey;
                                      sig_url := url file |}))
      | None => ret (platformFiles, None)
      end
    else
      match platformFiles !! platformKey with
      | None =>
          ret (<[platformKey := {| signature := ""; asset_url := url file |}]>
                 platformFiles, None)
      | Some _ => ret (platformFiles, None)
      end
  else ret (platformFiles, None).

Fixpoint start_all (cfg : Config) (files : list File)
    (platformFiles : gmap string PlatformAsset)
  : M (gmap string PlatformAsset * list Pending) :=
  match files with
  | [] => ret (platformFiles, [])
  | file :: rest =>
      bind (callback_start cfg platformFiles file) (fun r1 =>
      bind (start_all cfg rest (fst r1)) (fun r2 =>
      ret (fst r2,
           match snd r1 with
           | Some p => p :: snd r2
           | None => snd r2
           end)))
  end.

(** [`https://github.com/${GITHUB_ARCHIVE_REPO}/raw/main/${tag}/${file.name}`] *)
Definition file_of (cfg : Config) (tag file_name : string) : File :=
  {| name := file_name;
     url := String.append "https://github.com/"
           (String.append (archive_repo cfg)
           (String.append "/raw/main/"
           (String.append tag (String.append "/" file_name)))) |}.

Definition orderedPlatforms (cfg : Config)
    (platformFiles : gmap string PlatformAsset) : list (string * Descriptor) :=
  map (fun kv : string * bool => (fst kv, descriptor_of platformFiles (fst kv)))
      (List.filter (fun kv : string * bool => snd kv) (ENABLED_PLATFORMS cfg)).

(** An element of the release list; [name] is [null] ([None]) for a
    release without a title. *)
Record Release := {
  name : option string;
  tag_name : string;
  published_at : string
}.

Record Upstream := {
  releases_reply : option string -> Reply (list Release);
  archive_reply : string -> Reply (list string);
  signature_reply : string -> Reply string;
  arrival : list Pending -> list Pending;
  arrival_perm : forall l, Permutation (arrival l) l
}.

(** [fetchSignature(url)] from its [await] on: no [catch]. *)
Definition fetchSignature_receive (u : Upstream) (target_url : string) : M string :=
  bind (receive validateStatus_default (signature_reply u target_url))
       (fun response => ret (data response)).

(** The callbacks resume as their requests complete; the first one that
    throws rejects [Promise.all]. *)
Fixpoint finish_all (u : Upstream) (completed : list Pending)
    (platformFiles : gmap string PlatformAsset)
  : M (gmap string PlatformAsset) :=
  match completed with
  | [] => ret platformFiles
  | p :: rest =>
      bind (fetchSignature_receive u (sig_url p)) (fun sig =>
      finish_all u rest (alter (set_signature sig) (target p) platformFiles))
  end.

Definition Promise_all (cfg : Config) (u : Upstream) (files : list File)
  : M (gmap string PlatformAsset) :=
  bind (start_all cfg files ∅) (fun r =>
  finish_all u (arrival u (snd r)) (fst r)).

Definition writeFile_ETAG_FILE (e : ETag) : M unit :=
  bind get_world (fun w =>
  set_store {| cache := cache (store w);
               disk := {| CACHE_FILE := CACHE_FILE (disk (store w));
                          STATS_FILE := STATS_FILE (disk (store w));
                          ETAG_FILE := Some e |} |}).

Definition writeFile_CACHE_FILE (d : CacheData) : M unit :=
  bind get_world (fun w =>
  set_store {| cache := cache (store w);
               disk := {| CACHE_FILE := Some d;
                          STATS_FILE := STATS_FILE (disk (store w));
                          ETAG_FILE := ETAG_FILE (disk (store w)) |} |}).

(** [fetchGitHubData()] of that revision. *)
Definition fetchGitHubData (cfg : Config) (u : Upstream) : M CacheData :=
  bind (send (GetReleases None)) (fun _ =>
  bind (receive validateStatus_default (releases_reply u None))
       (fun releasesResponse =>
  let latestRelease := head (data releasesResponse) in
  bind (writeFile_ETAG_FILE {| etag := headers_etag releasesResponse |})
       (fun _ =>
  match latestRelease with
  | None => throw TypeError
  | Some latestRelease =>
      let tag := tag_name latestRelease in
      bind (send (GetArchive tag)) (fun _ =>
      bind (receive validateStatus_default (archive_reply u tag))
           (fun filesResponse =>
      bind (Promise_all cfg u (map (file_of cfg tag) (data filesResponse)))
           (fun platformFiles =>
      let cacheData :=
        ManifestData {| version := tag;
                        notes := "A new version is available";
                        pub_date := published_at latestRelease;
                        platforms := orderedPlatforms cfg platformFiles |} in
      bind (writeFile_CACHE_FILE cacheData) (fun _ =>
      ret cacheData))))
  end))).

Definition ensureFilesExist (s : Store) : Store :=
  {| cache := cache s;
     disk := {| CACHE_FILE := ensureFileExists EmptyObject (CACHE_FILE (disk s));
                STATS_FILE := ensureFileExists no_stats (STATS_FILE (disk s));
                ETAG_FILE := ensureFileExists {| etag := None |}
                                              (ETAG_FILE (disk s)) |} |}.

(** [cache.get(key) || JSON.parse(await readFileAsync(file, ...))] *)
Definition get_or_parse {A : Type} (cached file : option A) : option A :=
  match cached with
  | Some o => Some o
  | None => file
  end.

Definition cache_set_cacheData (d : CacheData) (s : Store) : Store :=
  {| cache := {| lru_cacheData := Some d;
                 lru_statsData := lru_statsData (cache s);
                 lru_etagData := lru_etagData (cache s) |};
     disk := disk s |}.

Definition cache_set_statsData (st : StatsData) (s : Store) : Store :=
  {| cache := {| lru_cacheData := lru_cacheData (cache s);
                 lru_statsData := Some st;
                 lru_etagData := lru_etagData (cache s) |};
     disk := disk s |}.

Definition writeFile_STATS_FILE (st : StatsData) (s : Store) : Store :=
  {| cache := cache s;
     disk := {| CACHE_FILE := CACHE_FILE (disk s);
                STATS_FILE := Some st;
                ETAG_FILE := ETAG_FILE (disk s) |} |}.

(** [if (!isBetterUptimeBot) { statsData.fetches = ...;
    cache.set('statsData', statsData) }] *)
Definition count_fetch (isBot : bool) (st : StatsData) (s : Store) : StatsData * Store :=
  if isBot then (st, s)
  else
    let st' := {| cacheHits := cacheHits st; fetches := bump (fetches st) |} in
    (st', cache_set_statsData st' s).

Definition count_hit (isBot : bool) (st : StatsData) (s : Store) : StatsData * Store :=
  if isBot then (st, s)
  else
    let st' := {| cacheHits := bump (cacheHits st); fetches := fetches st |} in
    (st', cache_set_statsData st' s).

Definition persist_stats (isBot : bool) (st : StatsData) (s : Store) : Store :=
  if isBot then s else writeFile_STATS_FILE st s.

(** [cacheData?.version] *)
Definition version_of (d : CacheData) : option string :=
  match d with
  | EmptyObject => None
  | ManifestData m => Some (version m)
  end.

(** [latestReleaseResponse.status !== 304 && latestReleaseResponse.data &&
     latestReleaseResponse.data[0] &&
     latestReleaseResponse.data[0].name !== cacheData?.version]; an array
    is truthy even when empty, and [null] is not identical to a string nor
    to [undefined]. *)
Definition cacheIsOutdated (response : Response (list Release))
    (cacheData : CacheData) : bool :=
  negb (status response =? 304)
  && match head (data response) with
     | None => false
     | Some latest =>
         match name latest, version_of cacheData with
         | Some title, Some v => negb (String.eqb title v)
         | _, _ => true
         end
     end.

Record Served := {
  outcome : Outcome;
  store_after : Store;
  requests : list Request
}.

(** [app.get('/', ...)] of that revision.  File writes do not fail in this
    model, so the outer [catch] takes the rejections of the conditional
    release-list request only. *)
Definition handler (cfg : Config) (u : Upstream) (req : HttpRequest)
    (s0 : Store) : Served :=
  let s := ensureFilesExist s0 in
  match get_or_parse (lru_cacheData (cache s)) (CACHE_FILE (disk s)),
        get_or_parse (lru_statsData (cache s)) (STATS_FILE (disk s)),
        get_or_parse (lru_etagData (cache s)) (ETAG_FILE (disk s)) with
  | Some cacheData, Some statsData, Some etagData =>
      let isBot := isBetterUptimeBot req in
      let header := Some (or_empty (etag etagData)) in
      let asked := [GetReleases header] in
      match receive validateStatus (releases_reply u header)
                    {| store := s; log := asked |} with
      | (inl _, w) =>
          let '(statsData', s1) := count_hit isBot statsData (store w) in
          {| outcome := res_json cacheData;
             store_after := persist_stats isBot statsData' s1;
             requests := log w |}
      | (inr latestReleaseResponse, w) =>
          if cacheIsOutdated latestReleaseResponse cacheData then
            match fetchGitHubData cfg u w with
            | (inr fetched, w') =>
                let s1 := cache_set_cacheData fetched (store w') in
                let '(statsData', s2) := count_fetch isBot statsData s1 in
                {| outcome := res_json fetched;
                   store_after := persist_stats isBot statsData' s2;
                   requests := log w' |}
            | (inl fetchError, w') =>
                if is_403 fetchError then
                  {| outcome := res_json cacheData;
                     store_after := store w';
                     requests := log w' |}
                else
                  {| outcome := res_json cacheData;
                     store_after := persist_stats isBot statsData (store w');
                     requests := log w' |}
            end
          else
            let '(statsData', s1) := count_hit isBot statsData (store w) in
            {| outcome := res_json cacheData;
               store_after := persist_stats isBot statsData' s1;
               requests := log w |}
      end
  | _, _, _ =>
      {| outcome := Escaped ENOENT; store_after := s; requests := [] |}
  end.

(** The manifest, the statistics and the validator a handler starts
    from. *)
Definition current_cacheData (s : Store) : CacheData :=
  match lru_cacheData (cache s) with
  | Some d => d
  | None =>
      match CACHE_FILE (disk s) with
      | Some d => d
      | None => EmptyObject
      end
  end.

Definition current_statsData (s : Store) : StatsData :=
  match lru_statsData (cache s) with
  | Some st => st
  | None =>
      match STATS_FILE (disk s) with
      | Some st => st
      | None => no_stats
      end
  end.

Definition current_etag (s : Store) : ETag :=
  match lru_etagData (cache s) with
  | Some e => e
  | None =>
      match ETAG_FILE (disk s) with
      | Some e => e
      | None => {| etag := None |}
      end
  end.

(** The [If-None-Match] header of the handler's release-list request. *)
Definition conditional_header (s : Store) : option string :=
  Some (or_empty (etag (current_etag s))).

(** The world in which the handler calls [fetchGitHubData()]: its own
    release-list request has been made. *)
Definition refresh_world (s : Store) : World :=
  {| store := ensureFilesExist s;
     log := [GetReleases (conditional_header s)] |}.

(** Whether the handler calls [fetchGitHubData()]: its conditional request
    is accepted and [cacheIsOutdated] holds. *)
Definition refreshes (u : Upstream) (s : Store) : bool :=
  match releases_reply u (conditional_header s) with
  | NetworkError => false
  | Http st e d =>
      validateStatus st
      && cacheIsOutdated {| status := st; headers_etag := e; data := d |}
                         (current_cacheData s)
  end.

(** A request that [axios.get] rejects under its default
    [validateStatus]. *)
Definition rejected {A : Type} (r : Reply A) : Prop :=
  match r with
  | NetworkError => True
  | Http st _ _ => validateStatus_default st = false
  end.

End Legacy.

(** ** Further cases of the deployment *)

Module Cases.

(** The monitoring service. *)
Definition uptime_bot : HttpRequest :=
  {| user_agent := Some "Mozilla/5.0 (compatible; Better Uptime Bot)" |}.

(** The server of [Example.warm 0] after a restart: the LRU is empty, the
    files are there. *)
Definition restarted : Store :=
  {| cache := {| lru_cacheData := None; lru_statsData := None;
                 lru_etagData := None |};
     disk := disk (Example.warm 0) |}.

(** An upstream with a new release list whose archive request fails. *)
Definition archive_down (releases : list Release) : Upstream :=
  {| releases_reply := fun _ => Http 200 (Some "W/r2") releases;
     archive_reply := fun _ _ => Http 500 None [];
     signature_reply := fun _ _ => Http 500 None "";
     arrival := fun l => l;
     arrival_perm := fun l => Permutation_refl l |}.

(** An upstream with new release and archive listings whose signature
    requests fail. *)
Definition archive_listed (releases : list Release) (listing : list string)
  : Upstream :=
  {| releases_reply := fun _ => Http 200 (Some "W/r2") releases;
     archive_reply := fun _ _ => Http 200 (Some "W/a2") listing;
     signature_reply := fun _ _ => NetworkError;
     arrival := fun l => l;
     arrival_perm := fun l => Permutation_refl l |}.

End Cases.

(** ** A deployment of the earlier revision *)

Module LegacyCases.

Definition cfg : Legacy.Config :=
  {| Legacy.release_repo := "user/app"; Legacy.archive_repo := "user/archives";
     Legacy.linux := Some true; Legacy.windows := Some true;
     Legacy.macos_intel := None; Legacy.macos_silicon := Some false |}.

(** The release tagged [v1.1.0], with a title or without one. *)
Definition release (title : option string) : Legacy.Release :=
  {| Legacy.name := title; Legacy.tag_name := "v1.1.0";
     Legacy.published_at := "2024-06-01T10:00:00Z" |}.

(** An upstream whose release list holds [releases], with the given replies
    to the archive request and to the signature requests. *)
Definition upstream (releases : list Legacy.Release)
    (listing : Reply (list string)) (sig : Reply string) : Legacy.Upstream :=
  {| Legacy.releases_reply := fun _ => Http 200 (Some "W/r2") releases;
     Legacy.archive_reply := fun _ => listing;
     Legacy.signature_reply := fun _ => sig;
     Legacy.arrival := fun l => l;
     Legacy.arrival_perm := fun l => Permutation_refl l |}.

(** An upstream whose release list has not changed. *)
Definition not_modified : Legacy.Upstream :=
  {| Legacy.releases_reply := fun _ => Http 304 None [];
     Legacy.archive_reply := fun _ => Http 304 None [];
     Legacy.signature_reply := fun _ => Http 304 None "";
     Legacy.arrival := fun l => l;
     Legacy.arrival_perm := fun l => Permutation_refl l |}.

(** The manifest of [v1.1.0] without any asset. *)
Definition manifest : Manifest :=
  {| version := "v1.1.0";
     notes := "A new version is available";
     pub_date := "2024-06-01T10:00:00Z";
     platforms :=
       [ ("linux-x86_64", EmptyDescriptor);
         ("windows-x86_64", EmptyDescriptor);
         ("darwin-x86_64", EmptyDescriptor) ] |}.

(** A server that holds the manifest [cached] on disk, with the validator
    [W/r1]. *)
Definition holding (cached : Manifest) : Legacy.Store :=
  {| Legacy.cache := {| Legacy.lru_cacheData := None;
                        Legacy.lru_statsData := None;
                        Legacy.lru_etagData := None |};
     Legacy.disk := {| Legacy.CACHE_FILE := Some (ManifestData cached);
                       Legacy.STATS_FILE := None;
                       Legacy.ETAG_FILE := Some {| Legacy.etag := Some "W/r1" |} |} |}.

End LegacyCases.

(** * Properties *)

(** ** Strings *)

Lemma length_substring_0 (s : string) (n : nat) :
  (n <= String.length s)%nat -> String.length (String.substring 0 n s) = n.
Proof.
  revert n. induction s as [|c s IH]; intros [|n] Hn; simpl in *; try lia.
  rewrite IH; lia.
Qed.

Lemma endsWith_length (s suffix : string) :
  endsWith s suffix = true -> (String.length suffix <= String.length s)%nat.
Proof.
  unfold endsWith. intros [H _]%andb_prop. apply Nat.leb_le in H. exact H.
Qed.

Lemma append_cons (c : ascii) (a b : string) :
  String.append (String c a) b = String c (String.append a b).
Proof. reflexivity. Qed.

Lemma length_append (a b : string) :
  String.length (String.append a b) = (String.length a + String.length b)%nat.
Proof.
  induction a as [|c a IH]; [reflexivity|].
  rewrite append_cons. simpl. now rewrite IH.
Qed.

Lemma substring_skip (a b : string) (n : nat) :
  String.substring (String.length a) n (String.append a b) = String.substring 0 n b.
Proof.
  induction a as [|c a IH]; [reflexivity|].
  rewrite append_cons. simpl. exact IH.
Qed.

Lemma substring_all (s : string) :
  String.substring 0 (String.length s) s = s.
Proof. induction s as [|c s IH]; simpl; [reflexivity | now rewrite IH]. Qed.

Lemma substring_app_l (a b : string) :
  String.substring 0 (String.length a) (String.append a b) = a.
Proof.
  induction a as [|c a IH]; [now destruct b|].
  rewrite append_cons. simpl. now rewrite IH.
Qed.

Lemma endsWith_app (a suffix : string) :
  endsWith (String.append a suffix) suffix = true.
Proof.
  unfold endsWith. rewrite length_append. apply andb_true_intro. split.
  - apply Nat.leb_le. lia.
  - replace (String.length a + String.length suffix - String.length suffix)%nat
      with (String.length a) by lia.
    rewrite substring_skip, substring_all. apply String.eqb_refl.
Qed.

Lemma slice_to_neg_app (a suffix : string) :
  slice_to_neg (String.length suffix) (String.append a suffix) = a.
Proof.
  unfold slice_to_neg. rewrite length_append.
  replace (String.length a + String.length suffix - String.length suffix)%nat
    with (String.length a) by lia.
  apply substring_app_l.
Qed.

(** ** The classifier *)

(** The defining equation in the shape of the source text. *)
Lemma determinePlatform_eq (filename : string) :
  determinePlatform filename =
  if endsWith filename ".sig" then determinePlatform (slice_to_neg 4 filename)
  else if endsWith filename ".AppImage" then "linux-x86_64"
  else if endsWith filename ".msi" then
    if includes filename "arm64" then "windows-aarch64" else "windows-x86_64"
  else if endsWith filename "_intel.app.tar.gz" then "darwin-x86_64"
  else if endsWith filename "_silicon.app.tar.gz" then "darwin-aarch64"
  else "unknown".
Proof.
  rewrite determinePlatform_equation_1.
  generalize (inspect (endsWith filename ".sig")).
  intros [b Hb]. destruct b.
  - rewrite determinePlatform_clause_1_equation_1, Hb. reflexivity.
  - rewrite determinePlatform_clause_1_equation_2, Hb. reflexivity.
Qed.

Lemma determinePlatform_range (filename : string) :
  In (determinePlatform filename) platform_ids.
Proof.
  remember (String.length filename) as n eqn:Hn.
  revert filename Hn.
  induction n as [n IH] using lt_wf_ind. intros filename ->.
  rewrite determinePlatform_eq.
  destruct (endsWith filename ".sig") eqn:Hsig.
  - apply (IH (String.length (slice_to_neg 4 filename))); [|reflexivity].
    apply endsWith_length in Hsig. simpl in Hsig. unfold slice_to_neg.
    rewrite length_substring_0; lia.
  - unfold platform_ids, declared_order.
    destruct (endsWith filename ".AppImage"); [simpl; tauto|].
    destruct (endsWith filename ".msi").
    { destruct (includes filename "arm64"); simpl; tauto. }
    destruct (endsWith filename "_intel.app.tar.gz"); [simpl; tauto|].
    destruct (endsWith filename "_silicon.app.tar.gz"); simpl; tauto.
Qed.

(** C6: [determinePlatform] is a total function on file names; it sends
    the names of the spec's examples to the expected platform ids, it only
    ever returns one of the five ids or ["unknown"], and a name that ends in
    none of the suffixes of the naming conventions is ["unknown"]. *)
Theorem C6_determinePlatform_conventions :
  determinePlatform "App-1.2.3.AppImage" = "linux-x86_64"
  /\ determinePlatform "App-1.2.3.msi" = "windows-x86_64"
  /\ determinePlatform "App-1.2.3-arm64.msi" = "windows-aarch64"
  /\ determinePlatform "App_intel.app.tar.gz" = "darwin-x86_64"
  /\ determinePlatform "App_silicon.app.tar.gz" = "darwin-aarch64"
  /\ determinePlatform "readme.txt" = "unknown"
  /\ (forall filename, In (determinePlatform filename) platform_ids)
  /\ (forall filename,
        endsWith filename ".sig" = false ->
        endsWith filename ".AppImage" = false ->
        endsWith filename ".msi" = false ->
        endsWith filename "_intel.app.tar.gz" = false ->
        endsWith filename "_silicon.app.tar.gz" = false ->
        determinePlatform filename = "unknown").
Proof.
  repeat split; try reflexivity.
  - apply determinePlatform_range.
  - intros filename H1 H2 H3 H4 H5.
    rewrite determinePlatform_eq, H1, H2, H3, H4, H5. reflexivity.
Qed.

(** C6 on a name that follows no convention. *)
Lemma C6_determinePlatform_conventions_witness :
  determinePlatform "LICENSE" = "unknown".
Proof.
  apply (proj2 (proj2 (proj2 (proj2 (proj2 (proj2 (proj2
           C6_determinePlatform_conventions)))))));
    reflexivity.
Defined.

(** C7: appending the signature suffix to a file name does not change its
    platform. *)
Theorem C7_determinePlatform_sig (filename : string) :
  determinePlatform (String.append filename ".sig") = determinePlatform filename.
Proof.
  rewrite determinePlatform_eq, endsWith_app.
  change 4%nat with (String.length ".sig").
  rewrite slice_to_neg_app. reflexivity.
Qed.

(** ** The monad *)

Ltac run_M :=
  unfold axios_get, receive, cached_or_file, writeFile_CACHE_FILE,
    writeFile_ETAG_FILE, bind, ret, throw, try_catch, get_world,
    set_etagData, set_store, send in *;
  simpl in *.

(** ** Signature requests never fail the cycle *)

Lemma fetchSignature_receive_total (u : Upstream) (target_url header : string) (w : World) :
  exists sig w',
    fetchSignature_receive u target_url header w = (inr sig, w')
    /\ store w' = store w /\ log w' = log w.
Proof.
  unfold fetchSignature_receive. run_M.
  destruct (signature_reply u target_url header) as [|st e d].
  - eauto.
  - destruct (validateStatus st); [|eauto]. simpl.
    destruct (st =? 304).
    + unfold get_or_read.
      destruct (lru_cacheData (cache (store w))); [eauto|].
      destruct (CACHE_FILE (disk (store w))); eauto.
    + eauto.
Qed.

(** ** The callbacks up to their first [await] *)

Lemma callback_start_cases (cfg : Config) (pf : gmap string PlatformAsset)
    (file : File) (w : World) :
  let key := determinePlatform (name file) in
  (exists a p,
      enabled cfg key = true /\ endsWith (name file) ".sig" = true
      /\ pf !! key = Some a
      /\ p = {| target := key; sig_url := url file;
                sent_etag := signature_header (etagData w) (url file) |}
      /\ callback_start cfg pf file w = (inr (pf, Some p), sent p w))
  \/ (is_base cfg key file /\ pf !! key = None
      /\ callback_start cfg pf file w =
         (inr (<[key := {| signature := ""; asset_url := url file |}]> pf, None), w))
  \/ ((enabled cfg key = false
       \/ (endsWith (name file) ".sig" = true /\ pf !! key = None)
       \/ (endsWith (name file) ".sig" = false /\ is_Some (pf !! key)))
      /\ callback_start cfg pf file w = (inr (pf, None), w)).
Proof.
  intros key. unfold callback_start, is_base. fold key.
  destruct (enabled cfg key) eqn:Hen.
  - destruct (endsWith (name file) ".sig") eqn:Hsig.
    + destruct (pf !! key) as [a|] eqn:Hpf.
      * left. exists a. eexists. repeat split; try reflexivity.
      * right. right. split; [|reflexivity]. right. left. split; reflexivity.
    + destruct (pf !! key) as [a|] eqn:Hpf.
      * right. right. split; [|reflexivity]. right. right. split; eauto.
      * right. left. repeat split.
  - right. right. split; [|reflexivity]. left. reflexivity.
Qed.

Lemma callback_start_total (cfg : Config) (pf : gmap string PlatformAsset)
    (file : File) (w : World) :
  exists pf1 started w1, callback_start cfg pf file w = (inr (pf1, started), w1).
Proof.
  destruct (callback_start_cases cfg pf file w)
    as [(a & p & _ & _ & _ & _ & H) | [(_ & _ & H) | (_ & H)]];
    rewrite H; eauto.
Qed.

Lemma start_all_cons (cfg : Config) (file : File) (rest : list File)
    (pf pf' : gmap string PlatformAsset) (pending : list Pending) (w w' : World) :
  start_all cfg (file :: rest) pf w = (inr (pf', pending), w') ->
  exists pf1 started w1 pending1,
    callback_start cfg pf file w = (inr (pf1, started), w1)
    /\ start_all cfg rest pf1 w1 = (inr (pf', pending1), w')
    /\ pending = match started with
                 | Some p => p :: pending1
                 | None => pending1
                 end.
Proof.
  simpl. unfold bind at 1.
  destruct (callback_start cfg pf file w) as [[e | [pf1 started]] w1];
    [discriminate|].
  unfold bind at 1.
  destruct (start_all cfg rest pf1 w1) as [[e | [pf2 pending1]] w2] eqn:Hrest;
    [discriminate|].
  unfold ret. intros [= <- <- <-].
  exists pf1, started, w1, pending1. auto.
Qed.

Lemma start_all_total (cfg : Config) (files : list File) :
  forall (pf : gmap string PlatformAsset) (w : World),
  exists pf' pending,
    start_all cfg files pf w =
    (inr (pf', pending),
     {| store := store w; etagData := etagData w;
        log := (log w ++ map (fun p => GetSignature (sig_url p) (sent_etag p))
                             pending)%list |}).
Proof.
  induction files as [|file rest IH]; intros pf w.
  - exists pf, []. simpl. unfold ret. rewrite app_nil_r. now destruct w.
  - simpl. unfold bind at 1.
    destruct (callback_start_cases cfg pf file w)
      as [(a & p & _ & _ & _ & _ & H) | [(_ & _ & H) | (_ & H)]]; rewrite H.
    + destruct (IH pf (sent p w)) as (pf' & pending & Hrest).
      unfold bind at 1. rewrite Hrest. unfold ret.
      exists pf', (p :: pending). simpl. now rewrite <- app_assoc.
    + destruct (IH (<[determinePlatform (name file) :=
                       {| signature := ""; asset_url := url file |}]> pf) w)
        as (pf' & pending & Hrest).
      unfold bind at 1. rewrite Hrest. unfold ret. eauto.
    + destruct (IH pf w) as (pf' & pending & Hrest).
      unfold bind at 1. rewrite Hrest. unfold ret. eauto.
Qed.

(** An entry of [platformFiles], once created, is never replaced. *)
Lemma start_all_keeps (cfg : Config) (files : list File) :
  forall (pf pf' : gmap string PlatformAsset) pending (w w' : World) key a,
    start_all cfg files pf w = (inr (pf', pending), w') ->
    pf !! key = Some a -> pf' !! key = Some a.
Proof.
  induction files as [|file rest IH]; intros pf pf' pending w w' key a Hrun Hkey.
  - simpl in Hrun. unfold ret in Hrun. now inversion Hrun; subst.
  - apply start_all_cons in Hrun
      as (pf1 & started & w1 & pending1 & Hstart & Hrest & _).
    eapply IH; [exact Hrest|].
    destruct (callback_start_cases cfg pf file w)
      as [(a0 & p & _ & _ & _ & _ & H) | [(_ & Hnone & H) | (_ & H)]];
      rewrite H in Hstart; inversion Hstart; subst; try assumption.
    rewrite lookup_insert_ne; [assumption|]. congruence.
Qed.

(** Entries are created by base assets only, with an empty signature. *)
Lemma start_all_created (cfg : Config) (files : list File) :
  forall (pf pf' : gmap string PlatformAsset) pending (w w' : World) key a,
    start_all cfg files pf w = (inr (pf', pending), w') ->
    pf' !! key = Some a ->
    pf !! key = Some a
    \/ (pf !! key = None /\ signature a = ""
        /\ exists file, In file files /\ is_base cfg key file
                        /\ asset_url a = url file).
Proof.
  induction files as [|file rest IH]; intros pf pf' pending w w' key a Hrun Hkey.
  - simpl in Hrun. unfold ret in Hrun. inversion Hrun; subst. now left.
  - apply start_all_cons in Hrun
      as (pf1 & started & w1 & pending1 & Hstart & Hrest & _).
    destruct (IH _ _ _ _ _ _ _ Hrest Hkey)
      as [H1 | (H1 & Hsig & file' & Hin & Hbase & Hurl)].
    + destruct (callback_start_cases cfg pf file w)
        as [(a0 & p & _ & _ & _ & _ & H) | [(Hb & Hnone & H) | (_ & H)]];
        rewrite H in Hstart; inversion Hstart; subst; try (now left).
      destruct (decide (determinePlatform (name file) = key)) as [<-|Hne].
      * rewrite lookup_insert_eq in H1. inversion H1; subst. right.
        repeat split; try assumption; try reflexivity.
        exists file. repeat split; try apply Hb. now left.
      * rewrite lookup_insert_ne in H1 by assumption. now left.
    + right.
      assert (pf !! key = None) as Hpf.
      { destruct (pf !! key) as [b|] eqn:Hb; [|reflexivity].
        destruct (callback_start_cases cfg pf file w)
          as [(a0 & p & _ & _ & _ & _ & H) | [(_ & Hnone & H) | (_ & H)]];
          rewrite H in Hstart; inversion Hstart; subst; try congruence.
        rewrite lookup_insert_ne in H1 by congruence. congruence. }
      repeat split; try assumption.
      exists file'. repeat split; try assumption; try apply Hbase. now right.
Qed.

(** A base asset in the list leaves its platform registered. *)
Lemma start_all_registers (cfg : Config) (files : list File) :
  forall (pf pf' : gmap string PlatformAsset) pending (w w' : World) key file,
    start_all cfg files pf w = (inr (pf', pending), w') ->
    In file files -> is_base cfg key file -> is_Some (pf' !! key).
Proof.
  induction files as [|file0 rest IH];
    intros pf pf' pending w w' key file Hrun Hin Hbase; [destruct Hin|].
  apply start_all_cons in Hrun
    as (pf1 & started & w1 & pending1 & Hstart & Hrest & _).
  destruct Hin as [->|Hin]; [|eapply IH; eassumption].
  destruct Hbase as (Hen & Hsig & Hkey).
  assert (is_Some (pf1 !! key)) as [a Ha].
  { destruct (callback_start_cases cfg pf file w)
      as [(a0 & p & _ & Hs & _) | [(_ & _ & H) | ([Hd | [[Hs _] | [_ Hs]]] & H)]];
      try congruence.
    rewrite H in Hstart. inversion Hstart; subst.
    rewrite lookup_insert_eq. eauto. }
  exists a. eapply start_all_keeps; eassumption.
Qed.

(** Every signature request that is started belongs to a signature file
    that comes after a base asset of its platform (or finds the platform
    already registered in the table the pass started from). *)
Lemma start_all_pending (cfg : Config) (files : list File) :
  forall (pf pf' : gmap string PlatformAsset) pending (w w' : World) p,
    start_all cfg files pf w = (inr (pf', pending), w') ->
    In p pending ->
    exists before file after,
      files = (before ++ file :: after)%list
      /\ endsWith (name file) ".sig" = true
      /\ enabled cfg (target p) = true
      /\ target p = determinePlatform (name file)
      /\ sig_url p = url file
      /\ (is_Some (pf !! target p)
          \/ exists base, In base before /\ is_base cfg (target p) base).
Proof.
  induction files as [|file rest IH]; intros pf pf' pending w w' p Hrun Hin.
  - simpl in Hrun. unfold ret in Hrun. inversion Hrun; subst. destruct Hin.
  - apply start_all_cons in Hrun
      as (pf1 & started & w1 & pending1 & Hstart & Hrest & ->).
    destruct (callback_start_cases cfg pf file w)
      as [(a0 & p0 & Hen & Hsig & Hpf & Hp0 & H)
         | [(Hb & Hnone & H) | (_ & H)]];
      rewrite H in Hstart; inversion Hstart; subst pf1 started w1; clear Hstart.
    + destruct Hin as [<- | Hin].
      * exists [], file, rest. subst p0. simpl. repeat split; eauto.
      * destruct (IH _ _ _ _ _ _ Hrest Hin)
          as (before & f & after & -> & Hs & He & Ht & Hu & Hor).
        exists (file :: before), f, after. repeat split; try assumption.
        destruct Hor as [Hsome | (base & Hbin & Hbase)]; [now left|].
        right. exists base. split; [now right | assumption].
    + destruct (IH _ _ _ _ _ _ Hrest Hin)
        as (before & f & after & -> & Hs & He & Ht & Hu & Hor).
      exists (file :: before), f, after. repeat split; try assumption.
      destruct Hor as [Hsome | (base & Hbin & Hbase)].
      * destruct (decide (determinePlatform (name file) = target p)) as [Heq|Hne].
        -- right. exists file. split; [now left|]. rewrite <- Heq. exact Hb.
        -- left. rewrite lookup_insert_ne in Hsome by assumption. exact Hsome.
      * right. exists base. split; [now right | assumption].
    + destruct (IH _ _ _ _ _ _ Hrest Hin)
        as (before & f & after & -> & Hs & He & Ht & Hu & Hor).
      exists (file :: before), f, after. repeat split; try assumption.
      destruct Hor as [Hsome | (base & Hbin & Hbase)]; [now left|].
      right. exists base. split; [now right | assumption].
Qed.

(** A signature file met while its platform has no entry changes nothing:
    the pass runs as if the file were not in the list. *)
Lemma start_all_drop (cfg : Config) (file : File) (after : list File) :
  forall (before : list File) (pf : gmap string PlatformAsset) (w : World),
    endsWith (name file) ".sig" = true ->
    pf !! determinePlatform (name file) = None ->
    (forall base, In base before ->
                  ~ is_base cfg (determinePlatform (name file)) base) ->
    start_all cfg (before ++ file :: after)%list pf w
    = start_all cfg (before ++ after)%list pf w.
Proof.
  induction before as [|b before IH]; intros pf w Hsig Hnone Hnobase.
  - simpl. unfold bind at 1.
    destruct (callback_start_cases cfg pf file w)
      as [(a0 & p0 & _ & _ & Hpf & _) | [((_ & Hs & _) & _) | (_ & H)]];
      try congruence.
    rewrite H. unfold bind, ret.
    destruct (start_all cfg after pf w) as [[e | [pf2 pending]] w2]; reflexivity.
  - simpl. unfold bind at 1 3.
    destruct (callback_start_cases cfg pf b w)
      as [(a0 & p0 & _ & _ & _ & _ & H) | [(Hb & Hn & H) | (_ & H)]];
      rewrite H; unfold bind.
    + rewrite IH; auto. intros base Hin. apply Hnobase. now right.
    + rewrite IH; auto.
      * rewrite lookup_insert_ne; [assumption|].
        intros Heq. apply (Hnobase b); [now left|]. rewrite <- Heq. exact Hb.
      * intros base Hin. apply Hnobase. now right.
    + rewrite IH; auto. intros base Hin. apply Hnobase. now right.
Qed.

(** ** The callbacks after their [await] *)

Lemma finish_all_total (u : Upstream) (completed : list Pending) :
  forall (pf : gmap string PlatformAsset) (w : World),
  exists pf' w',
    finish_all u completed pf w = (inr pf', w')
    /\ store w' = store w /\ log w' = log w
    /\ (forall key, pf !! key = None -> pf' !! key = None)
    /\ (forall key a,
          pf !! key = Some a ->
          exists a', pf' !! key = Some a' /\ asset_url a' = asset_url a
                     /\ ((forall p, In p completed -> target p <> key) -> a' = a)).
Proof.
  induction completed as [|p rest IH]; intros pf w.
  - exists pf, w. simpl. unfold ret. repeat split; eauto.
  - simpl. unfold bind at 1, callback_finish at 1, bind at 1.
    destruct (fetchSignature_receive_total u (sig_url p) (sent_etag p) w)
      as (sig & w1 & Hrecv & Hstore1 & Hlog1).
    rewrite Hrecv. unfold ret at 1.
    destruct (IH (alter (set_signature sig) (target p) pf) w1)
      as (pf' & w' & Hrest & Hstore & Hlog & Hnone & Hsome).
    exists pf', w'. rewrite Hrest. repeat split; try congruence.
    + intros key Hkey. apply Hnone. now apply lookup_alter_None.
    + intros key a Hkey.
      destruct (decide (target p = key)) as [Heq | Hne].
      * destruct (Hsome key (set_signature sig a)) as (a' & Ha' & Hurl & _).
        { rewrite <- Heq in *. rewrite lookup_alter_eq, Hkey. reflexivity. }
        exists a'. repeat split; try assumption.
        intros Hno. exfalso. apply (Hno p); [now left | exact Heq].
      * destruct (Hsome key a) as (a' & Ha' & Hurl & Hsame).
        { rewrite lookup_alter_ne by exact Hne. exact Hkey. }
        exists a'. repeat split; try assumption.
        intros Hno. apply Hsame. intros q Hq. apply Hno. now right.
Qed.

(** ** The manifest *)

Lemma keys_orderedPlatforms (cfg : Config) (pf : gmap string PlatformAsset) :
  map fst (orderedPlatforms cfg pf) = List.filter (enabled cfg) declared_order.
Proof.
  unfold orderedPlatforms, ENABLED_PLATFORMS, declared_order, enabled,
    ENABLED_PLATFORMS.
  destruct (not_false (linux cfg)), (not_false (windows_x86 cfg)),
    (not_false (windows_arm64 cfg)), (not_false (macos_intel cfg)),
    (not_false (macos_silicon cfg)); reflexivity.
Qed.

Lemma entry_orderedPlatforms (cfg : Config) (pf : gmap string PlatformAsset)
    (key : string) :
  entry key (orderedPlatforms cfg pf)
  = if enabled cfg key then Some (descriptor_of pf key) else None.
Proof.
  unfold orderedPlatforms, enabled, ENABLED_PLATFORMS.
  destruct (not_false (linux cfg)), (not_false (windows_x86 cfg)),
    (not_false (windows_arm64 cfg)), (not_false (macos_intel cfg)),
    (not_false (macos_silicon cfg));
    cbn [map List.filter snd fst entry];
    repeat match goal with
      | |- context [String.eqb ?k key] =>
          let E := fresh "E" in
          destruct (String.eqb k key) eqn:E;
          [apply String.eqb_eq in E; subst key; reflexivity|]
      end; reflexivity.
Qed.

Lemma Promise_all_run (cfg : Config) (u : Upstream) (files : list File) (w : World) :
  exists pf pending w1 pf' w',
    start_all cfg files ∅ w = (inr (pf, pending), w1)
    /\ finish_all u (arrival u pending) pf w1 = (inr pf', w')
    /\ Promise_all cfg u files w = (inr pf', w')
    /\ store w' = store w
    /\ log w' = (log w ++ map (fun p => GetSignature (sig_url p) (sent_etag p))
                           pending)%list.
Proof.
  destruct (start_all_total cfg files ∅ w) as (pf & pending & Hstart).
  destruct (finish_all_total u (arrival u pending) pf
              {| store := store w; etagData := etagData w;
                 log := (log w ++ map (fun p => GetSignature (sig_url p) (sent_etag p))
                                      pending)%list |})
    as (pf' & w' & Hfin & Hstore & Hlog & _).
  eexists pf, pending, _, pf', w'. repeat split; try eassumption.
  unfold Promise_all, bind. rewrite Hstart. exact Hfin.
Qed.

Lemma build_run (cfg : Config) (u : Upstream) (latestRelease : Release)
    (files : list File) (w w' : World) (pf' : gmap string PlatformAsset) :
  Promise_all cfg u files w = (inr pf', w') ->
  build cfg u latestRelease files w
  = (inr {| ref := Allocated; val := ManifestData (built cfg latestRelease pf') |},
     {| store := {| cache := cache (store w');
                    disk := {| CACHE_FILE :=
                                 Some (ManifestData (built cfg latestRelease pf'));
                               STATS_FILE := STATS_FILE (disk (store w'));
                               ETAG_FILE := Some (etagData w') |} |};
        etagData := etagData w';
        log := log w' |}).
Proof.
  intros H. unfold build, bind at 1. rewrite H. reflexivity.
Qed.

(** C4: the manifest that the pipeline builds from a file list has, as the
    keys of [platforms], exactly the enabled platforms in the declared
    order; a platform that is not enabled is not a key; an enabled platform
    for which the list holds no base asset has the empty object as its
    descriptor, and one for which it holds a base asset has an asset
    descriptor. *)
Theorem C4_platform_keys (cfg : Config) (u : Upstream) (latestRelease : Release)
    (files : list File) (w : World) :
  exists m w',
    build cfg u latestRelease files w
    = (inr {| ref := Allocated; val := ManifestData m |}, w')
    /\ map fst (platforms m) = List.filter (enabled cfg) declared_order
    /\ (forall key, enabled cfg key = false -> ~ In key (map fst (platforms m)))
    /\ (forall key,
          enabled cfg key = true ->
          (forall file, In file files ->
                        endsWith (name file) ".sig" = false ->
                        determinePlatform (name file) <> key) ->
          entry key (platforms m) = Some EmptyDescriptor)
    /\ (forall key file,
          enabled cfg key = true ->
          In file files ->
          endsWith (name file) ".sig" = false ->
          determinePlatform (name file) = key ->
          exists a, entry key (platforms m) = Some (Asset a)).
Proof.
  destruct (Promise_all_run cfg u files w)
    as (pf & pending & w1 & pf' & w' & Hstart & Hfin & Hall & _ & _).
  eexists (built cfg latestRelease pf'), _.
  split; [apply (build_run _ _ _ _ _ _ _ Hall)|].
  cbn [built platforms].
  destruct (finish_all_total u (arrival u pending) pf w1)
    as (pf'' & w'' & Hfin' & _ & _ & Hnone & Hsome).
  rewrite Hfin in Hfin'. inversion Hfin'; subst pf'' w''; clear Hfin'.
  split; [apply keys_orderedPlatforms|]. split; [|split].
  - intros key Hdis Hin. rewrite keys_orderedPlatforms in Hin.
    apply filter_In in Hin as [_ Hen]. congruence.
  - intros key Hen Hnobase.
    rewrite entry_orderedPlatforms, Hen. unfold descriptor_of.
    rewrite Hnone; [reflexivity|].
    destruct (pf !! key) as [a|] eqn:Hpf; [|reflexivity].
    destruct (start_all_created _ _ _ _ _ _ _ _ _ Hstart Hpf)
      as [Hempty | (_ & _ & file & Hin & (_ & Hsig & Hkey) & _)].
    + rewrite lookup_empty in Hempty. discriminate.
    + exfalso. exact (Hnobase file Hin Hsig Hkey).
  - intros key file Hen Hin Hsig Hkey.
    rewrite entry_orderedPlatforms, Hen. unfold descriptor_of.
    destruct (start_all_registers _ _ _ _ _ _ _ key file Hstart Hin) as [a Ha].
    { repeat split; assumption. }
    destruct (Hsome key a Ha) as (a' & Ha' & _).
    rewrite Ha'. eauto.
Qed.

(** ** Signature pairing *)

Lemma classic_pending (pending : list Pending) (key : string) :
  (exists p, In p pending /\ target p = key)
  \/ (forall p, In p pending -> target p <> key).
Proof.
  induction pending as [|q rest [(p & Hin & Heq) | Hno]].
  - right. intros p [].
  - left. exists p. split; [now right | exact Heq].
  - destruct (decide (target q = key)) as [Heq | Hne].
    + left. exists q. split; [now left | exact Heq].
    + right. intros p [<- | Hin]; [exact Hne | now apply Hno].
Qed.

(** C5, as the code has it: a signature request is started, and its result attached
    to a platform entry, only for a signature file that comes after a base
    asset of the same enabled platform; a signature file processed while no
    base asset of its platform is registered is dropped, the construction
    running exactly as without it; and when no signature file of a platform
    comes after a base asset of it, the descriptor of that platform is the
    empty object if the list has no base asset for it, and has an empty
    signature string otherwise. *)
Theorem C5_signature_pairing (cfg : Config) (u : Upstream)
    (files : list File) (w : World) :
  exists pf pending w1 pf' w',
    start_all cfg files ∅ w = (inr (pf, pending), w1)
    /\ finish_all u (arrival u pending) pf w1 = (inr pf', w')
    /\ Promise_all cfg u files w = (inr pf', w')
    /\ (forall p, In p (arrival u pending) ->
          exists before file after base,
            files = (before ++ file :: after)%list
            /\ endsWith (name file) ".sig" = true
            /\ target p = determinePlatform (name file)
            /\ sig_url p = url file
            /\ In base before /\ is_base cfg (target p) base)
    /\ (forall key a, pf' !! key = Some a -> signature a <> "" ->
          exists p, In p pending /\ target p = key)
    /\ (forall before file after,
          files = (before ++ file :: after)%list ->
          endsWith (name file) ".sig" = true ->
          (forall base, In base before ->
                        ~ is_base cfg (determinePlatform (name file)) base) ->
          Promise_all cfg u files w = Promise_all cfg u (before ++ after)%list w)
    /\ (forall key,
          all_signatures_early cfg key files ->
          (descriptor_of pf' key = EmptyDescriptor
           /\ forall base, In base files -> ~ is_base cfg key base)
          \/ (exists a base, descriptor_of pf' key = Asset a
                             /\ signature a = ""
                             /\ In base files /\ is_base cfg key base
                             /\ asset_url a = url base)).
Proof.
  destruct (Promise_all_run cfg u files w)
    as (pf & pending & w1 & pf' & w' & Hstart & Hfin & Hall & _ & _).
  exists pf, pending, w1, pf', w'.
  destruct (finish_all_total u (arrival u pending) pf w1)
    as (pf'' & w'' & Hfin' & _ & _ & Hnone & Hsome).
  rewrite Hfin in Hfin'. inversion Hfin'; subst pf'' w''; clear Hfin'.
  assert (Hpending : forall p, In p pending ->
            exists before file after base,
              files = (before ++ file :: after)%list
              /\ endsWith (name file) ".sig" = true
              /\ target p = determinePlatform (name file)
              /\ sig_url p = url file
              /\ In base before /\ is_base cfg (target p) base).
  { intros p Hin.
    destruct (start_all_pending _ _ _ _ _ _ _ _ Hstart Hin)
      as (before & file & after & Hfiles & Hsig & _ & Ht & Hu & Hor).
    destruct Hor as [[a Ha] | (base & Hb & Hbase)].
    - rewrite lookup_empty in Ha. discriminate.
    - exists before, file, after, base. repeat split; try assumption;
        apply Hbase. }
  assert (Huntouched : forall key,
            (forall p, In p pending -> target p <> key) ->
            pf' !! key = pf !! key).
  { intros key Hno. destruct (pf !! key) as [a|] eqn:Hpf.
    - destruct (Hsome key a Hpf) as (a' & Ha' & _ & Hsame).
      rewrite Ha'. f_equal. apply Hsame. intros p Hin. apply Hno.
      exact (Permutation_in _ (arrival_perm u pending) Hin).
    - now apply Hnone. }
  repeat split; try assumption.
  - intros p Hin. apply Hpending.
    exact (Permutation_in _ (arrival_perm u pending) Hin).
  - intros key a Ha Hsig.
    destruct (classic_pending pending key) as [Hex | Hno]; [exact Hex|].
    exfalso. rewrite (Huntouched key Hno) in Ha.
    destruct (start_all_created _ _ _ _ _ _ _ _ _ Hstart Ha)
      as [Hempty | (_ & Hs & _)].
    + rewrite lookup_empty in Hempty. discriminate.
    + contradiction.
  - intros before file after -> Hsig Hnobase.
    unfold Promise_all, bind.
    rewrite start_all_drop; [reflexivity | exact Hsig | apply lookup_empty
                            | exact Hnobase].
  - intros key Hearly.
    assert (Hno : forall p, In p pending -> target p <> key).
    { intros p Hin Heq.
      destruct (Hpending p Hin)
        as (before & file & after & base & Hfiles & Hsig & Ht & _ & Hb & Hbase).
      rewrite Heq in *.
      exact (Hearly before file after Hfiles Hsig (eq_sym Ht) base Hb Hbase). }
    unfold descriptor_of. rewrite (Huntouched key Hno).
    destruct (pf !! key) as [a|] eqn:Hpf.
    + right.
      destruct (start_all_created _ _ _ _ _ _ _ _ _ Hstart Hpf)
        as [Hempty | (_ & Hs & base & Hin & Hbase & Hurl)].
      * rewrite lookup_empty in Hempty. discriminate.
      * exists a, base. repeat split; try assumption; apply Hbase.
    + left. split; [reflexivity|]. intros base Hin Hbase.
      destruct (start_all_registers _ _ _ _ _ _ _ key base Hstart Hin Hbase)
        as [a Ha].
      congruence.
Qed.

(** C5, counterexample: in the listing below the first two signature
    files are processed while no base asset of their platform is
    registered, and are dropped (the only signature request is the one of
    the last file); yet the descriptor of the first one's platform is the
    empty object, which has no signature string, and that of the second
    one's holds the signature that the last file attached. *)
Lemma C5_counterexample :
  let u :=
    Example.upstream [Example.release]
      [ "App-1.0.0.AppImage.sig"; "App-1.0.0.msi.sig";
        "App-1.0.0.msi"; "App-1.0.1.msi.sig" ] in
  fst (fetchGitHubData Example.cfg u Example.cold_world)
  = inr {| ref := Allocated;
           val := ManifestData
             {| version := "v1.0.0";
                notes := "A new version is available";
                pub_date := "2024-05-01T10:00:00Z";
                platforms :=
                  [ ("linux-x86_64", EmptyDescriptor);
                    ("windows-x86_64",
                     Asset {| signature := "SIGNATURE";
                              asset_url :=
                                "https://github.com/user/archives/raw/main/v1.0.0/App-1.0.0.msi" |});
                    ("darwin-x86_64", EmptyDescriptor);
                    ("darwin-aarch64", EmptyDescriptor) ] |} |}
  /\ log (snd (fetchGitHubData Example.cfg u Example.cold_world))
     = [ GetReleases ""; GetArchive "v1.0.0" "";
         GetSignature
           "https://github.com/user/archives/raw/main/v1.0.0/App-1.0.1.msi.sig"
           "" ].
Proof. split; vm_compute; reflexivity. Qed.

(** ** The release-list stage *)

Lemma fetch_not_modified (cfg : Config) (u : Upstream) (w : World)
    (e : option string) (d : list Release) :
  releases_reply u (or_empty (releases (etagData w))) = Http 304 e d ->
  fetchGitHubData cfg u w = cached_or_file (asked_releases w).
Proof.
  intros H. unfold fetchGitHubData. run_M. rewrite H. reflexivity.
Qed.

Lemma fetch_rejected (cfg : Config) (u : Upstream) (w : World)
    (st : Z) (e : option string) (d : list Release) :
  releases_reply u (or_empty (releases (etagData w))) = Http st e d ->
  validateStatus st = false ->
  fetchGitHubData cfg u w = (inl (AxiosError (Some st)), asked_releases w).
Proof.
  intros H Hv. unfold fetchGitHubData. run_M. rewrite H. simpl.
  rewrite Hv. reflexivity.
Qed.

Lemma validateStatus_2xx (st : Z) :
  200 <= st < 300 -> validateStatus st = true /\ (st =? 304) = false.
Proof. unfold validateStatus. lia. Qed.

(** C2: when the release list answers 304, the pipeline returns the cached
    manifest as it is, leaves the store and the validator tokens untouched,
    and the release-list request is the only request it has made. *)
Theorem C2_release_list_not_modified (cfg : Config) (u : Upstream) (w : World)
    (e : option string) (d : list Release) (r : Ref) (cached : CacheData) :
  releases_reply u (or_empty (releases (etagData w))) = Http 304 e d ->
  get_or_read (lru_cacheData (cache (store w))) (CACHE_FILE (disk (store w)))
  = Some (r, cached) ->
  fetchGitHubData cfg u w
  = (inr {| ref := r; val := cached |},
     {| store := store w; etagData := etagData w;
        log := (log w ++ [GetReleases (or_empty (releases (etagData w)))])%list |}).
Proof.
  intros H Hc. rewrite (fetch_not_modified _ _ _ _ _ H).
  unfold cached_or_file, asked_releases. simpl. rewrite Hc. reflexivity.
Qed.

(** C9: against an upstream that answers 304 to every conditional request,
    two runs of the pipeline in a row return the same manifest, and after
    each of them the validator tokens and the store are what they were
    before the first. *)
Theorem C9_idempotent_when_not_modified (cfg : Config) (u1 u2 : Upstream)
    (w : World) (r : Ref) (cached : CacheData) :
  not_modified u1 -> not_modified u2 ->
  get_or_read (lru_cacheData (cache (store w))) (CACHE_FILE (disk (store w)))
  = Some (r, cached) ->
  exists w1 w2,
    fetchGitHubData cfg u1 w = (inr {| ref := r; val := cached |}, w1)
    /\ fetchGitHubData cfg u2 w1 = (inr {| ref := r; val := cached |}, w2)
    /\ etagData w1 = etagData w /\ etagData w2 = etagData w
    /\ store w1 = store w /\ store w2 = store w
    /\ log w2 = (log w ++ [ GetReleases (or_empty (releases (etagData w)));
                            GetReleases (or_empty (releases (etagData w))) ])%list.
Proof.
  intros [H1 _] [H2 _] Hc.
  destruct (H1 (or_empty (releases (etagData w)))) as (e1 & d1 & Hr1).
  destruct (H2 (or_empty (releases (etagData w)))) as (e2 & d2 & Hr2).
  eexists (asked_releases w), (asked_releases (asked_releases w)).
  rewrite (fetch_not_modified _ _ _ _ _ Hr1).
  rewrite (fetch_not_modified cfg u2 (asked_releases w) e2 d2 Hr2).
  unfold cached_or_file, asked_releases. simpl. rewrite Hc.
  repeat split. now rewrite <- app_assoc.
Qed.

(** C10: a 2xx release list that is empty makes the pipeline throw a
    [TypeError] at [latestRelease.tag_name]: no manifest is produced and no
    further request is made, whatever the world it runs in; the
    release-list token has been advanced in memory by then. *)
Theorem C10_empty_release_list (cfg : Config) (u : Upstream) (w : World)
    (st : Z) (e : option string) :
  releases_reply u (or_empty (releases (etagData w))) = Http st e [] ->
  200 <= st < 300 ->
  exists w',
    fetchGitHubData cfg u w = (inl TypeError, w')
    /\ log w' = (log w ++ [GetReleases (or_empty (releases (etagData w)))])%list
    /\ store w' = store w
    /\ releases (etagData w') = e.
Proof.
  intros H Hst. apply validateStatus_2xx in Hst as [Hv H304].
  unfold fetchGitHubData. run_M. rewrite H. simpl. rewrite Hv. simpl.
  rewrite H304. eexists. split; [reflexivity|]. simpl. auto.
Qed.

(** ** The archive-listing stage *)

Lemma orderedPlatforms_empty (cfg : Config) :
  orderedPlatforms cfg ∅
  = map (fun key => (key, EmptyDescriptor)) (List.filter (enabled cfg) declared_order).
Proof.
  unfold orderedPlatforms, ENABLED_PLATFORMS, declared_order, enabled,
    ENABLED_PLATFORMS.
  destruct (not_false (linux cfg)), (not_false (windows_x86 cfg)),
    (not_false (windows_arm64 cfg)), (not_false (macos_intel cfg)),
    (not_false (macos_silicon cfg)); reflexivity.
Qed.

Lemma Promise_all_nil (cfg : Config) (u : Upstream) (w : World) :
  Promise_all cfg u [] w = (inr ∅, w).
Proof.
  unfold Promise_all. simpl. unfold bind, ret.
  rewrite (Permutation_nil (Permutation_sym (arrival_perm u []))).
  reflexivity.
Qed.

(** C3: when the release list answers 2xx and the archive listing of the
    latest tag answers 304, the pipeline returns the cached manifest as it
    is if its version is that tag; otherwise it builds, from an empty file
    set, the manifest of that tag in which every enabled platform has the
    empty object as its descriptor.  No signature request is made. *)
Theorem C3_archive_not_modified (cfg : Config) (u : Upstream) (w : World)
    (st : Z) (e e2 : option string) (latestRelease : Release)
    (older : list Release) (d2 : list string) (r : Ref) (cached : CacheData) :
  let tag := tag_name latestRelease in
  let h := or_empty (releases (etagData w)) in
  let h2 := or_empty (or_empty_object (archives (etagData w)) !! tag) in
  releases_reply u h = Http st e (latestRelease :: older) ->
  200 <= st < 300 ->
  archive_reply u tag h2 = Http 304 e2 d2 ->
  get_or_read (lru_cacheData (cache (store w))) (CACHE_FILE (disk (store w)))
  = Some (r, cached) ->
  exists w',
    fetchGitHubData cfg u w
    = (inr (if version_is cached tag
            then {| ref := r; val := cached |}
            else {| ref := Allocated;
                    val := ManifestData (degraded cfg latestRelease) |}),
       w')
    /\ log w' = (log w ++ [GetReleases h; GetArchive tag h2])%list.
Proof.
  intros tag h h2 Hrel Hst Harch Hc.
  apply validateStatus_2xx in Hst as [Hv H304].
  unfold fetchGitHubData. run_M. fold h. rewrite Hrel. simpl.
  rewrite Hv. simpl. rewrite H304. simpl. fold tag. fold h2.
  rewrite Harch. simpl. rewrite Hc. cbn [val].
  destruct (version_is cached tag).
  - eexists. split; [reflexivity|]. simpl. now rewrite <- app_assoc.
  - unfold build, bind at 1. rewrite Promise_all_nil.
    unfold bind, writeFile_CACHE_FILE, writeFile_ETAG_FILE, bind, get_world,
      set_store, ret. simpl.
    rewrite orderedPlatforms_empty.
    eexists. split; [reflexivity|]. simpl. now rewrite <- app_assoc.
Qed.

(** ** The handlers *)

Lemma read_cacheData (s : Store) :
  get_or_read (lru_cacheData (cache (ensureFilesExist s)))
              (CACHE_FILE (disk (ensureFilesExist s)))
  = Some (origin (lru_cacheData (cache s)), current_cacheData s).
Proof.
  unfold current_cacheData, get_or_read, origin. simpl.
  destruct (lru_cacheData (cache s)); [reflexivity|].
  destruct (CACHE_FILE (disk s)); reflexivity.
Qed.

Lemma read_etagData (s : Store) :
  get_or_read (lru_etagData (cache (ensureFilesExist s)))
              (ETAG_FILE (disk (ensureFilesExist s)))
  = Some (origin (lru_etagData (cache s)), current_etagData s).
Proof.
  unfold current_etagData, get_or_read, origin. simpl.
  destruct (lru_etagData (cache s)); [reflexivity|].
  destruct (ETAG_FILE (disk s)); reflexivity.
Qed.

Lemma read_statsData (s : Store) :
  exists r st,
    get_or_read (lru_statsData (cache (ensureFilesExist s)))
                (STATS_FILE (disk (ensureFilesExist s)))
    = Some (r, st).
Proof.
  unfold get_or_read. simpl.
  destruct (lru_statsData (cache s)); [eauto|].
  destruct (STATS_FILE (disk s)); simpl; eauto.
Qed.

(** Counting and persisting statistics, and sharing the [etagData] object,
    leave the cached manifest alone. *)
Lemma current_cacheData_stats (count : bool -> StatsData -> Store -> StatsData * Store)
    (isBot : bool) (st : StatsData) (s : Store) :
  count = count_hit \/ count = count_fetch ->
  current_cacheData (persist_stats isBot (fst (count isBot st s))
                                   (snd (count isBot st s)))
  = current_cacheData s.
Proof.
  intros [-> | ->]; unfold count_hit, count_fetch, persist_stats;
    destruct isBot; reflexivity.
Qed.

Lemma current_cacheData_after_fetch (alias : Ref) (w : World) :
  current_cacheData (store_after_fetch alias w) = current_cacheData (store w).
Proof. destruct alias; reflexivity. Qed.

Lemma current_cacheData_ensure (s : Store) :
  current_cacheData (ensureFilesExist s) = current_cacheData s.
Proof.
  unfold current_cacheData. simpl.
  destruct (lru_cacheData (cache s)); [reflexivity|].
  destruct (CACHE_FILE (disk s)); reflexivity.
Qed.

Lemma current_etagData_ensure (s : Store) :
  current_etagData (ensureFilesExist s) = current_etagData s.
Proof.
  unfold current_etagData. simpl.
  destruct (lru_etagData (cache s)); [reflexivity|].
  destruct (ETAG_FILE (disk s)); reflexivity.
Qed.

(** What [handler] answers, by the way the fetch cycle ended. *)
Lemma handler_outcome (cfg : Config) (u : Upstream) (req : HttpRequest) (s : Store) :
  outcome (handler cfg u req s)
  = res_json match fst (fetchGitHubData cfg u (fetch_world s)) with
             | inr fetched =>
                 if is_empty (current_cacheData s) then val fetched
                 else if not_identical fetched
                           {| ref := origin (lru_cacheData (cache s));
                              val := current_cacheData s |}
                      then val fetched
                      else current_cacheData s
             | inl _ => current_cacheData s
             end
  /\ requests (handler cfg u req s)
     = log (snd (fetchGitHubData cfg u (fetch_world s))).
Proof.
  unfold handler. rewrite read_cacheData, read_etagData.
  destruct (read_statsData s) as (r & st & ->).
  unfold fetch_world.
  destruct (fetchGitHubData cfg u _) as [[err | fetched] w]; cbn [fst snd val].
  - destruct (is_empty (current_cacheData s)).
    + destruct (is_403 err); split; reflexivity.
    + unfold count_hit. destruct (isBetterUptimeBot req); split; reflexivity.
  - destruct (is_empty (current_cacheData s)).
    + unfold count_fetch. destruct (isBetterUptimeBot req); split; reflexivity.
    + destruct (not_identical fetched _);
        unfold count_fetch, count_hit;
        destruct (isBetterUptimeBot req); split; reflexivity.
Qed.

(** The same for the handler with the interval. *)
Lemma interval_handler_outcome (cfg : Config) (u : Upstream) (now : Z)
    (req : HttpRequest) (s : Store) :
  (Interval.trust_cache (current_cacheData s) (current_etagData s) now = true ->
   outcome (Interval.handler cfg u now req s) = res_json (current_cacheData s)
   /\ requests (Interval.handler cfg u now req s) = [])
  /\ (Interval.trust_cache (current_cacheData s) (current_etagData s) now = false ->
      outcome (Interval.handler cfg u now req s)
      = res_json match fst (fetchGitHubData cfg u (fetch_world s)) with
                 | inr fetched => val fetched
                 | inl _ => current_cacheData s
                 end
      /\ requests (Interval.handler cfg u now req s)
         = log (snd (fetchGitHubData cfg u (fetch_world s)))).
Proof.
  unfold Interval.handler. rewrite read_cacheData, read_etagData.
  destruct (read_statsData s) as (r & st & ->).
  unfold fetch_world.
  split; intros ->.
  - unfold count_hit. destruct (isBetterUptimeBot req); split; reflexivity.
  - destruct (fetchGitHubData cfg u _) as [[err | fetched] w]; cbn [fst snd].
    + unfold count_hit. destruct (isBetterUptimeBot req); split; reflexivity.
    + unfold count_fetch. destruct (isBetterUptimeBot req); split; reflexivity.
Qed.

(** ** Every fetch cycle begins with the release-list request *)

Lemma build_log (cfg : Config) (u : Upstream) (latestRelease : Release)
    (files : list File) (w : World) :
  exists rest, log (snd (build cfg u latestRelease files w)) = (log w ++ rest)%list.
Proof.
  destruct (Promise_all_run cfg u files w)
    as (pf & pending & w1 & pf' & w' & _ & _ & Hall & _ & Hlog).
  rewrite (build_run _ _ _ _ _ _ _ Hall). simpl. eauto.
Qed.

Lemma fetch_log_prefix (cfg : Config) (u : Upstream) (w : World) :
  exists rest,
    log (snd (fetchGitHubData cfg u w))
    = (log w ++ GetReleases (or_empty (releases (etagData w))) :: rest)%list.
Proof.
  unfold fetchGitHubData. run_M.
  destruct (releases_reply u _) as [|st e d]; simpl; [now exists []|].
  destruct (validateStatus st); simpl; [|now exists []].
  destruct (st =? 304).
  { destruct (get_or_read _ _) as [[r c]|]; simpl; now exists []. }
  destruct (head d) as [latestRelease|]; simpl; [|now exists []].
  match goal with
  | |- context [archive_reply u ?t ?h] =>
      destruct (archive_reply u t h) as [|st2 e2 d2]; simpl
  end.
  { eexists. rewrite <- app_assoc. reflexivity. }
  destruct (validateStatus st2); simpl.
  2:{ eexists. rewrite <- app_assoc. reflexivity. }
  destruct (st2 =? 304); simpl.
  - destruct (get_or_read _ _) as [[r c]|]; simpl.
    + destruct (version_is c (tag_name latestRelease)).
      * simpl. eexists. rewrite <- app_assoc. reflexivity.
      * match goal with
        | |- context [build cfg u ?r ?f ?w0] =>
            destruct (build_log cfg u r f w0) as (rest & ->)
        end.
        simpl. eexists. rewrite <- !app_assoc. reflexivity.
    + eexists. rewrite <- app_assoc. reflexivity.
  - match goal with
    | |- context [build cfg u ?r ?f ?w0] =>
        destruct (build_log cfg u r f w0) as (rest & ->)
    end.
    simpl. eexists. rewrite <- !app_assoc. reflexivity.
Qed.

(** ** What the handlers leave in the store *)

Lemma handler_keeps_cache_on_failure (cfg : Config) (u : Upstream)
    (req : HttpRequest) (s : Store) (err : Error) (w : World) :
  fetchGitHubData cfg u (fetch_world s) = (inl err, w) ->
  current_cacheData (store_after (handler cfg u req s)) = current_cacheData (store w).
Proof.
  intros Hf. unfold handler. rewrite read_cacheData, read_etagData.
  destruct (read_statsData s) as (r & st & ->).
  unfold fetch_world in Hf. rewrite Hf. cbn [val].
  destruct (is_empty (current_cacheData s)).
  - destruct (is_403 err); cbn [store_after];
      [|unfold persist_stats; destruct (isBetterUptimeBot req)];
      destruct (origin (lru_etagData (cache s))); reflexivity.
  - unfold count_hit, persist_stats.
    destruct (isBetterUptimeBot req), (origin (lru_etagData (cache s)));
      reflexivity.
Qed.

Lemma interval_keeps_cache_on_failure (cfg : Config) (u : Upstream) (now : Z)
    (req : HttpRequest) (s : Store) (err : Error) (w : World) :
  fetchGitHubData cfg u (fetch_world s) = (inl err, w) ->
  store w = ensureFilesExist s ->
  current_cacheData (store_after (Interval.handler cfg u now req s))
  = current_cacheData s.
Proof.
  intros Hf Hs. unfold Interval.handler. rewrite read_cacheData, read_etagData.
  destruct (read_statsData s) as (r & st & ->).
  unfold fetch_world in Hf. rewrite Hf.
  destruct (Interval.trust_cache _ _ _).
  - transitivity (current_cacheData (ensureFilesExist s));
      [|apply current_cacheData_ensure].
    unfold count_hit, persist_stats.
    destruct (isBetterUptimeBot req); reflexivity.
  - transitivity (current_cacheData (store w));
      [|rewrite Hs; apply current_cacheData_ensure].
    unfold count_hit, persist_stats.
    destruct (isBetterUptimeBot req), (origin (lru_etagData (cache s)));
      reflexivity.
Qed.

Lemma interval_store_after_success (cfg : Config) (u : Upstream) (now : Z)
    (req : HttpRequest) (s : Store) (fetched : Obj) (w : World) :
  Interval.trust_cache (current_cacheData s) (current_etagData s) now = false ->
  fetchGitHubData cfg u (fetch_world s) = (inr fetched, w) ->
  current_cacheData (store_after (Interval.handler cfg u now req s)) = val fetched
  /\ current_etagData (store_after (Interval.handler cfg u now req s))
     = Interval.set_lastFetchTime now (etagData w).
Proof.
  intros Ht Hf. unfold Interval.handler. rewrite read_cacheData, read_etagData.
  destruct (read_statsData s) as (r & st & ->).
  rewrite Ht. unfold fetch_world in Hf. rewrite Hf.
  unfold count_fetch, persist_stats.
  destruct (isBetterUptimeBot req); split; reflexivity.
Qed.

(** A request answered from the cache within the interval leaves the
    cached manifest and the validator tokens, [lastFetchTime] among them,
    as it found them. *)
Lemma interval_store_after_hit (cfg : Config) (u : Upstream) (now : Z)
    (req : HttpRequest) (s : Store) :
  Interval.trust_cache (current_cacheData s) (current_etagData s) now = true ->
  current_cacheData (store_after (Interval.handler cfg u now req s))
  = current_cacheData s
  /\ current_etagData (store_after (Interval.handler cfg u now req s))
     = current_etagData s.
Proof.
  intros Ht. unfold Interval.handler. rewrite read_cacheData, read_etagData.
  destruct (read_statsData s) as (r & st & ->). rewrite Ht.
  unfold count_hit, persist_stats. split.
  - transitivity (current_cacheData (ensureFilesExist s));
      [|apply current_cacheData_ensure].
    destruct (isBetterUptimeBot req); reflexivity.
  - transitivity (current_etagData (ensureFilesExist s));
      [|apply current_etagData_ensure].
    destruct (isBetterUptimeBot req); reflexivity.
Qed.

(** The object that a cycle returns is the one held by the LRU only when
    the cycle took it from there. *)
Lemma fetch_returns_lru (cfg : Config) (u : Upstream) (w w' : World)
    (fetched : Obj) :
  fetchGitHubData cfg u w = (inr fetched, w') ->
  ref fetched = InLru ->
  lru_cacheData (cache (store w)) = Some (val fetched).
Proof.
  assert (Hread : forall (o : Obj) (w0 w1 : World),
             store w0 = store w ->
             cached_or_file w0 = (inr o, w1) -> ref o = InLru ->
             lru_cacheData (cache (store w)) = Some (val o)).
  { intros o w0 w1 Hs. unfold cached_or_file, get_or_read. rewrite Hs.
    destruct (lru_cacheData (cache (store w))) as [c|].
    - intros H _. injection H as <- _. reflexivity.
    - destruct (CACHE_FILE (disk (store w)));
        intros H Hr; [injection H as <- _|]; discriminate. }
  assert (Hbuild : forall r files (w0 w1 : World),
             build cfg u r files w0 = (inr fetched, w1) ->
             ref fetched = InLru -> False).
  { intros r files w0 w1 H Hr.
    destruct (Promise_all_run cfg u files w0)
      as (pf & pending & w2 & pf' & w3 & _ & _ & Hall & _).
    rewrite (build_run _ _ _ _ _ _ _ Hall) in H. injection H as <- _.
    discriminate Hr. }
  unfold fetchGitHubData, axios_get, receive, bind, ret, throw, get_world,
    set_etagData, send.
  cbn [store etagData log].
  destruct (releases_reply u _) as [|st e d]; [discriminate|].
  destruct (validateStatus st); [|discriminate]. cbn [status data headers_etag].
  destruct (st =? 304); [apply Hread; reflexivity|].
  destruct (head d) as [latestRelease|]; [|discriminate].
  cbn [store etagData log archives].
  destruct (archive_reply u _ _) as [|st2 e2 d2]; [discriminate|].
  destruct (validateStatus st2); [|discriminate].
  cbn [status data headers_etag].
  destruct (st2 =? 304); cbn [negb].
  - destruct (cached_or_file _) as [[err | currentData] w2] eqn:Hc;
      [discriminate|].
    destruct (version_is (val currentData) _).
    + intros H Hr. injection H as <- _.
      eapply Hread; [|exact Hc | exact Hr]. reflexivity.
    + intros H Hr. destruct (Hbuild _ _ _ _ H Hr).
  - intros H Hr. destruct (Hbuild _ _ _ _ H Hr).
Qed.

(** The body of the answer of [handler]: what the cycle returned, else what
    was cached. *)
Lemma handler_serves (cfg : Config) (u : Upstream) (req : HttpRequest)
    (s : Store) :
  outcome (handler cfg u req s)
  = res_json match fst (fetchGitHubData cfg u (fetch_world s)) with
             | inr fetched => val fetched
             | inl _ => current_cacheData s
             end.
Proof.
  destruct (handler_outcome cfg u req s) as [-> _].
  destruct (fetchGitHubData cfg u (fetch_world s)) as [[err | fetched] w]
    eqn:Hf; cbn [fst]; [reflexivity|].
  destruct (is_empty (current_cacheData s)); [reflexivity|].
  destruct (not_identical fetched _) eqn:Hid; [reflexivity|].
  unfold not_identical in Hid. cbn [ref] in Hid.
  destruct (ref fetched) eqn:Hr; [|discriminate].
  pose proof (fetch_returns_lru _ _ _ _ _ Hf Hr) as Hlru.
  unfold fetch_world in Hlru. cbn [store ensureFilesExist cache] in Hlru.
  unfold current_cacheData. rewrite Hlru. reflexivity.
Qed.

(** The handler of [src/index.ts] has no interval: every request starts a
    fetch cycle. *)
Lemma handler_always_fetches (cfg : Config) (u : Upstream) (req : HttpRequest)
    (s : Store) :
  exists rest,
    requests (handler cfg u req s)
    = GetReleases (or_empty (releases (current_etagData s))) :: rest.
Proof.
  destruct (handler_outcome cfg u req s) as [_ ->].
  destruct (fetch_log_prefix cfg u (fetch_world s)) as (rest & ->).
  exists rest. reflexivity.
Qed.

(** C8: both handlers answer every request with status 200, whatever the
    upstream does, and the body is the best manifest there is: the one
    that the fetch cycle returned when it returned one (the cached manifest
    on a 304, a newly built one otherwise) and, when the cycle failed, the
    manifest that was cached before; the handler with the interval answers
    with the cached manifest when it trusts the cache.  In particular a 403
    on the release-list request, met with a non-empty cache, is answered
    with that cached manifest, which stays the cached manifest. *)
Theorem C8_always_200 :
  (forall cfg u req s,
      outcome (handler cfg u req s)
      = Responded 200
          match fst (fetchGitHubData cfg u (fetch_world s)) with
          | inr fetched => val fetched
          | inl _ => current_cacheData s
          end
      /\ requests (handler cfg u req s)
         = log (snd (fetchGitHubData cfg u (fetch_world s))))
  /\ (forall cfg u now req s,
        outcome (Interval.handler cfg u now req s)
        = Responded 200
            (if Interval.trust_cache (current_cacheData s) (current_etagData s) now
             then current_cacheData s
             else match fst (fetchGitHubData cfg u (fetch_world s)) with
                  | inr fetched => val fetched
                  | inl _ => current_cacheData s
                  end)
        /\ requests (Interval.handler cfg u now req s)
           = (if Interval.trust_cache (current_cacheData s) (current_etagData s) now
              then []
              else log (snd (fetchGitHubData cfg u (fetch_world s)))))
  /\ (forall cfg u req s,
        (forall h, exists e d, releases_reply u h = Http 403 e d) ->
        is_empty (current_cacheData s) = false ->
        outcome (handler cfg u req s) = Responded 200 (current_cacheData s)
        /\ current_cacheData (store_after (handler cfg u req s))
           = current_cacheData s)
  /\ (forall cfg u now req s,
        (forall h, exists e d, releases_reply u h = Http 403 e d) ->
        is_empty (current_cacheData s) = false ->
        outcome (Interval.handler cfg u now req s)
        = Responded 200 (current_cacheData s)
        /\ current_cacheData (store_after (Interval.handler cfg u now req s))
           = current_cacheData s).
Proof.
  split; [|split; [|split]].
  - intros cfg u req s. split; [apply handler_serves|].
    now destruct (handler_outcome cfg u req s) as [_ ->].
  - intros cfg u now req s.
    destruct (interval_handler_outcome cfg u now req s) as [Hy Hn].
    destruct (Interval.trust_cache _ _ _).
    + destruct (Hy eq_refl) as [-> ->]. split; reflexivity.
    + destruct (Hn eq_refl) as [-> ->]. split; reflexivity.
  - intros cfg u req s H403 Hne.
    destruct (H403 (or_empty (releases (etagData (fetch_world s)))))
      as (e & d & Hr).
    pose proof (fetch_rejected cfg u (fetch_world s) 403 e d Hr eq_refl) as Hf.
    rewrite handler_serves, Hf. split.
    + reflexivity.
    + rewrite (handler_keeps_cache_on_failure _ _ _ _ _ _ Hf).
      apply current_cacheData_ensure.
  - intros cfg u now req s H403 Hne.
    destruct (H403 (or_empty (releases (etagData (fetch_world s)))))
      as (e & d & Hr).
    pose proof (fetch_rejected cfg u (fetch_world s) 403 e d Hr eq_refl) as Hf.
    split.
    + destruct (interval_handler_outcome cfg u now req s) as [Hy Hn].
      destruct (Interval.trust_cache _ _ _).
      * now destruct (Hy eq_refl) as [-> _].
      * destruct (Hn eq_refl) as [-> _]. rewrite Hf. reflexivity.
    + apply (interval_keeps_cache_on_failure _ _ _ _ _ _ _ Hf). reflexivity.
Qed.

(** C1: with [MIN_FETCH_INTERVAL] of five minutes, a request that finds a
    cached manifest with a version less than five minutes after the last
    fetch is answered from the cache with no upstream request, and leaves
    the cached manifest and [lastFetchTime] as they were; a request that
    finds no version in the cache, or arrives five minutes or more after
    the last fetch, starts a fetch cycle.  So, along one timeline: when the
    request at time [now] starts a cycle that returns a manifest with a
    version, the next request, less than five minutes later (60 s, say), is
    served that manifest with no upstream request, and the request after
    that one, five minutes or more after [now] (301 s, say), starts a new
    cycle, with the release-list token that the first cycle left. *)
Theorem C1_freshness_policy (cfg : Config) (u : Upstream) (now : Z)
    (req : HttpRequest) (s : Store) :
  let cached := current_cacheData s in
  let etags := current_etagData s in
  let served := Interval.handler cfg u now req s in
  (Interval.has_version cached = true ->
   now - Interval.lastFetchTime_or_0 etags < 5 * 60 * 1000 ->
   outcome served = Responded 200 cached /\ requests served = []
   /\ current_cacheData (store_after served) = cached
   /\ current_etagData (store_after served) = etags)
  /\ (Interval.has_version cached = false
      \/ 5 * 60 * 1000 <= now - Interval.lastFetchTime_or_0 etags ->
      exists rest,
        requests served = GetReleases (or_empty (releases etags)) :: rest)
  /\ (forall fetched w u2 u3 req2 req3 (soon late : Z),
        Interval.has_version cached = false
        \/ 5 * 60 * 1000 <= now - Interval.lastFetchTime_or_0 etags ->
        fetchGitHubData cfg u (fetch_world s) = (inr fetched, w) ->
        Interval.has_version (val fetched) = true ->
        soon < 5 * 60 * 1000 ->
        5 * 60 * 1000 <= late ->
        let later := Interval.handler cfg u2 (now + soon) req2
                                      (store_after served) in
        let latest := Interval.handler cfg u3 (now + late) req3
                                       (store_after later) in
        let same_state := Interval.handler cfg u3 (now + late) req3
                                           (store_after served) in
        requests served <> []
        /\ outcome served = Responded 200 (val fetched)
        /\ Interval.lastFetchTime_or_0 (current_etagData (store_after served))
           = now
        /\ outcome later = Responded 200 (val fetched)
        /\ requests later = []
        /\ Interval.lastFetchTime_or_0 (current_etagData (store_after later))
           = now
        /\ (exists rest,
              requests latest
              = GetReleases (or_empty (releases (etagData w))) :: rest)
        /\ requests same_state <> []).
Proof.
  intros cached etags served.
  destruct (interval_handler_outcome cfg u now req s) as [Hy Hn].
  assert (Hmiss : Interval.has_version cached = false
                  \/ 5 * 60 * 1000 <= now - Interval.lastFetchTime_or_0 etags ->
                  Interval.trust_cache cached etags now = false).
  { unfold Interval.trust_cache.
    intros [-> | Hge]; [reflexivity|].
    unfold Interval.MIN_FETCH_INTERVAL. apply andb_false_intro2. lia. }
  assert (Hfetch : Interval.trust_cache cached etags now = false ->
                   exists rest,
                     requests served
                     = GetReleases (or_empty (releases etags)) :: rest).
  { intros Ht. destruct (Hn Ht) as [_ Hreq]. subst served. rewrite Hreq.
    destruct (fetch_log_prefix cfg u (fetch_world s)) as (rest & ->).
    exists rest. reflexivity. }
  split; [|split].
  - intros Hv Hlt.
    assert (Ht : Interval.trust_cache cached etags now = true).
    { unfold Interval.trust_cache. rewrite Hv.
      unfold Interval.MIN_FETCH_INTERVAL. simpl. lia. }
    destruct (Hy Ht) as [Hout Hreq].
    destruct (interval_store_after_hit cfg u now req s Ht) as [Hc He].
    auto.
  - intros Hor. apply Hfetch, Hmiss, Hor.
  - intros fetched w u2 u3 req2 req3 soon late Hor Hf Hfv Hsoon Hlate
      later latest same_state.
    pose proof (Hmiss Hor) as Ht.
    destruct (interval_store_after_success cfg u now req s fetched w Ht Hf)
      as [Hc He].
    fold served in Hc, He.
    assert (Ht2 : Interval.trust_cache (current_cacheData (store_after served))
                    (current_etagData (store_after served)) (now + soon)
                  = true).
    { rewrite Hc, He. unfold Interval.trust_cache. rewrite Hfv.
      unfold Interval.MIN_FETCH_INTERVAL, Interval.lastFetchTime_or_0.
      simpl. lia. }
    destruct (interval_store_after_hit cfg u2 (now + soon) req2
                (store_after served) Ht2) as [Hc2 He2].
    fold later in Hc2, He2.
    destruct (interval_handler_outcome cfg u2 (now + soon) req2
                (store_after served)) as [Hy2 _].
    destruct (Hy2 Ht2) as [Hout2 Hreq2]. fold later in Hout2, Hreq2.
    assert (Ht3 : Interval.trust_cache (val fetched)
                    (Interval.set_lastFetchTime now (etagData w))
                    (now + late) = false).
    { unfold Interval.trust_cache, Interval.MIN_FETCH_INTERVAL,
        Interval.lastFetchTime_or_0. simpl. apply andb_false_intro2. lia. }
    split; [|split; [|split; [|split; [|split; [|split; [|split]]]]]].
    + destruct (Hfetch Ht) as (rest & ->). discriminate.
    + destruct (Hn Ht) as [Hout _]. fold served in Hout.
      rewrite Hout, Hf. reflexivity.
    + rewrite He. reflexivity.
    + rewrite Hout2, Hc. reflexivity.
    + exact Hreq2.
    + rewrite He2, He. reflexivity.
    + destruct (interval_handler_outcome cfg u3 (now + late) req3
                  (store_after later)) as [_ Hn3].
      rewrite Hc2, He2, Hc, He in Hn3.
      destruct (Hn3 Ht3) as [_ Hreq]. fold latest in Hreq. rewrite Hreq.
      destruct (fetch_log_prefix cfg u3 (fetch_world (store_after later)))
        as (rest & ->).
      exists rest. unfold fetch_world. cbn [etagData log app].
      rewrite He2, He. reflexivity.
    + destruct (interval_handler_outcome cfg u3 (now + late) req3
                  (store_after served)) as [_ Hn3].
      rewrite Hc, He in Hn3.
      destruct (Hn3 Ht3) as [_ Hreq]. fold same_state in Hreq. rewrite Hreq.
      destruct (fetch_log_prefix cfg u3 (fetch_world (store_after served)))
        as (rest & ->).
      destruct rest; discriminate.
Qed.

(** * Further properties of the code *)

(** ** What a signature reply does *)

Lemma fetchSignature_receive_cases (u : Upstream) (target_url header : string)
    (w : World) :
  match signature_reply u target_url header with
  | NetworkError => fetchSignature_receive u target_url header w = (inr "", w)
  | Http st e d =>
      if validateStatus st then
        if st =? 304 then
          fetchSignature_receive u target_url header w
          = (inr match get_or_read (lru_cacheData (cache (store w)))
                                   (CACHE_FILE (disk (store w))) with
                 | Some (_, cached) =>
                     cached_signature cached
                       (determinePlatform (or_empty (pop (split "/" target_url))))
                 | None => ""
                 end, w)
        else
          fetchSignature_receive u target_url header w
          = (inr d, store_signature_token target_url e w)
      else fetchSignature_receive u target_url header w = (inr "", w)
  end.
Proof.
  unfold fetchSignature_receive. run_M.
  destruct (signature_reply u target_url header) as [|st e d]; [reflexivity|].
  destruct (validateStatus st); [|reflexivity]. simpl.
  destruct (st =? 304); [|reflexivity].
  destruct (get_or_read _ _) as [[r c]|]; reflexivity.
Qed.

(** A signature reply changes nothing but the signature tokens. *)
Lemma fetchSignature_receive_frame (u : Upstream) (target_url header : string)
    (w : World) :
  let w' := snd (fetchSignature_receive u target_url header w) in
  store w' = store w /\ log w' = log w
  /\ releases (etagData w') = releases (etagData w)
  /\ archives (etagData w') = archives (etagData w)
  /\ lastFetchTime (etagData w') = lastFetchTime (etagData w).
Proof.
  pose proof (fetchSignature_receive_cases u target_url header w) as H.
  destruct (signature_reply u target_url header) as [|st e d].
  - rewrite H. simpl. auto.
  - destruct (validateStatus st); [destruct (st =? 304)|]; rewrite H; simpl; auto.
Qed.

Lemma finish_all_frame (u : Upstream) (completed : list Pending) :
  forall (pf : gmap string PlatformAsset) (w : World),
    let w' := snd (finish_all u completed pf w) in
    store w' = store w /\ log w' = log w
    /\ releases (etagData w') = releases (etagData w)
    /\ archives (etagData w') = archives (etagData w)
    /\ lastFetchTime (etagData w') = lastFetchTime (etagData w).
Proof.
  induction completed as [|p rest IH]; intros pf w; [simpl; auto|].
  destruct (fetchSignature_receive_total u (sig_url p) (sent_etag p) w)
    as (sig & w1 & Hrecv & _).
  pose proof (fetchSignature_receive_frame u (sig_url p) (sent_etag p) w) as Hf.
  rewrite Hrecv in Hf. simpl in Hf. destruct Hf as (H1 & H2 & H3 & H4 & H5).
  assert (E : finish_all u (p :: rest) pf w
              = finish_all u rest (alter (set_signature sig) (target p) pf) w1).
  { simpl. unfold bind, callback_finish, bind. rewrite Hrecv. reflexivity. }
  rewrite E.
  destruct (IH (alter (set_signature sig) (target p) pf) w1)
    as (I1 & I2 & I3 & I4 & I5).
  repeat split; congruence.
Qed.

Lemma Promise_all_frame (cfg : Config) (u : Upstream) (files : list File)
    (w : World) :
  let w' := snd (Promise_all cfg u files w) in
  store w' = store w
  /\ releases (etagData w') = releases (etagData w)
  /\ archives (etagData w') = archives (etagData w)
  /\ lastFetchTime (etagData w') = lastFetchTime (etagData w).
Proof.
  unfold Promise_all, bind.
  destruct (start_all_total cfg files ∅ w) as (pf & pending & ->).
  match goal with
  | |- context [finish_all u ?c ?p ?w0] =>
      destruct (finish_all_frame u c p w0) as (H1 & _ & H3 & H4 & H5)
  end.
  simpl in *. auto.
Qed.

(** ** The pipeline, stage by stage *)

Lemma fetch_stages (cfg : Config) (u : Upstream) (w : World) :
  fetchGitHubData cfg u w
  = match releases_reply u (or_empty (releases (etagData w))) with
    | NetworkError => (inl (AxiosError None), asked_releases w)
    | Http st e d =>
        if validateStatus st then
          if st =? 304 then cached_or_file (asked_releases w)
          else
            match head d with
            | None => (inl TypeError, release_stage e w)
            | Some latestRelease =>
                let tag := tag_name latestRelease in
                let w2 := asked_archive tag (release_stage e w) in
                match archive_reply u tag (archive_header w tag) with
                | NetworkError => (inl (AxiosError None), w2)
                | Http st2 e2 d2 =>
                    if validateStatus st2 then
                      if st2 =? 304 then
                        match get_or_read (lru_cacheData (cache (store w)))
                                          (CACHE_FILE (disk (store w))) with
                        | None => (inl ENOENT, w2)
                        | Some (r, cached) =>
                            if version_is cached tag
                            then (inr {| ref := r; val := cached |}, w2)
                            else build cfg u latestRelease [] w2
                        end
                      else build cfg u latestRelease
                                 (map (file_of cfg tag) d2)
                                 (store_archive_token tag e2 w2)
                    else (inl (AxiosError (Some st2)), w2)
                end
            end
        else (inl (AxiosError (Some st)), asked_releases w)
    end.
Proof.
  unfold fetchGitHubData, asked_releases, release_stage, asked_archive,
    store_archive_token, archive_header. run_M.
  destruct (releases_reply u _) as [|st e d]; [reflexivity|]. simpl.
  destruct (validateStatus st); [|reflexivity]. simpl.
  destruct (st =? 304); [reflexivity|].
  destruct (head d) as [latestRelease|]; [|reflexivity]. simpl.
  destruct (archive_reply u _ _) as [|st2 e2 d2]; [reflexivity|]. simpl.
  destruct (validateStatus st2); [|reflexivity]. simpl.
  destruct (st2 =? 304); simpl; [|reflexivity].
  destruct (get_or_read _ _) as [[r c]|]; [|reflexivity]. simpl.
  destruct (version_is c _); reflexivity.
Qed.

(** [build] never throws, and what it leaves is what it returns. *)
Lemma build_result (cfg : Config) (u : Upstream) (latestRelease : Release)
    (files : list File) (w : World) :
  exists pf' w',
    Promise_all cfg u files w = (inr pf', w')
    /\ build cfg u latestRelease files w
       = (inr {| ref := Allocated;
                 val := ManifestData (built cfg latestRelease pf') |},
          {| store := {| cache := cache (store w);
                         disk := {| CACHE_FILE :=
                                      Some (ManifestData (built cfg latestRelease pf'));
                                    STATS_FILE := STATS_FILE (disk (store w));
                                    ETAG_FILE := Some (etagData w') |} |};
             etagData := etagData w';
             log := log w' |})
    /\ releases (etagData w') = releases (etagData w)
    /\ archives (etagData w') = archives (etagData w)
    /\ lastFetchTime (etagData w') = lastFetchTime (etagData w).
Proof.
  destruct (Promise_all_run cfg u files w)
    as (pf & pending & w1 & pf' & w' & _ & _ & Hall & Hstore & _).
  pose proof (Promise_all_frame cfg u files w) as Hframe.
  rewrite Hall in Hframe. simpl in Hframe.
  destruct Hframe as (_ & H2 & H3 & H4).
  exists pf', w'. split; [exact Hall|].
  rewrite (build_run _ _ _ _ _ _ _ Hall), Hstore. auto.
Qed.

(** What a cycle never touches: the LRU, the statistics file and
    [lastFetchTime]; and a cycle that throws has written no file. *)
Lemma fetch_frame (cfg : Config) (u : Upstream) (w : World) :
  cache (store (snd (fetchGitHubData cfg u w))) = cache (store w)
  /\ STATS_FILE (disk (store (snd (fetchGitHubData cfg u w))))
     = STATS_FILE (disk (store w))
  /\ lastFetchTime (etagData (snd (fetchGitHubData cfg u w)))
     = lastFetchTime (etagData w)
  /\ (forall err, fst (fetchGitHubData cfg u w) = inl err ->
                  store (snd (fetchGitHubData cfg u w)) = store w).
Proof.
  rewrite fetch_stages.
  destruct (releases_reply u _) as [|st e d]; [simpl; auto|].
  destruct (validateStatus st); [|simpl; auto].
  destruct (st =? 304).
  { unfold cached_or_file. simpl.
    destruct (get_or_read _ _) as [[r c]|]; simpl; auto. }
  destruct (head d) as [latestRelease|]; [|simpl; auto]. cbv zeta.
  destruct (archive_reply u _ _) as [|st2 e2 d2]; [simpl; auto|].
  destruct (validateStatus st2); [|simpl; auto].
  destruct (st2 =? 304).
  - destruct (get_or_read _ _) as [[r c]|]; [|simpl; auto].
    destruct (version_is c _); [simpl; auto|].
    match goal with
    | |- context [build cfg u ?r ?f ?w0] =>
        destruct (build_result cfg u r f w0) as (pf' & w' & _ & -> & _ & _ & Hl)
    end.
    simpl in *. repeat split; try assumption. discriminate.
  - match goal with
    | |- context [build cfg u ?r ?f ?w0] =>
        destruct (build_result cfg u r f w0) as (pf' & w' & _ & -> & _ & _ & Hl)
    end.
    simpl in *. repeat split; try assumption. discriminate.
Qed.

(** X1: a fetch cycle that throws has written nothing: the LRU and the
    three files are exactly what they were before the cycle.  Only the
    [etagData] object in memory may have changed. *)
Theorem X1_failed_cycle_writes_nothing (cfg : Config) (u : Upstream)
    (w w' : World) (err : Error) :
  fetchGitHubData cfg u w = (inl err, w') -> store w' = store w.
Proof.
  intros H. destruct (fetch_frame cfg u w) as (_ & _ & _ & Hfail).
  rewrite H in Hfail. simpl in Hfail. eauto.
Qed.

(** X2: in a process whose LRU holds no manifest, whatever a cycle returns
    is what the cache file holds afterwards: reading the cache again gives
    the returned manifest back. *)
Theorem X2_returned_manifest_is_on_disk (cfg : Config) (u : Upstream)
    (w w' : World) (obj : Obj) :
  lru_cacheData (cache (store w)) = None ->
  fetchGitHubData cfg u w = (inr obj, w') ->
  CACHE_FILE (disk (store w')) = Some (val obj)
  /\ cached_or_file w' = (inr obj, w').
Proof.
  intros Hlru H.
  assert (Hgoal : CACHE_FILE (disk (store w')) = Some (val obj)
                  /\ ref obj = Allocated).
  { rewrite fetch_stages in H.
    destruct (releases_reply u _) as [|st e d]; [discriminate|].
    destruct (validateStatus st); [|discriminate].
    destruct (st =? 304).
    { unfold cached_or_file, get_or_read in H. simpl in H. rewrite Hlru in H.
      destruct (CACHE_FILE (disk (store w))) eqn:Hfile; [|discriminate].
      injection H as <- <-. simpl. auto. }
    destruct (head d) as [latestRelease|]; [|discriminate]. cbv zeta in H.
    destruct (archive_reply u _ _) as [|st2 e2 d2]; [discriminate|].
    destruct (validateStatus st2); [|discriminate].
    destruct (st2 =? 304).
    - unfold get_or_read in H. rewrite Hlru in H.
      destruct (CACHE_FILE (disk (store w))) eqn:Hfile; [|discriminate].
      destruct (version_is c _).
      + injection H as <- <-. simpl. auto.
      + match type of H with
        | build cfg u ?r ?f ?w0 = _ =>
            destruct (build_result cfg u r f w0) as (pf' & w1 & _ & Hb & _)
        end.
        rewrite Hb in H. injection H as <- <-. simpl. auto.
    - match type of H with
      | build cfg u ?r ?f ?w0 = _ =>
          destruct (build_result cfg u r f w0) as (pf' & w1 & _ & Hb & _)
      end.
      rewrite Hb in H. injection H as <- <-. simpl. auto. }
  destruct Hgoal as [Hfile Href]. split; [exact Hfile|].
  pose proof (fetch_frame cfg u w) as (Hcache & _).
  rewrite H in Hcache. simpl in Hcache.
  unfold cached_or_file, get_or_read. rewrite Hcache, Hlru, Hfile.
  destruct obj as [r v]. simpl in *. subst r. reflexivity.
Qed.

(** X3: when the release list and the archive listing of the latest tag
    both answer 2xx, the cycle succeeds whatever the signature requests do;
    the manifest carries the tag and the publication date of the first
    release; the release-list token is the ETag of the release reply, the
    archive token of the tag is the ETag of the archive reply, the archive
    tokens of other tags are untouched; and the tokens written to the ETag
    file are the ones in memory. *)
Theorem X3_fresh_cycle (cfg : Config) (u : Upstream) (w : World)
    (st st2 : Z) (e e2 : option string) (latestRelease : Release)
    (older : list Release) (listing : list string) :
  let tag := tag_name latestRelease in
  releases_reply u (or_empty (releases (etagData w)))
  = Http st e (latestRelease :: older) ->
  200 <= st < 300 ->
  archive_reply u tag (archive_header w tag) = Http st2 e2 listing ->
  200 <= st2 < 300 ->
  exists m w',
    fetchGitHubData cfg u w
    = (inr {| ref := Allocated; val := ManifestData m |}, w')
    /\ version m = tag /\ pub_date m = published_at latestRelease
    /\ releases (etagData w') = e
    /\ or_empty_object (archives (etagData w')) !! tag = e2
    /\ (forall other, other <> tag ->
          or_empty_object (archives (etagData w')) !! other
          = or_empty_object (archives (etagData w)) !! other)
    /\ CACHE_FILE (disk (store w')) = Some (ManifestData m)
    /\ ETAG_FILE (disk (store w')) = Some (etagData w').
Proof.
  intros tag Hrel Hst Harch Hst2.
  apply validateStatus_2xx in Hst as [Hv H304].
  apply validateStatus_2xx in Hst2 as [Hv2 H304'].
  rewrite fetch_stages, Hrel, Hv, H304. cbn [head]. cbv zeta. fold tag.
  rewrite Harch, Hv2, H304'.
  match goal with
  | |- context [build cfg u ?r ?f ?w0] =>
      destruct (build_result cfg u r f w0)
        as (pf' & w1 & _ & Hb & Hr & Ha & _)
  end.
  rewrite Hb. simpl in Hr, Ha.
  eexists _, _. split; [reflexivity|]. cbn [store etagData disk CACHE_FILE ETAG_FILE
    built version pub_date].
  repeat split; try assumption.
  - rewrite Ha. simpl. destruct e2 as [t|]; simpl.
    + apply lookup_insert_eq.
    + apply lookup_delete_eq.
  - intros other Hne. rewrite Ha. simpl. destruct e2 as [t|]; simpl.
    + apply lookup_insert_ne. congruence.
    + apply lookup_delete_ne. congruence.
Qed.

(** ** Signature tokens *)

Lemma start_all_headers (cfg : Config) (files : list File) :
  forall (pf pf' : gmap string PlatformAsset) pending (w w' : World) p,
    start_all cfg files pf w = (inr (pf', pending), w') ->
    In p pending ->
    sent_etag p = signature_header (etagData w) (sig_url p).
Proof.
  induction files as [|file rest IH]; intros pf pf' pending w w' p Hrun Hin.
  - simpl in Hrun. unfold ret in Hrun. inversion Hrun; subst. destruct Hin.
  - apply start_all_cons in Hrun
      as (pf1 & started & w1 & pending1 & Hstart & Hrest & ->).
    destruct (callback_start_cases cfg pf file w)
      as [(a0 & p0 & _ & _ & _ & Hp0 & H) | [(_ & _ & H) | (_ & H)]];
      rewrite H in Hstart; inversion Hstart; subst pf1 started w1; clear Hstart.
    + destruct Hin as [<- | Hin]; [subst p0; reflexivity|].
      apply (IH _ _ _ _ _ _ Hrest Hin).
    + apply (IH _ _ _ _ _ _ Hrest Hin).
    + apply (IH _ _ _ _ _ _ Hrest Hin).
Qed.

Lemma signature_token_stored (target_url other : string) (e : option string)
    (w : World) :
  signature_token (etagData (store_signature_token target_url e w)) other
  = if String.eqb target_url other then e
    else signature_token (etagData w) other.
Proof.
  unfold signature_token, store_signature_token, assign. simpl.
  destruct (String.eqb_spec target_url other) as [<- | Hne].
  - destruct e; [apply lookup_insert_eq | apply lookup_delete_eq].
  - destruct e; [now apply lookup_insert_ne | now apply lookup_delete_ne].
Qed.

Lemma fetchSignature_receive_token (u : Upstream) (target_url header other : string)
    (w : World) :
  signature_token (etagData (snd (fetchSignature_receive u target_url header w)))
                  other
  = match (if String.eqb target_url other
           then stored_etag u target_url header else None) with
    | Some e => e
    | None => signature_token (etagData w) other
    end.
Proof.
  pose proof (fetchSignature_receive_cases u target_url header w) as H.
  unfold stored_etag.
  destruct (signature_reply u target_url header) as [|st e d].
  - rewrite H. cbn [snd]. now destruct (String.eqb target_url other).
  - destruct (validateStatus st); [destruct (st =? 304)|]; rewrite H;
      cbn [snd andb negb];
      try now destruct (String.eqb target_url other).
    rewrite signature_token_stored.
    now destruct (String.eqb target_url other).
Qed.

(** The tokens after the replies of [completed] have been taken, when the
    header of each request is a function of its URL. *)
Lemma finish_all_tokens (u : Upstream) (header : string -> string)
    (completed : list Pending) :
  forall (pf : gmap string PlatformAsset) (w : World) (other : string),
    (forall p, In p completed -> sent_etag p = header (sig_url p)) ->
    signature_token (etagData (snd (finish_all u completed pf w))) other
    = match (if requested completed other
             then stored_etag u other (header other) else None) with
      | Some e => e
      | None => signature_token (etagData w) other
      end.
Proof.
  induction completed as [|p rest IH]; intros pf w other Hhdr; [reflexivity|].
  destruct (fetchSignature_receive_total u (sig_url p) (sent_etag p) w)
    as (sig & w1 & Hrecv & _).
  assert (E : finish_all u (p :: rest) pf w
              = finish_all u rest (alter (set_signature sig) (target p) pf) w1).
  { simpl. unfold bind, callback_finish, bind. rewrite Hrecv. reflexivity. }
  rewrite E, IH by (intros q Hq; apply Hhdr; now right).
  pose proof (fetchSignature_receive_token u (sig_url p) (sent_etag p) other w)
    as Htok.
  rewrite Hrecv in Htok. simpl in Htok. rewrite Htok.
  rewrite (Hhdr p) by now left.
  unfold requested. simpl.
  destruct (String.eqb_spec (sig_url p) other) as [-> | Hne]; simpl.
  - destruct (existsb _ rest); [|reflexivity].
    now destruct (stored_etag u other (header other)).
  - reflexivity.
Qed.

Lemma requested_perm (l l' : list Pending) (target_url : string) :
  Permutation l l' -> requested l target_url = requested l' target_url.
Proof.
  intros Hp. unfold requested.
  induction Hp as [|x l l' Hp IH|x y l|l1 l2 l3 H1 IH1 H2 IH2]; simpl.
  - reflexivity.
  - now rewrite IH.
  - now destruct (String.eqb (sig_url y) target_url),
                 (String.eqb (sig_url x) target_url).
  - congruence.
Qed.

(** X4: after the construction of the manifest, the signature token of a
    URL is the ETag of the reply to its request when that reply was a 2xx;
    the token of a URL that was not requested, or whose request was answered
    304, was refused or failed, is the one stored before.  This holds for
    every order in which the replies arrive. *)
Theorem X4_signature_tokens (cfg : Config) (u : Upstream) (files : list File)
    (w : World) :
  exists pf pending w1 pf' w',
    start_all cfg files ∅ w = (inr (pf, pending), w1)
    /\ Promise_all cfg u files w = (inr pf', w')
    /\ forall target_url,
         signature_token (etagData w') target_url
         = match (if requested pending target_url
                  then stored_etag u target_url
                         (signature_header (etagData w) target_url)
                  else None) with
           | Some e => e
           | None => signature_token (etagData w) target_url
           end.
Proof.
  destruct (Promise_all_run cfg u files w)
    as (pf & pending & w1 & pf' & w' & Hstart & Hfin & Hall & _ & _).
  exists pf, pending, w1, pf', w'. split; [exact Hstart|]. split; [exact Hall|].
  intros target_url.
  pose proof (finish_all_tokens u (signature_header (etagData w))
                (arrival u pending) pf w1 target_url) as Htok.
  rewrite Hfin in Htok. simpl in Htok.
  rewrite Htok.
  - rewrite (requested_perm _ _ _ (arrival_perm u pending)).
    destruct (start_all_total cfg files ∅ w) as (pf0 & pending0 & Hs).
    rewrite Hstart in Hs. injection Hs as _ _ ->. reflexivity.
  - intros p Hin.
    apply (start_all_headers _ _ _ _ _ _ _ _ Hstart).
    exact (Permutation_in _ (arrival_perm u pending) Hin).
Qed.

(** ** [fetchSignature] as a whole *)

(** X5: [fetchSignature] never throws and makes exactly one request, which
    carries the stored token of the URL (or the empty string).  When the
    request fails or its status is refused, the result is the empty string
    and neither the tokens nor the store change; when the reply is a 2xx,
    the result is its body and the token of the URL becomes its ETag. *)
Theorem X5_fetchSignature_isolated (u : Upstream) (target_url : string)
    (w : World) :
  let header := signature_header (etagData w) target_url in
  exists sig w',
    fetchSignature u target_url w = (inr sig, w')
    /\ log w' = (log w ++ [GetSignature target_url header])%list
    /\ store w' = store w
    /\ (signature_reply u target_url header = NetworkError ->
        sig = "" /\ etagData w' = etagData w)
    /\ (forall st e d,
          signature_reply u target_url header = Http st e d ->
          validateStatus st = false ->
          sig = "" /\ etagData w' = etagData w)
    /\ (forall st e d,
          signature_reply u target_url header = Http st e d ->
          200 <= st < 300 ->
          sig = d /\ signature_token (etagData w') target_url = e).
Proof.
  intros header. unfold fetchSignature, fetchSignature_send, bind, get_world,
    send, ret. cbn [etagData]. fold header.
  set (w0 := {| store := store w; etagData := etagData w;
                log := log w ++ [GetSignature target_url header] |}).
  pose proof (fetchSignature_receive_cases u target_url header w0) as H.
  destruct (fetchSignature_receive_total u target_url header w0)
    as (sig & w' & Hrecv & Hstore & Hlog).
  exists sig, w'. rewrite Hrecv in *.
  split; [reflexivity|]. split; [exact Hlog|]. split; [exact Hstore|].
  split; [|split].
  - intros Hr. rewrite Hr in H. cbv iota in H.
    assert (sig = "" /\ w' = w0) as [-> ->] by (split; congruence). auto.
  - intros st e d Hr Hv. rewrite Hr in H. cbv iota in H. rewrite Hv in H.
    assert (sig = "" /\ w' = w0) as [-> ->] by (split; congruence). auto.
  - intros st e d Hr Hst. apply validateStatus_2xx in Hst as [Hv H304].
    rewrite Hr in H. cbv iota in H. rewrite Hv, H304 in H.
    assert (sig = d /\ w' = store_signature_token target_url e w0) as [-> ->]
      by (split; congruence).
    split; [reflexivity|].
    rewrite signature_token_stored, String.eqb_refl. reflexivity.
Qed.

(** ** The file name at the end of a raw-content URL *)

Lemma split_nonempty (sep : ascii) (s : string) : split sep s <> [].
Proof.
  induction s as [|c s IH]; simpl; [discriminate|].
  destruct (Ascii.eqb c sep); [discriminate|].
  destruct (split sep s); discriminate.
Qed.

Lemma split_app (sep : ascii) (a b : string) :
  split sep (String.append a (String sep b)) = (split sep a ++ split sep b)%list.
Proof.
  induction a as [|c a IH].
  - simpl. rewrite Ascii.eqb_refl. reflexivity.
  - rewrite append_cons. simpl. rewrite IH.
    destruct (Ascii.eqb c sep); [reflexivity|].
    pose proof (split_nonempty sep a) as Hne.
    destruct (split sep a) as [|x xs]; [contradiction|]. reflexivity.
Qed.

Lemma split_no_separator (sep : ascii) (s : string) :
  includes s (String sep EmptyString) = false -> split sep s = [s].
Proof.
  induction s as [|c s IH]; [reflexivity|].
  simpl. destruct (ascii_dec sep c) as [<- | Hne].
  - destruct s; simpl; intros H; discriminate H.
  - intros H. rewrite IH by exact H.
    destruct (Ascii.eqb_spec c sep) as [-> | _]; [contradiction|].
    reflexivity.
Qed.

Lemma append_assoc (a b c : string) :
  String.append (String.append a b) c = String.append a (String.append b c).
Proof.
  induction a as [|x a IH]; [reflexivity|].
  rewrite !append_cons, IH. reflexivity.
Qed.

Lemma last_app_nonempty {A : Type} (l1 l2 : list A) :
  l2 <> [] -> last (l1 ++ l2)%list = last l2.
Proof.
  intros Hne. destruct l2 as [|x l2]; [contradiction|].
  apply last_app_cons.
Qed.

(** X6: the URL that the pipeline builds for a listed file ends in the
    file's name: for a name without a slash, [url.split('/').pop()] gives
    the name back.  So when the signature request of such a file is
    answered 304, the signature that [fetchSignature] returns is the cached
    one of the platform of that very file. *)
Theorem X6_signature_reused_for_own_platform (cfg : Config) (u : Upstream)
    (tag file_name header : string) (w : World) (e : option string)
    (d : string) (r : Ref) (cached : CacheData) :
  includes file_name "/" = false ->
  signature_reply u (url (file_of cfg tag file_name)) header = Http 304 e d ->
  get_or_read (lru_cacheData (cache (store w))) (CACHE_FILE (disk (store w)))
  = Some (r, cached) ->
  pop (split "/" (url (file_of cfg tag file_name))) = Some file_name
  /\ fetchSignature_receive u (url (file_of cfg tag file_name)) header w
     = (inr (cached_signature cached (determinePlatform file_name)), w).
Proof.
  intros Hname Hreply Hcache.
  assert (Hpop : pop (split "/" (url (file_of cfg tag file_name)))
                 = Some file_name).
  { unfold file_of, pop. cbn [url].
    change (String.append "/" file_name) with (String "/" file_name).
    rewrite <- !append_assoc, split_app.
    rewrite last_app_nonempty by apply split_nonempty.
    rewrite (split_no_separator _ _ Hname). reflexivity. }
  split; [exact Hpop|].
  pose proof (fetchSignature_receive_cases u (url (file_of cfg tag file_name))
                header w) as H.
  rewrite Hreply in H. cbv iota in H.
  change (validateStatus 304) with true in H.
  change (304 =? 304) with true in H. cbv iota in H.
  rewrite H, Hcache, Hpop. reflexivity.
Qed.

(** ** Files that the construction ignores *)

Lemma start_all_skip_disabled (cfg : Config) (file : File) (after : list File) :
  forall (before : list File) (pf : gmap string PlatformAsset) (w : World),
    enabled cfg (determinePlatform (name file)) = false ->
    start_all cfg (before ++ file :: after)%list pf w
    = start_all cfg (before ++ after)%list pf w.
Proof.
  induction before as [|b before IH]; intros pf w Hdis.
  - simpl. unfold bind at 1, callback_start. rewrite Hdis. unfold ret at 1.
    unfold bind, ret.
    destruct (start_all cfg after pf w) as [[e | [pf2 pending]] w2]; reflexivity.
  - simpl. unfold bind at 1 3.
    destruct (callback_start cfg pf b w) as [[e | [pf1 started]] w1];
      [reflexivity|].
    unfold bind. rewrite IH by exact Hdis. reflexivity.
Qed.

Lemma callback_start_keeps (cfg : Config) (pf pf1 : gmap string PlatformAsset)
    (file : File) (w w1 : World) (started : option Pending) (key : string) :
  callback_start cfg pf file w = (inr (pf1, started), w1) ->
  is_Some (pf !! key) -> is_Some (pf1 !! key).
Proof.
  intros Hstart [a Ha].
  destruct (callback_start_cases cfg pf file w)
    as [(a0 & p & _ & _ & _ & _ & H) | [(_ & Hnone & H) | (_ & H)]];
    rewrite H in Hstart; inversion Hstart; subst; eauto.
  exists a. rewrite lookup_insert_ne; [assumption | congruence].
Qed.

Lemma start_all_skip_duplicate (cfg : Config) (file : File) (after : list File) :
  forall (before : list File) (pf : gmap string PlatformAsset) (w : World),
    endsWith (name file) ".sig" = false ->
    (is_Some (pf !! determinePlatform (name file))
     \/ exists base, In base before
                     /\ is_base cfg (determinePlatform (name file)) base) ->
    start_all cfg (before ++ file :: after)%list pf w
    = start_all cfg (before ++ after)%list pf w.
Proof.
  induction before as [|b before IH]; intros pf w Hsig Hor.
  - destruct Hor as [Hsome | (base & [] & _)].
    simpl. unfold bind at 1.
    destruct (callback_start_cases cfg pf file w)
      as [(a0 & p0 & _ & Hs & _) | [(_ & Hnone & _) | (_ & H)]].
    + congruence.
    + destruct Hsome as [a Ha]. congruence.
    + rewrite H. unfold bind, ret.
      destruct (start_all cfg after pf w) as [[e | [pf2 pending]] w2];
        reflexivity.
  - simpl. unfold bind at 1 3.
    destruct (callback_start cfg pf b w) as [[e | [pf1 started]] w1] eqn:Hb;
      [reflexivity|].
    unfold bind. rewrite IH; [reflexivity | exact Hsig |].
    destruct Hor as [Hsome | (base & [<- | Hin] & Hbase)].
    + left. eapply callback_start_keeps; eassumption.
    + left. destruct Hbase as (Hen & Hs & Hkey).
      destruct (callback_start_cases cfg pf b w)
        as [(a0 & p0 & _ & Hs' & _) | [(_ & _ & H) | ([Hd | [[Hs' _] | [_ Hsome]]] & H)]];
        try congruence;
        rewrite H in Hb; inversion Hb; subst; rewrite <- Hkey;
        first [rewrite lookup_insert_eq; eauto | exact Hsome].
    + right. exists base. split; assumption.
Qed.

(** X7: a listed file whose platform is unknown or disabled, and a base
    asset that comes after another base asset of its platform, have no
    effect at all: the construction makes the same requests and ends with
    the same table and the same tokens as without the file. *)
Theorem X7_ignored_files (cfg : Config) (u : Upstream)
    (before after : list File) (file : File) (w : World) :
  enabled cfg "unknown" = false
  /\ (enabled cfg (determinePlatform (name file)) = false ->
      Promise_all cfg u (before ++ file :: after)%list w
      = Promise_all cfg u (before ++ after)%list w)
  /\ (endsWith (name file) ".sig" = false ->
      (exists base, In base before
                    /\ is_base cfg (determinePlatform (name file)) base) ->
      Promise_all cfg u (before ++ file :: after)%list w
      = Promise_all cfg u (before ++ after)%list w).
Proof.
  split; [reflexivity|]. split.
  - intros Hdis. unfold Promise_all, bind.
    rewrite start_all_skip_disabled by exact Hdis. reflexivity.
  - intros Hsig Hbase. unfold Promise_all, bind.
    rewrite start_all_skip_duplicate; [reflexivity | exact Hsig | now right].
Qed.

(** ** The first base asset of a platform *)

Lemma start_all_first (cfg : Config) (key : string) (base : File)
    (after : list File) :
  forall (before : list File) (pf pf' : gmap string PlatformAsset) pending
         (w w' : World),
    pf !! key = None ->
    (forall b, In b before -> ~ is_base cfg key b) ->
    is_base cfg key base ->
    start_all cfg (before ++ base :: after)%list pf w = (inr (pf', pending), w') ->
    pf' !! key = Some {| signature := ""; asset_url := url base |}.
Proof.
  induction before as [|b before IH];
    intros pf pf' pending w w' Hnone Hnobase Hbase Hrun.
  - simpl app in Hrun. apply start_all_cons in Hrun
      as (pf1 & started & w1 & pending1 & Hstart & Hrest & _).
    eapply start_all_keeps; [exact Hrest|].
    destruct Hbase as (Hen & Hsig & Hkey).
    destruct (callback_start_cases cfg pf base w)
      as [(a0 & p0 & _ & Hs & _) | [(_ & _ & H) | ([Hd | [[Hs _] | [_ [a Ha]]]] & H)]];
      try congruence.
    rewrite H in Hstart. inversion Hstart; subst. apply lookup_insert_eq.
  - simpl app in Hrun. apply start_all_cons in Hrun
      as (pf1 & started & w1 & pending1 & Hstart & Hrest & _).
    eapply (IH pf1); try eassumption.
    + destruct (callback_start_cases cfg pf b w)
        as [(a0 & p0 & _ & _ & _ & _ & H) | [(Hb & _ & H) | (_ & H)]];
        rewrite H in Hstart; inversion Hstart; subst; try assumption.
      rewrite lookup_insert_ne; [assumption|].
      intros Heq. apply (Hnobase b); [now left|]. rewrite <- Heq. exact Hb.
    + intros b' Hin. apply Hnobase. now right.
Qed.

(** X8: the download URL of a platform is that of the first base asset of
    the platform in the listing; later base assets of the platform do not
    replace it, and no signature reply changes it. *)
Theorem X8_first_base_asset_wins (cfg : Config) (u : Upstream)
    (latestRelease : Release) (before after : list File) (base : File)
    (key : string) (w : World) :
  is_base cfg key base ->
  (forall b, In b before -> ~ is_base cfg key b) ->
  exists m w' a,
    build cfg u latestRelease (before ++ base :: after)%list w
    = (inr {| ref := Allocated; val := ManifestData m |}, w')
    /\ entry key (platforms m) = Some (Asset a)
    /\ asset_url a = url base.
Proof.
  intros Hbase Hnobase.
  destruct (Promise_all_run cfg u (before ++ base :: after)%list w)
    as (pf & pending & w1 & pf' & w' & Hstart & Hfin & Hall & _ & _).
  pose proof (start_all_first cfg key base after before ∅ pf pending w w1
                (lookup_empty _) Hnobase Hbase Hstart) as Hpf.
  destruct (finish_all_total u (arrival u pending) pf w1)
    as (pf'' & w'' & Hfin' & _ & _ & _ & Hsome).
  rewrite Hfin in Hfin'. inversion Hfin'; subst pf'' w''; clear Hfin'.
  destruct (Hsome key _ Hpf) as (a & Ha & Hurl & _).
  eexists _, _, a. split; [apply (build_run _ _ _ _ _ _ _ Hall)|].
  cbn [built platforms]. rewrite entry_orderedPlatforms.
  destruct Hbase as (-> & _ & _). unfold descriptor_of. rewrite Ha.
  split; [reflexivity | exact Hurl].
Qed.

(** ** Statistics *)

Lemma read_statsData_current (s : Store) :
  get_or_read (lru_statsData (cache (ensureFilesExist s)))
              (STATS_FILE (disk (ensureFilesExist s)))
  = Some (origin (lru_statsData (cache s)), current_statsData s).
Proof.
  unfold current_statsData, get_or_read, origin. simpl.
  destruct (lru_statsData (cache s)); [reflexivity|].
  destruct (STATS_FILE (disk s)); reflexivity.
Qed.

(** The cycle that a handler runs leaves the LRU and the statistics file
    of the handler's store alone. *)
Lemma fetch_world_frame (cfg : Config) (u : Upstream) (s : Store) :
  cache (store (snd (fetchGitHubData cfg u (fetch_world s)))) = cache s
  /\ STATS_FILE (disk (store (snd (fetchGitHubData cfg u (fetch_world s)))))
     = STATS_FILE (disk (ensureFilesExist s))
  /\ lastFetchTime (etagData (snd (fetchGitHubData cfg u (fetch_world s))))
     = lastFetchTime (current_etagData s).
Proof.
  destruct (fetch_frame cfg u (fetch_world s)) as (H1 & H2 & H3 & _).
  auto.
Qed.

(** X9: the [User-Agent] of a request decides nothing but the counting:
    both handlers give every request the same response and make the same
    upstream requests for it; and a request of the uptime bot leaves the
    counters as they are, in the LRU and in the statistics file. *)
Theorem X9_uptime_bot_is_not_counted (cfg : Config) (u : Upstream) (now : Z)
    (req req' : HttpRequest) (s : Store) :
  outcome (handler cfg u req s) = outcome (handler cfg u req' s)
  /\ requests (handler cfg u req s) = requests (handler cfg u req' s)
  /\ outcome (Interval.handler cfg u now req s)
     = outcome (Interval.handler cfg u now req' s)
  /\ requests (Interval.handler cfg u now req s)
     = requests (Interval.handler cfg u now req' s)
  /\ (isBetterUptimeBot req = true ->
      lru_statsData (cache (store_after (handler cfg u req s)))
      = lru_statsData (cache s)
      /\ STATS_FILE (disk (store_after (handler cfg u req s)))
         = STATS_FILE (disk (ensureFilesExist s))
      /\ lru_statsData (cache (store_after (Interval.handler cfg u now req s)))
         = lru_statsData (cache s)
      /\ STATS_FILE (disk (store_after (Interval.handler cfg u now req s)))
         = STATS_FILE (disk (ensureFilesExist s))).
Proof.
  destruct (handler_outcome cfg u req s) as [-> ->].
  destruct (handler_outcome cfg u req' s) as [-> ->].
  destruct (interval_handler_outcome cfg u now req s) as [Hy Hn].
  destruct (interval_handler_outcome cfg u now req' s) as [Hy' Hn'].
  split; [reflexivity|]. split; [reflexivity|].
  split; [|split].
  - destruct (Interval.trust_cache _ _ _).
    + destruct (Hy eq_refl) as [-> _]. now destruct (Hy' eq_refl) as [-> _].
    + destruct (Hn eq_refl) as [-> _]. now destruct (Hn' eq_refl) as [-> _].
  - destruct (Interval.trust_cache _ _ _).
    + destruct (Hy eq_refl) as [_ ->]. now destruct (Hy' eq_refl) as [_ ->].
    + destruct (Hn eq_refl) as [_ ->]. now destruct (Hn' eq_refl) as [_ ->].
  - intros Hbot.
    destruct (fetch_world_frame cfg u s) as (Hcache & Hstats & _).
    unfold handler, Interval.handler.
    rewrite read_cacheData, read_etagData, read_statsData_current, Hbot.
    unfold fetch_world in Hcache, Hstats. clear Hy Hn Hy' Hn'.
    cbn [val ref].
    destruct (fetchGitHubData cfg u _) as [[err | fetched] w];
      cbn [fst snd] in Hcache, Hstats.
    + destruct (is_empty (current_cacheData s)), (is_403 err),
        (Interval.trust_cache _ _ _), (origin (lru_etagData (cache s)));
        cbn; rewrite ?Hcache, ?Hstats; auto.
    + unfold not_identical. cbn [ref].
      destruct (is_empty (current_cacheData s)), (ref fetched),
        (origin (lru_cacheData (cache s))),
        (Interval.trust_cache _ _ _), (origin (lru_etagData (cache s)));
        cbn; rewrite ?Hcache, ?Hstats; auto.
Qed.

(** X10: the handler with the interval counts every request that is not
    the uptime bot's exactly once: as a fetch when it ran a cycle that
    returned, as a cache hit when it trusted the cache or when the cycle
    threw.  The new counters are in the LRU and in the statistics file, and
    the two of them add up to one more than before. *)
Theorem X10_interval_counts_once (cfg : Config) (u : Upstream) (now : Z)
    (req : HttpRequest) (s : Store) :
  isBetterUptimeBot req = false ->
  let served := Interval.handler cfg u now req s in
  let st := current_statsData s in
  let st' :=
    if Interval.trust_cache (current_cacheData s) (current_etagData s) now
    then counted_hit st
    else match fst (fetchGitHubData cfg u (fetch_world s)) with
         | inr _ => counted_fetch st
         | inl _ => counted_hit st
         end in
  lru_statsData (cache (store_after served)) = Some st'
  /\ STATS_FILE (disk (store_after served)) = Some st'
  /\ or_zero (cacheHits st') + or_zero (fetches st')
     = or_zero (cacheHits st) + or_zero (fetches st) + 1.
Proof.
  intros Hbot served st st'. subst served st'.
  unfold Interval.handler.
  rewrite read_cacheData, read_etagData, read_statsData_current, Hbot.
  fold st. unfold fetch_world.
  destruct (Interval.trust_cache _ _ _).
  - cbn. repeat split. destruct (cacheHits st), (fetches st); simpl; lia.
  - destruct (fetchGitHubData cfg u _) as [[err | fetched] w]; cbn [fst].
    + destruct (origin (lru_etagData (cache s))); cbn; repeat split;
        destruct (cacheHits st), (fetches st); simpl; lia.
    + cbn. repeat split. destruct (cacheHits st), (fetches st); simpl; lia.
Qed.

(** X11: how the handler of [src/index.ts] counts a request that is not
    the uptime bot's when the release list answers 304 and the cached
    manifest is not empty.  When the LRU holds the manifest, the request is
    a cache hit.  When only the cache file holds it (after a restart), the
    handler and the cycle each parse the file, the two objects are not
    identical, and the request is counted as a fetch; the manifest then
    enters the LRU. *)
Theorem X11_not_modified_after_restart (cfg : Config) (u : Upstream)
    (req : HttpRequest) (s : Store) (e : option string) (d : list Release) :
  isBetterUptimeBot req = false ->
  releases_reply u (or_empty (releases (current_etagData s))) = Http 304 e d ->
  is_empty (current_cacheData s) = false ->
  let served := handler cfg u req s in
  outcome served = Responded 200 (current_cacheData s)
  /\ (forall cached, lru_cacheData (cache s) = Some cached ->
        lru_statsData (cache (store_after served))
        = Some (counted_hit (current_statsData s)))
  /\ (lru_cacheData (cache s) = None ->
        lru_statsData (cache (store_after served))
        = Some (counted_fetch (current_statsData s))
        /\ lru_cacheData (cache (store_after served))
           = Some (current_cacheData s)).
Proof.
  intros Hbot Hrel Hne served. subst served. unfold handler.
  rewrite read_cacheData, read_etagData, read_statsData_current, Hbot.
  cbn [val]. rewrite Hne.
  rewrite (fetch_not_modified cfg u _ e d) by exact Hrel.
  unfold cached_or_file, asked_releases. cbn [store].
  rewrite read_cacheData. unfold not_identical. cbn [ref val].
  split; [|split].
  - destruct (origin (lru_cacheData (cache s))); reflexivity.
  - intros cached Hlru. rewrite Hlru. cbn [origin].
    destruct (origin (lru_etagData (cache s))); reflexivity.
  - intros Hlru. rewrite Hlru. cbn [origin].
    destruct (origin (lru_etagData (cache s))); split; reflexivity.
Qed.

(** ** The tokens a handler leaves *)

(** X12: the handler with the interval sets [lastFetchTime] to the time of
    the request exactly when it ran a cycle and the cycle returned; a
    request served from the trusted cache, and a request whose cycle threw,
    leave [lastFetchTime] as it was. *)
Theorem X12_lastFetchTime (cfg : Config) (u : Upstream) (now : Z)
    (req : HttpRequest) (s : Store) :
  lastFetchTime (current_etagData
                   (store_after (Interval.handler cfg u now req s)))
  = if Interval.trust_cache (current_cacheData s) (current_etagData s) now
    then lastFetchTime (current_etagData s)
    else match fst (fetchGitHubData cfg u (fetch_world s)) with
         | inr _ => Some now
         | inl _ => lastFetchTime (current_etagData s)
         end.
Proof.
  destruct (fetch_world_frame cfg u s) as (Hcache & _ & Hlast).
  pose proof (fetch_frame cfg u (fetch_world s)) as (_ & _ & _ & Hfail).
  unfold Interval.handler.
  rewrite read_cacheData, read_etagData, read_statsData_current.
  unfold fetch_world in *.
  destruct (Interval.trust_cache _ _ _).
  - rewrite <- (current_etagData_ensure s).
    unfold count_hit, persist_stats. destruct (isBetterUptimeBot req); reflexivity.
  - destruct (fetchGitHubData cfg u _) as [[err | fetched] w];
      cbn [fst snd] in *.
    + specialize (Hfail err eq_refl). cbn [store] in Hfail.
      unfold count_hit, persist_stats, store_after_fetch, origin.
      destruct (lru_etagData (cache s)) as [e0|] eqn:Hlru.
      * destruct (isBetterUptimeBot req); cbn; exact Hlast.
      * transitivity (lastFetchTime (current_etagData (store w))).
        { destruct (isBetterUptimeBot req); reflexivity. }
        rewrite Hfail, current_etagData_ensure. reflexivity.
    + unfold count_fetch, persist_stats.
      destruct (isBetterUptimeBot req); reflexivity.
Qed.

(** X13: the handler of [src/index.ts] never puts the tokens into the LRU,
    so every request starts from the tokens of the ETag file; and a request
    whose cycle threw leaves those tokens exactly as they were, whatever
    the cycle had assigned in memory. *)
Theorem X13_tokens_come_from_disk (cfg : Config) (u : Upstream)
    (req : HttpRequest) (s : Store) :
  lru_etagData (cache s) = None ->
  lru_etagData (cache (store_after (handler cfg u req s))) = None
  /\ (forall err w, fetchGitHubData cfg u (fetch_world s) = (inl err, w) ->
        current_etagData (store_after (handler cfg u req s))
        = current_etagData s).
Proof.
  intros Hlru.
  destruct (fetch_world_frame cfg u s) as (Hcache & _ & _).
  pose proof (fetch_frame cfg u (fetch_world s)) as (_ & _ & _ & Hfail).
  unfold handler.
  rewrite read_cacheData, read_etagData, read_statsData_current, Hlru.
  cbn [origin val]. unfold fetch_world in *.
  destruct (fetchGitHubData cfg u _) as [[err | fetched] w];
    cbn [fst snd store_after_fetch] in *.
  - specialize (Hfail err eq_refl). cbn [store] in Hfail.
    assert (Hsame : current_etagData (store w) = current_etagData s).
    { rewrite Hfail. apply current_etagData_ensure. }
    assert (Hnone : lru_etagData (cache (store w)) = None)
      by (rewrite Hcache; exact Hlru).
    split.
    + destruct (is_empty (current_cacheData s)), (is_403 err);
        unfold count_hit, persist_stats;
        destruct (isBetterUptimeBot req); cbn; exact Hnone.
    + intros err' w' [= <- <-]. rewrite <- Hsame.
      destruct (is_empty (current_cacheData s)), (is_403 err);
        unfold count_hit, persist_stats;
        destruct (isBetterUptimeBot req); reflexivity.
  - assert (Hnone : lru_etagData (cache (store w)) = None)
      by (rewrite Hcache; exact Hlru).
    split; [|intros err' w' H; discriminate H].
    unfold not_identical. cbn [ref].
    destruct (is_empty (current_cacheData s)), (ref fetched),
      (origin (lru_cacheData (cache s)));
      unfold count_hit, count_fetch, persist_stats;
      destruct (isBetterUptimeBot req); cbn; exact Hnone.
Qed.

Lemma cached_or_file_ensured (s : Store) (e : ETagData) (l : list Request) :
  cached_or_file {| store := ensureFilesExist s; etagData := e; log := l |}
  = (inr {| ref := origin (lru_cacheData (cache s));
            val := current_cacheData s |},
     {| store := ensureFilesExist s; etagData := e; log := l |}).
Proof.
  unfold cached_or_file. cbn [store]. rewrite read_cacheData. reflexivity.
Qed.

(** X14: in the handler with the interval, once the LRU holds the tokens
    (after the first cycle that returned), the cycle assigns to the very
    object that the LRU holds.  If the release list answers 2xx and the
    archive request is then rejected, the request is answered with the old
    manifest, which stays cached, and the ETag file is not rewritten; but
    the release-list token in memory is already the new one.  A later
    request whose release-list request, sent with that token, is answered
    304 is therefore served the old manifest. *)
Theorem X14_token_ahead_of_manifest (cfg : Config) (u : Upstream) (now : Z)
    (req : HttpRequest) (s : Store) (e0 : ETagData) (st : Z)
    (e : option string) (latestRelease : Release) (older : list Release) :
  let tag := tag_name latestRelease in
  let served := Interval.handler cfg u now req s in
  lru_etagData (cache s) = Some e0 ->
  Interval.trust_cache (current_cacheData s) e0 now = false ->
  releases_reply u (or_empty (releases e0)) = Http st e (latestRelease :: older) ->
  200 <= st < 300 ->
  rejected (archive_reply u tag (or_empty (or_empty_object (archives e0) !! tag))) ->
  outcome served = Responded 200 (current_cacheData s)
  /\ current_cacheData (store_after served) = current_cacheData s
  /\ ETAG_FILE (disk (store_after served)) = ETAG_FILE (disk (ensureFilesExist s))
  /\ releases (current_etagData (store_after served)) = e
  /\ (forall u2 now2 req2 e' d',
        Interval.MIN_FETCH_INTERVAL <= now2 - Interval.lastFetchTime_or_0 e0 ->
        releases_reply u2 (or_empty e) = Http 304 e' d' ->
        outcome (Interval.handler cfg u2 now2 req2 (store_after served))
        = Responded 200 (current_cacheData s)).
Proof.
  intros tag served Hlru Htrust Hrel Hst Hrej.
  apply validateStatus_2xx in Hst as [Hv H304].
  assert (He0 : current_etagData s = e0).
  { unfold current_etagData. now rewrite Hlru. }
  assert (Hfetch : exists w,
             fetchGitHubData cfg u (fetch_world s) = (inl (match archive_reply u tag
               (or_empty (or_empty_object (archives e0) !! tag)) with
               | NetworkError => AxiosError None
               | Http st2 _ _ => AxiosError (Some st2)
               end), w)
             /\ store w = ensureFilesExist s
             /\ releases (etagData w) = e
             /\ lastFetchTime (etagData w) = lastFetchTime e0).
  { rewrite fetch_stages. unfold archive_header, fetch_world.
    cbn [etagData]. rewrite !He0, Hrel, Hv, H304. cbn [head]. cbv zeta.
    fold tag.
    destruct (archive_reply u tag _) as [|st2 e2 d2].
    - eexists. split; [reflexivity|]. simpl. auto.
    - simpl in Hrej. rewrite Hrej.
      eexists. split; [reflexivity|]. simpl. auto. }
  destruct Hfetch as (w & Hf & Hstore & Hrelw & Hlastw).
  assert (Hafter : store_after served
                   = persist_stats (isBetterUptimeBot req)
                       (fst (count_hit (isBetterUptimeBot req)
                               (current_statsData s)
                               (cache_set_etagData (etagData w) (store w))))
                       (snd (count_hit (isBetterUptimeBot req)
                               (current_statsData s)
                               (cache_set_etagData (etagData w) (store w))))
                   /\ outcome served = Responded 200 (current_cacheData s)).
  { subst served. unfold Interval.handler.
    rewrite read_cacheData, read_etagData, read_statsData_current, He0, Htrust.
    unfold fetch_world in Hf. rewrite He0 in Hf. rewrite Hf, Hlru.
    cbn [origin store_after_fetch]. unfold count_hit.
    destruct (isBetterUptimeBot req); split; reflexivity. }
  destruct Hafter as [Hafter Hout].
  assert (Hcur : current_cacheData (store_after served) = current_cacheData s).
  { rewrite Hafter. unfold count_hit, persist_stats.
    transitivity (current_cacheData (store w)).
    - destruct (isBetterUptimeBot req); reflexivity.
    - rewrite Hstore. apply current_cacheData_ensure. }
  assert (Hetag : current_etagData (store_after served) = etagData w).
  { rewrite Hafter. unfold count_hit, persist_stats.
    destruct (isBetterUptimeBot req); reflexivity. }
  split; [exact Hout|]. split; [exact Hcur|]. split; [|split].
  - rewrite Hafter. unfold count_hit, persist_stats.
    destruct (isBetterUptimeBot req); cbn; rewrite Hstore; reflexivity.
  - rewrite Hetag. exact Hrelw.
  - intros u2 now2 req2 e' d' Hlate Hrel2.
    destruct (interval_handler_outcome cfg u2 now2 req2 (store_after served))
      as [_ Hn].
    destruct Hn as [-> _].
    + unfold Interval.trust_cache. apply andb_false_intro2.
      rewrite Hetag. unfold Interval.lastFetchTime_or_0 in *.
      rewrite Hlastw. lia.
    + rewrite (fetch_not_modified cfg u2 _ e' d').
      * unfold fetch_world, asked_releases. cbn [store etagData log].
        rewrite cached_or_file_ensured. cbn [fst val]. rewrite Hcur.
        reflexivity.
      * unfold fetch_world. cbn [etagData]. rewrite Hetag, Hrelw. exact Hrel2.
Qed.

(** ** The degraded manifest *)

(** X15: in the handler of [src/index.ts], when the release list answers
    2xx, the archive listing of the latest tag answers 304 and the cached
    manifest is of another version (or empty), the request is answered with
    the manifest in which every enabled platform is the empty object, and
    that manifest replaces the cached one, in the LRU and in the cache
    file. *)
Theorem X15_degraded_manifest_replaces_cache (cfg : Config) (u : Upstream)
    (req : HttpRequest) (s : Store) (st : Z) (e e2 : option string)
    (latestRelease : Release) (older : list Release) (d2 : list string) :
  let tag := tag_name latestRelease in
  let served := handler cfg u req s in
  releases_reply u (or_empty (releases (current_etagData s)))
  = Http st e (latestRelease :: older) ->
  200 <= st < 300 ->
  archive_reply u tag
    (or_empty (or_empty_object (archives (current_etagData s)) !! tag))
  = Http 304 e2 d2 ->
  version_is (current_cacheData s) tag = false ->
  outcome served = Responded 200 (ManifestData (degraded cfg latestRelease))
  /\ lru_cacheData (cache (store_after served))
     = Some (ManifestData (degraded cfg latestRelease))
  /\ CACHE_FILE (disk (store_after served))
     = Some (ManifestData (degraded cfg latestRelease)).
Proof.
  intros tag served Hrel Hst Harch Hver.
  apply validateStatus_2xx in Hst as [Hv H304].
  assert (Hf : exists w,
             fetchGitHubData cfg u (fetch_world s)
             = (inr {| ref := Allocated;
                       val := ManifestData (degraded cfg latestRelease) |}, w)
             /\ CACHE_FILE (disk (store w))
                = Some (ManifestData (degraded cfg latestRelease))).
  { rewrite fetch_stages. unfold archive_header, fetch_world.
    cbn [etagData store]. rewrite Hrel, Hv, H304. cbn [head]. cbv zeta.
    fold tag. rewrite Harch.
    change (validateStatus 304) with true. change (304 =? 304) with true.
    cbv iota. rewrite read_cacheData, Hver.
    unfold build, bind at 1. rewrite Promise_all_nil.
    unfold bind, writeFile_CACHE_FILE, writeFile_ETAG_FILE, bind, get_world,
      set_store, ret. cbn [store etagData log].
    rewrite orderedPlatforms_empty.
    eexists. split; reflexivity. }
  destruct Hf as (w & Hf & Hfile).
  subst served. unfold handler.
  rewrite read_cacheData, read_etagData, read_statsData_current.
  unfold fetch_world in Hf. rewrite Hf. unfold not_identical. cbn [val ref].
  destruct (is_empty (current_cacheData s)),
    (origin (lru_cacheData (cache s))), (origin (lru_etagData (cache s)));
    unfold count_fetch, persist_stats;
    destruct (isBetterUptimeBot req); cbn; auto.
Qed.

(** ** The naming conventions, for every name *)

Lemma substring_skip_more (a b : string) (n m : nat) :
  String.substring (String.length a + n) m (String.append a b)
  = String.substring n m b.
Proof.
  induction a as [|c a IH]; [reflexivity|].
  rewrite append_cons. simpl. exact IH.
Qed.

(** A suffix no longer than the second part of a name is looked for in
    that part alone. *)
Lemma endsWith_app_short (a s suffix : string) :
  (String.length suffix <= String.length s)%nat ->
  endsWith (String.append a s) suffix = endsWith s suffix.
Proof.
  intros Hlen. unfold endsWith. rewrite length_append.
  replace (String.length a + String.length s - String.length suffix)%nat
    with (String.length a + (String.length s - String.length suffix))%nat by lia.
  rewrite substring_skip_more.
  f_equal. apply eq_true_iff_eq. rewrite !Nat.leb_le. lia.
Qed.

Lemma substring_split (s : string) (m : nat) :
  (m <= String.length s)%nat ->
  s = String.append (String.substring 0 m s)
                    (String.substring m (String.length s - m) s).
Proof.
  revert m. induction s as [|c s IH]; intros [|m] Hm; simpl in *; try lia.
  - reflexivity.
  - now rewrite substring_all.
  - rewrite append_cons. f_equal. apply IH. lia.
Qed.

Lemma endsWith_inv (s suffix : string) :
  endsWith s suffix = true -> exists p, s = String.append p suffix.
Proof.
  unfold endsWith. intros [Hlen Heq]%andb_prop.
  apply Nat.leb_le in Hlen. apply String.eqb_eq in Heq.
  exists (String.substring 0 (String.length s - String.length suffix) s).
  pose proof (substring_split s (String.length s - String.length suffix)
                (Nat.le_sub_l _ _)) as H.
  replace (String.length s - (String.length s - String.length suffix))%nat
    with (String.length suffix) in H by lia.
  rewrite Heq in H. exact H.
Qed.

Lemma last_char_app (a b : string) :
  b <> EmptyString -> last_char (String.append a b) = last_char b.
Proof.
  intros Hb. induction a as [|c a IH]; [reflexivity|].
  rewrite append_cons. simpl. rewrite IH.
  destruct (String.append a b) eqn:E; [|reflexivity].
  destruct a; [simpl in E; contradiction | discriminate].
Qed.

(** Two names with different last characters are not suffixes of each
    other's extensions. *)
Lemma endsWith_app_other (a s suffix : string) :
  s <> EmptyString -> suffix <> EmptyString ->
  last_char s <> last_char suffix ->
  endsWith (String.append a s) suffix = false.
Proof.
  intros Hs Hsuf Hdiff.
  destruct (endsWith (String.append a s) suffix) eqn:E; [|reflexivity].
  apply endsWith_inv in E as [p Hp].
  exfalso. apply Hdiff.
  rewrite <- (last_char_app a s Hs), Hp. now apply last_char_app.
Qed.

Lemma prefix_app (sub a b : string) :
  String.prefix sub a = true -> String.prefix sub (String.append a b) = true.
Proof.
  revert a. induction sub as [|c sub IH]; intros a H.
  - now destruct (String.append a b).
  - destruct a as [|x a]; [discriminate|].
    rewrite append_cons. simpl in *.
    destruct (ascii_dec c x); [now apply IH | discriminate].
Qed.

Lemma includes_app_l (a b sub : string) :
  includes a sub = true -> includes (String.append a b) sub = true.
Proof.
  induction a as [|c a IH]; intros H.
  - destruct sub as [|x sub]; [now destruct b | discriminate H].
  - rewrite append_cons.
    change (includes (String c a) sub)
      with (if String.prefix sub (String c a) then true else includes a sub) in H.
    change (includes (String c (String.append a b)) sub)
      with (if String.prefix sub (String c (String.append a b)) then true
            else includes (String.append a b) sub).
    destruct (String.prefix sub (String c a)) eqn:E.
    + apply (prefix_app _ _ b) in E. rewrite append_cons in E. now rewrite E.
    + rewrite (IH H).
      destruct (String.prefix sub (String c (String.append a b))); reflexivity.
Qed.

(** X16: the naming conventions hold for every name, not only for the
    examples: whatever precedes the extension, an [.AppImage] is Linux, an
    [_intel.app.tar.gz] is macOS Intel, a [_silicon.app.tar.gz] is macOS
    Apple Silicon, and an [.msi] is Windows ARM64 exactly when its name
    contains [arm64] anywhere, the name of the application included. *)
Theorem X16_conventions_for_every_name (a : string) :
  determinePlatform (String.append a ".AppImage") = "linux-x86_64"
  /\ determinePlatform (String.append a "_intel.app.tar.gz") = "darwin-x86_64"
  /\ determinePlatform (String.append a "_silicon.app.tar.gz") = "darwin-aarch64"
  /\ determinePlatform (String.append a ".msi")
     = (if includes (String.append a ".msi") "arm64"
        then "windows-aarch64" else "windows-x86_64")
  /\ (includes a "arm64" = true ->
      determinePlatform (String.append a ".msi") = "windows-aarch64").
Proof.
  assert (Hmsi : determinePlatform (String.append a ".msi")
                 = (if includes (String.append a ".msi") "arm64"
                    then "windows-aarch64" else "windows-x86_64")).
  { rewrite determinePlatform_eq.
    rewrite (endsWith_app_short a ".msi" ".sig") by (simpl; lia).
    rewrite (endsWith_app_other a ".msi" ".AppImage") by (simpl; congruence).
    rewrite endsWith_app. reflexivity. }
  repeat split.
  - rewrite determinePlatform_eq.
    rewrite (endsWith_app_short a ".AppImage" ".sig") by (simpl; lia).
    rewrite endsWith_app. reflexivity.
  - rewrite determinePlatform_eq.
    rewrite (endsWith_app_short a "_intel.app.tar.gz" ".sig") by (simpl; lia).
    rewrite (endsWith_app_short a "_intel.app.tar.gz" ".AppImage")
      by (simpl; lia).
    rewrite (endsWith_app_short a "_intel.app.tar.gz" ".msi") by (simpl; lia).
    rewrite endsWith_app. reflexivity.
  - rewrite determinePlatform_eq.
    rewrite (endsWith_app_short a "_silicon.app.tar.gz" ".sig") by (simpl; lia).
    rewrite (endsWith_app_short a "_silicon.app.tar.gz" ".AppImage")
      by (simpl; lia).
    rewrite (endsWith_app_short a "_silicon.app.tar.gz" ".msi") by (simpl; lia).
    rewrite (endsWith_app_short a "_silicon.app.tar.gz" "_intel.app.tar.gz")
      by (simpl; lia).
    rewrite endsWith_app. reflexivity.
  - exact Hmsi.
  - intros Harm. rewrite Hmsi, (includes_app_l _ _ _ Harm). reflexivity.
Qed.

(** ** The earlier revision *)

Lemma legacy_determinePlatform_eq (filename : string) :
  Legacy.determinePlatform filename =
  if endsWith filename ".sig"
  then Legacy.determinePlatform (slice_to_neg 4 filename)
  else if endsWith filename ".AppImage" then "linux-x86_64"
  else if endsWith filename ".msi" then "windows-x86_64"
  else if endsWith filename "_intel.app.tar.gz" then "darwin-x86_64"
  else if endsWith filename "_silicon.app.tar.gz" then "darwin-aarch64"
  else "unknown".
Proof.
  rewrite Legacy.determinePlatform_equation_1.
  generalize (inspect (endsWith filename ".sig")).
  intros [b Hb]. destruct b.
  - rewrite Legacy.determinePlatform_clause_1_equation_1, Hb. reflexivity.
  - rewrite Legacy.determinePlatform_clause_1_equation_2, Hb. reflexivity.
Qed.

(** X17: the classifier of the earlier revision sends every name to the
    platform that the classifier of [src/index.ts] gives it, except that
    the installers of Windows on ARM64 count as [windows-x86_64]: they
    compete with the x86 installer for the one Windows entry. *)
Theorem X17_legacy_classifier (filename : string) :
  Legacy.determinePlatform filename =
  if String.eqb (determinePlatform filename) "windows-aarch64"
  then "windows-x86_64"
  else determinePlatform filename.
Proof.
  remember (String.length filename) as n eqn:Hn.
  revert filename Hn.
  induction n as [n IH] using lt_wf_ind. intros filename ->.
  rewrite legacy_determinePlatform_eq, (determinePlatform_eq filename).
  destruct (endsWith filename ".sig") eqn:Hsig.
  - apply endsWith_inv in Hsig as [p ->].
    change 4%nat with (String.length ".sig").
    rewrite !(slice_to_neg_app p ".sig").
    apply (IH (String.length p)); [|reflexivity].
    rewrite length_append. simpl. lia.
  - destruct (endsWith filename ".AppImage"); [reflexivity|].
    destruct (endsWith filename ".msi");
      [destruct (includes filename "arm64"); reflexivity|].
    destruct (endsWith filename "_intel.app.tar.gz"); [reflexivity|].
    destruct (endsWith filename "_silicon.app.tar.gz"); reflexivity.
Qed.

(** Neither pass over the files touches the LRU or the disk. *)
Lemma legacy_start_all_store (cfg : Legacy.Config) (files : list File) :
  forall (pf : gmap string PlatformAsset) (w : Legacy.World) r w',
    Legacy.start_all cfg files pf w = (r, w') ->
    Legacy.store w' = Legacy.store w
    /\ (exists r', r = inr r')
    /\ exists l, Legacy.log w' = (Legacy.log w ++ l)%list.
Proof.
  induction files as [|file rest IH]; intros pf w r w' H.
  - injection H as <- <-. split; [reflexivity|]. split; [eauto|].
    exists []. now rewrite app_nil_r.
  - simpl in H. unfold Legacy.bind at 1 in H.
    assert (Hcb : exists r1 w1,
               Legacy.callback_start cfg pf file w = (inr r1, w1)
               /\ Legacy.store w1 = Legacy.store w
               /\ exists l, Legacy.log w1 = (Legacy.log w ++ l)%list).
    { unfold Legacy.callback_start.
      assert (Hnil : exists l : list Legacy.Request,
                 Legacy.log w = (Legacy.log w ++ l)%list)
        by (exists []; now rewrite app_nil_r).
      destruct (Legacy.enabled cfg _); [|unfold Legacy.ret; eauto].
      destruct (endsWith (name file) ".sig");
        destruct (pf !! _); unfold Legacy.ret; eauto.
      unfold Legacy.bind, Legacy.send. cbn. eauto 7. }
    destruct Hcb as (r1 & w1 & Hcb & Hs1 & l1 & Hl1). rewrite Hcb in H.
    unfold Legacy.bind at 1 in H.
    destruct (Legacy.start_all cfg rest (fst r1) w1) as [[err | r2] w2] eqn:Hrest.
    + destruct (IH _ _ _ _ Hrest) as (_ & [r' Hr'] & _). discriminate Hr'.
    + destruct (IH _ _ _ _ Hrest) as (Hs2 & _ & l2 & Hl2).
      unfold Legacy.ret in H. injection H as <- <-.
      split; [congruence|]. split; [eauto|].
      exists (l1 ++ l2)%list. rewrite Hl2, Hl1. now rewrite app_assoc.
Qed.

Lemma legacy_finish_all_store (u : Legacy.Upstream) (completed : list Legacy.Pending) :
  forall (pf : gmap string PlatformAsset) (w : Legacy.World) r w',
    Legacy.finish_all u completed pf w = (r, w') -> w' = w.
Proof.
  induction completed as [|p rest IH]; intros pf w r w' H.
  - injection H as _ <-. reflexivity.
  - simpl in H. unfold Legacy.bind at 1 in H.
    unfold Legacy.fetchSignature_receive, Legacy.bind, Legacy.receive,
      Legacy.throw, Legacy.ret in H.
    destruct (Legacy.signature_reply u (Legacy.sig_url p)) as [|st e d].
    + injection H as _ <-. reflexivity.
    + destruct (Legacy.validateStatus_default st).
      * apply (IH _ _ _ _ H).
      * injection H as _ <-. reflexivity.
Qed.

Lemma legacy_Promise_all_store (cfg : Legacy.Config) (u : Legacy.Upstream)
    (files : list File) (w : Legacy.World) r w' :
  Legacy.Promise_all cfg u files w = (r, w') ->
  Legacy.store w' = Legacy.store w
  /\ exists l, Legacy.log w' = (Legacy.log w ++ l)%list.
Proof.
  unfold Legacy.Promise_all, Legacy.bind. intros H.
  destruct (Legacy.start_all cfg files ∅ w) as [[err | r1] w1] eqn:Hstart.
  - destruct (legacy_start_all_store _ _ _ _ _ _ Hstart) as (_ & [r' Hr'] & _).
    discriminate Hr'.
  - destruct (legacy_start_all_store _ _ _ _ _ _ Hstart) as (Hs & _ & Hl).
    apply legacy_finish_all_store in H. subst w'. auto.
Qed.

(** The stages of [fetchGitHubData()] of the earlier revision. *)
Lemma legacy_fetch_stages (cfg : Legacy.Config) (u : Legacy.Upstream)
    (w : Legacy.World) :
  let asked := {| Legacy.store := Legacy.store w;
                  Legacy.log := Legacy.log w ++ [Legacy.GetReleases None] |} in
  Legacy.fetchGitHubData cfg u w
  = match Legacy.releases_reply u None with
    | NetworkError => (inl (AxiosError None), asked)
    | Http st e d =>
        if Legacy.validateStatus_default st then
          let s1 :=
            {| Legacy.cache := Legacy.cache (Legacy.store w);
               Legacy.disk :=
                 {| Legacy.CACHE_FILE := Legacy.CACHE_FILE (Legacy.disk (Legacy.store w));
                    Legacy.STATS_FILE := Legacy.STATS_FILE (Legacy.disk (Legacy.store w));
                    Legacy.ETAG_FILE := Some {| Legacy.etag := e |} |} |} in
          match head d with
          | None => (inl TypeError,
                     {| Legacy.store := s1; Legacy.log := Legacy.log asked |})
          | Some latestRelease =>
              let tag := Legacy.tag_name latestRelease in
              let w2 := {| Legacy.store := s1;
                           Legacy.log := Legacy.log asked ++ [Legacy.GetArchive tag] |} in
              match Legacy.archive_reply u tag with
              | NetworkError => (inl (AxiosError None), w2)
              | Http st2 e2 d2 =>
                  if Legacy.validateStatus_default st2 then
                    match Legacy.Promise_all cfg u
                            (map (Legacy.file_of cfg tag) d2) w2 with
                    | (inl err, w3) => (inl err, w3)
                    | (inr pf', w3) =>
                        let m :=
                          ManifestData
                            {| version := tag;
                               notes := "A new version is available";
                               pub_date := Legacy.published_at latestRelease;
                               platforms := Legacy.orderedPlatforms cfg pf' |} in
                        (inr m,
                         {| Legacy.store :=
                              {| Legacy.cache := Legacy.cache (Legacy.store w3);
                                 Legacy.disk :=
                                   {| Legacy.CACHE_FILE := Some m;
                                      Legacy.STATS_FILE :=
                                        Legacy.STATS_FILE (Legacy.disk (Legacy.store w3));
                                      Legacy.ETAG_FILE :=
                                        Legacy.ETAG_FILE (Legacy.disk (Legacy.store w3)) |} |};
                            Legacy.log := Legacy.log w3 |})
                    end
                  else (inl (AxiosError (Some st2)), w2)
              end
          end
        else (inl (AxiosError (Some st)), asked)
    end.
Proof.
  intros asked. subst asked.
  unfold Legacy.fetchGitHubData, Legacy.bind, Legacy.send, Legacy.receive,
    Legacy.writeFile_ETAG_FILE, Legacy.writeFile_CACHE_FILE, Legacy.bind,
    Legacy.get_world, Legacy.set_store, Legacy.throw, Legacy.ret.
  cbn [Legacy.store Legacy.log].
  destruct (Legacy.releases_reply u None) as [|st e d]; [reflexivity|].
  destruct (Legacy.validateStatus_default st); [|reflexivity].
  cbn [data headers_etag Legacy.store Legacy.log].
  destruct (head d) as [latestRelease|]; [|reflexivity].
  cbn [Legacy.store Legacy.log].
  destruct (Legacy.archive_reply u _) as [|st2 e2 d2]; [reflexivity|].
  destruct (Legacy.validateStatus_default st2); [|reflexivity].
  cbn [data].
  destruct (Legacy.Promise_all cfg u _ _) as [[err | pf'] w3]; reflexivity.
Qed.

(** X18: in the earlier revision the ETag of the release list is written
    to [./cache/etag.json] before the archive is listed.  A cycle that
    fails after a 2xx release list (no release, the archive request or one
    signature request rejected) therefore leaves the new validator on disk
    beside the old manifest, which it does not touch. *)
Theorem X18_legacy_validator_written_first (cfg : Legacy.Config)
    (u : Legacy.Upstream) (w w' : Legacy.World) (st : Z) (e : option string)
    (d : list Legacy.Release) (err : Error) :
  Legacy.releases_reply u None = Http st e d ->
  Legacy.validateStatus_default st = true ->
  Legacy.fetchGitHubData cfg u w = (inl err, w') ->
  Legacy.ETAG_FILE (Legacy.disk (Legacy.store w')) = Some {| Legacy.etag := e |}
  /\ Legacy.CACHE_FILE (Legacy.disk (Legacy.store w'))
     = Legacy.CACHE_FILE (Legacy.disk (Legacy.store w))
  /\ Legacy.cache (Legacy.store w') = Legacy.cache (Legacy.store w).
Proof.
  intros Hrel Hv. rewrite legacy_fetch_stages. cbv zeta. rewrite Hrel, Hv.
  destruct (head d) as [latestRelease|].
  - destruct (Legacy.archive_reply u _) as [|st2 e2 d2].
    + intros H. injection H as _ <-. auto.
    + destruct (Legacy.validateStatus_default st2).
      * destruct (Legacy.Promise_all cfg u _ _) as [[err' | pf'] w3] eqn:Hp;
          [|discriminate].
        intros H. injection H as _ <-.
        apply legacy_Promise_all_store in Hp as [Hs _]. rewrite Hs. auto.
      * intros H. injection H as _ <-. auto.
  - intros H. injection H as _ <-. auto.
Qed.

Lemma legacy_fetch_log (cfg : Legacy.Config) (u : Legacy.Upstream)
    (w : Legacy.World) :
  exists l,
    Legacy.log (snd (Legacy.fetchGitHubData cfg u w))
    = (Legacy.log w ++ Legacy.GetReleases None :: l)%list.
Proof.
  rewrite legacy_fetch_stages. cbv zeta.
  destruct (Legacy.releases_reply u None) as [|st e d]; [exists []; reflexivity|].
  destruct (Legacy.validateStatus_default st); [|exists []; reflexivity].
  destruct (head d) as [latestRelease|]; [|exists []; reflexivity].
  destruct (Legacy.archive_reply u _) as [|st2 e2 d2].
  - eexists. cbn [snd Legacy.log]. rewrite <- app_assoc. reflexivity.
  - destruct (Legacy.validateStatus_default st2).
    + destruct (Legacy.Promise_all cfg u _ _) as [[err' | pf'] w3] eqn:Hp;
        apply legacy_Promise_all_store in Hp as [_ [l Hl]];
        exists (Legacy.GetArchive (Legacy.tag_name latestRelease) :: l);
        cbn [snd Legacy.log] in *; rewrite Hl, <- !app_assoc; reflexivity.
    + eexists. cbn [snd Legacy.log]. rewrite <- app_assoc. reflexivity.
Qed.

(** What the handler of the earlier revision reads. *)
Lemma legacy_reads (s : Legacy.Store) :
  Legacy.get_or_parse (Legacy.lru_cacheData (Legacy.cache (Legacy.ensureFilesExist s)))
                      (Legacy.CACHE_FILE (Legacy.disk (Legacy.ensureFilesExist s)))
  = Some (Legacy.current_cacheData s)
  /\ Legacy.get_or_parse (Legacy.lru_statsData (Legacy.cache (Legacy.ensureFilesExist s)))
                         (Legacy.STATS_FILE (Legacy.disk (Legacy.ensureFilesExist s)))
     = Some (Legacy.current_statsData s)
  /\ Legacy.get_or_parse (Legacy.lru_etagData (Legacy.cache (Legacy.ensureFilesExist s)))
                         (Legacy.ETAG_FILE (Legacy.disk (Legacy.ensureFilesExist s)))
     = Some (Legacy.current_etag s).
Proof.
  destruct s as [[c st e] [cf sf ef]].
  unfold Legacy.get_or_parse, Legacy.current_cacheData,
    Legacy.current_statsData, Legacy.current_etag, Legacy.ensureFilesExist,
    ensureFileExists.
  destruct c, st, e, cf, sf, ef; auto.
Qed.

(** The handler of the earlier revision, on what it reads. *)
Lemma legacy_handler_eq (cfg : Legacy.Config) (u : Legacy.Upstream)
    (req : HttpRequest) (s0 : Legacy.Store) :
  Legacy.handler cfg u req s0 =
  let s := Legacy.ensureFilesExist s0 in
  let cacheData := Legacy.current_cacheData s0 in
  let statsData := Legacy.current_statsData s0 in
  let isBot := isBetterUptimeBot req in
  let header := Legacy.conditional_header s0 in
  let w := {| Legacy.store := s; Legacy.log := [Legacy.GetReleases header] |} in
  let hit :=
    {| Legacy.outcome := res_json cacheData;
       Legacy.store_after :=
         Legacy.persist_stats isBot
           (fst (Legacy.count_hit isBot statsData s))
           (snd (Legacy.count_hit isBot statsData s));
       Legacy.requests := [Legacy.GetReleases header] |} in
  match Legacy.releases_reply u header with
  | NetworkError => hit
  | Http st e d =>
      if validateStatus st then
        if Legacy.cacheIsOutdated
             {| status := st; headers_etag := e; data := d |} cacheData
        then
          match Legacy.fetchGitHubData cfg u w with
          | (inr fetched, w') =>
              let s1 := Legacy.cache_set_cacheData fetched (Legacy.store w') in
              {| Legacy.outcome := res_json fetched;
                 Legacy.store_after :=
                   Legacy.persist_stats isBot
                     (fst (Legacy.count_fetch isBot statsData s1))
                     (snd (Legacy.count_fetch isBot statsData s1));
                 Legacy.requests := Legacy.log w' |}
          | (inl fetchError, w') =>
              if is_403 fetchError then
                {| Legacy.outcome := res_json cacheData;
                   Legacy.store_after := Legacy.store w';
                   Legacy.requests := Legacy.log w' |}
              else
                {| Legacy.outcome := res_json cacheData;
                   Legacy.store_after :=
                     Legacy.persist_stats isBot statsData (Legacy.store w');
                   Legacy.requests := Legacy.log w' |}
          end
        else hit
      else hit
  end.
Proof.
  unfold Legacy.handler. cbv zeta.
  destruct (legacy_reads s0) as (-> & -> & ->).
  unfold Legacy.conditional_header, Legacy.receive, Legacy.throw, Legacy.ret.
  destruct (Legacy.releases_reply u _) as [|st e d].
  - unfold Legacy.count_hit. cbn [Legacy.store Legacy.log].
    destruct (isBetterUptimeBot req); reflexivity.
  - destruct (validateStatus st).
    + destruct (Legacy.cacheIsOutdated _ _).
      * destruct (Legacy.fetchGitHubData cfg u _) as [[err | fetched] w'].
        -- reflexivity.
        -- unfold Legacy.count_fetch.
           destruct (isBetterUptimeBot req); reflexivity.
      * unfold Legacy.count_hit. cbn [Legacy.store Legacy.log].
        destruct (isBetterUptimeBot req); reflexivity.
    + unfold Legacy.count_hit. cbn [Legacy.store Legacy.log].
      destruct (isBetterUptimeBot req); reflexivity.
Qed.

Lemma legacy_current_cacheData_stats (isBot : bool) (st : StatsData)
    (s : Legacy.Store) :
  Legacy.current_cacheData (Legacy.persist_stats isBot st s)
  = Legacy.current_cacheData s
  /\ Legacy.current_etag (Legacy.persist_stats isBot st s)
     = Legacy.current_etag s
  /\ Legacy.current_cacheData (snd (Legacy.count_hit isBot st s))
     = Legacy.current_cacheData s
  /\ Legacy.current_etag (snd (Legacy.count_hit isBot st s))
     = Legacy.current_etag s
  /\ Legacy.current_cacheData (snd (Legacy.count_fetch isBot st s))
     = Legacy.current_cacheData s
  /\ Legacy.current_etag (snd (Legacy.count_fetch isBot st s))
     = Legacy.current_etag s.
Proof.
  unfold Legacy.persist_stats, Legacy.count_hit, Legacy.count_fetch.
  destruct isBot; repeat split; reflexivity.
Qed.

Lemma legacy_current_ensure (s : Legacy.Store) :
  Legacy.current_cacheData (Legacy.ensureFilesExist s)
  = Legacy.current_cacheData s
  /\ Legacy.current_etag (Legacy.ensureFilesExist s) = Legacy.current_etag s.
Proof.
  destruct s as [[c st e] [cf sf ef]].
  unfold Legacy.current_cacheData, Legacy.current_etag,
    Legacy.ensureFilesExist, ensureFileExists.
  destruct c, e, cf, ef; auto.
Qed.

(** What the handler of the earlier revision answers and asks. *)
Lemma legacy_handler_outcome (cfg : Legacy.Config) (u : Legacy.Upstream)
    (req : HttpRequest) (s0 : Legacy.Store) :
  let served := Legacy.handler cfg u req s0 in
  let cycle := Legacy.fetchGitHubData cfg u (Legacy.refresh_world s0) in
  (Legacy.refreshes u s0 = false ->
   Legacy.outcome served = Responded 200 (Legacy.current_cacheData s0)
   /\ Legacy.requests served
      = [Legacy.GetReleases (Legacy.conditional_header s0)]
   /\ Legacy.current_cacheData (Legacy.store_after served)
      = Legacy.current_cacheData s0
   /\ Legacy.current_etag (Legacy.store_after served) = Legacy.current_etag s0)
  /\ (Legacy.refreshes u s0 = true ->
      Legacy.outcome served
      = Responded 200 match fst cycle with
                      | inr fetched => fetched
                      | inl _ => Legacy.current_cacheData s0
                      end
      /\ Legacy.requests served = Legacy.log (snd cycle)
      /\ Legacy.current_cacheData (Legacy.store_after served)
         = match fst cycle with
           | inr fetched => fetched
           | inl _ => Legacy.current_cacheData (Legacy.store (snd cycle))
           end
      /\ Legacy.current_etag (Legacy.store_after served)
         = Legacy.current_etag (Legacy.store (snd cycle))).
Proof.
  intros served cycle. subst served cycle.
  rewrite legacy_handler_eq. cbv zeta.
  unfold Legacy.refreshes, Legacy.refresh_world.
  assert (Hhit : forall isBot st,
             Legacy.current_cacheData
               (Legacy.persist_stats isBot
                  (fst (Legacy.count_hit isBot st (Legacy.ensureFilesExist s0)))
                  (snd (Legacy.count_hit isBot st (Legacy.ensureFilesExist s0))))
             = Legacy.current_cacheData s0
             /\ Legacy.current_etag
                  (Legacy.persist_stats isBot
                     (fst (Legacy.count_hit isBot st (Legacy.ensureFilesExist s0)))
                     (snd (Legacy.count_hit isBot st (Legacy.ensureFilesExist s0))))
                = Legacy.current_etag s0).
  { intros isBot st.
    destruct (legacy_current_ensure s0) as [<- <-].
    unfold Legacy.persist_stats, Legacy.count_hit.
    destruct isBot; split; reflexivity. }
  destruct (Legacy.releases_reply u _) as [|st e d].
  - split; [|discriminate]. intros _.
    destruct (Hhit (isBetterUptimeBot req) (Legacy.current_statsData s0)).
    auto.
  - destruct (validateStatus st); cbn [andb].
    + destruct (Legacy.cacheIsOutdated _ _).
      * split; [discriminate|]. intros _.
        destruct (Legacy.fetchGitHubData cfg u _) as [[err | fetched] w'];
          cbn [fst snd].
        -- destruct (is_403 err); cbn [Legacy.outcome Legacy.requests
                                        Legacy.store_after];
             unfold Legacy.persist_stats;
             destruct (isBetterUptimeBot req); auto.
        -- cbn [Legacy.outcome Legacy.requests Legacy.store_after].
           unfold Legacy.persist_stats, Legacy.count_fetch.
           destruct (isBetterUptimeBot req); auto.
      * split; [|discriminate]. intros _.
        destruct (Hhit (isBetterUptimeBot req) (Legacy.current_statsData s0)).
        auto.
    + split; [|discriminate]. intros _.
      destruct (Hhit (isBetterUptimeBot req) (Legacy.current_statsData s0)).
      auto.
Qed.

(** X19: in the earlier revision, when a refresh fails after the release
    list was received, the request is answered with the manifest that was
    cached, which stays cached, but the validator on disk is already the
    new one.  A later request whose conditional release-list request, sent
    with that validator, is answered 304 makes no other request and is
    served the old manifest: the release that was missed is not looked for
    again until the release list changes once more. *)
Theorem X19_legacy_stale_after_failed_refresh (cfg : Legacy.Config)
    (u : Legacy.Upstream) (req : HttpRequest) (s0 : Legacy.Store)
    (st : Z) (e : option string) (d : list Legacy.Release)
    (err : Error) (w' : Legacy.World) :
  let cached := Legacy.current_cacheData s0 in
  let served := Legacy.handler cfg u req s0 in
  Legacy.lru_etagData (Legacy.cache s0) = None ->
  Legacy.refreshes u s0 = true ->
  Legacy.releases_reply u None = Http st e d ->
  200 <= st < 300 ->
  Legacy.fetchGitHubData cfg u (Legacy.refresh_world s0) = (inl err, w') ->
  Legacy.outcome served = Responded 200 cached
  /\ Legacy.current_cacheData (Legacy.store_after served) = cached
  /\ Legacy.current_etag (Legacy.store_after served) = {| Legacy.etag := e |}
  /\ (forall u2 req2 e' d',
        Legacy.releases_reply u2 (Some (or_empty e)) = Http 304 e' d' ->
        let again := Legacy.handler cfg u2 req2 (Legacy.store_after served) in
        Legacy.outcome again = Responded 200 cached
        /\ Legacy.requests again = [Legacy.GetReleases (Some (or_empty e))]).
Proof.
  intros cached served Hlru Hrefresh Hrel Hst Hf.
  assert (Hv : Legacy.validateStatus_default st = true).
  { unfold Legacy.validateStatus_default.
    apply andb_true_intro. split; [apply Z.leb_le | apply Z.ltb_lt]; lia. }
  destruct (legacy_handler_outcome cfg u req s0) as [_ Hyes].
  destruct (Hyes Hrefresh) as (Hout & _ & Hc & He). clear Hyes.
  fold served in Hout, Hc, He. rewrite Hf in Hout, Hc, He.
  cbn [fst snd] in Hout, Hc, He.
  assert (Hetag : Legacy.ETAG_FILE (Legacy.disk (Legacy.store w'))
                  = Some {| Legacy.etag := e |}
                  /\ Legacy.CACHE_FILE (Legacy.disk (Legacy.store w'))
                     = Legacy.CACHE_FILE
                         (Legacy.disk (Legacy.store (Legacy.refresh_world s0)))
                  /\ Legacy.cache (Legacy.store w')
                     = Legacy.cache (Legacy.store (Legacy.refresh_world s0))).
  { revert Hf. rewrite legacy_fetch_stages. cbv zeta. rewrite Hrel, Hv.
    destruct (head d) as [latestRelease|].
    - destruct (Legacy.archive_reply u _) as [|st2 e2 d2].
      + intros H. injection H as _ <-. auto.
      + destruct (Legacy.validateStatus_default st2).
        * destruct (Legacy.Promise_all cfg u _ _) as [[err' | pf'] w3] eqn:Hp;
            [|discriminate].
          intros H. injection H as _ <-.
          apply legacy_Promise_all_store in Hp as [Hs _]. rewrite Hs. auto.
        * intros H. injection H as _ <-. auto.
    - intros H. injection H as _ <-. auto. }
  destruct Hetag as (Hetag & Hcache & Hlru').
  assert (Hc' : Legacy.current_cacheData (Legacy.store w') = cached).
  { subst cached. destruct (legacy_current_ensure s0) as [<- _].
    unfold Legacy.current_cacheData. rewrite Hlru', Hcache. reflexivity. }
  assert (He' : Legacy.current_etag (Legacy.store w') = {| Legacy.etag := e |}).
  { unfold Legacy.current_etag. rewrite Hlru', Hetag.
    unfold Legacy.refresh_world. cbn. rewrite Hlru. reflexivity. }
  rewrite Hc' in Hc. rewrite He' in He.
  split; [exact Hout|]. split; [exact Hc|]. split; [exact He|].
  intros u2 req2 e' d' H304 again.
  destruct (legacy_handler_outcome cfg u2 req2 (Legacy.store_after served))
    as [Hno _].
  assert (Hh : Legacy.conditional_header (Legacy.store_after served)
               = Some (or_empty e)).
  { unfold Legacy.conditional_header. rewrite He. reflexivity. }
  destruct Hno as (Hout2 & Hreq2 & _).
  - unfold Legacy.refreshes. rewrite Hh, H304. reflexivity.
  - fold again in Hout2, Hreq2. rewrite Hout2, Hreq2, Hc, Hh. auto.
Qed.

(** X20: the handler of the earlier revision answers every request with
    status 200: with the manifest that a refresh returned, and with the
    manifest it had when it does not refresh (its conditional request is
    rejected, answered 304, or names the cached version) or when the
    refresh fails.  Without a refresh its conditional request is the only
    request it makes. *)
Theorem X20_legacy_always_200 (cfg : Legacy.Config) (u : Legacy.Upstream)
    (req : HttpRequest) (s0 : Legacy.Store) :
  let served := Legacy.handler cfg u req s0 in
  let cycle := Legacy.fetchGitHubData cfg u (Legacy.refresh_world s0) in
  Legacy.outcome served
  = Responded 200
      (if Legacy.refreshes u s0
       then match fst cycle with
            | inr fetched => fetched
            | inl _ => Legacy.current_cacheData s0
            end
       else Legacy.current_cacheData s0)
  /\ Legacy.requests served
     = (if Legacy.refreshes u s0 then Legacy.log (snd cycle)
        else [Legacy.GetReleases (Legacy.conditional_header s0)])
  /\ exists rest,
       Legacy.requests served
       = Legacy.GetReleases (Legacy.conditional_header s0) :: rest.
Proof.
  intros served cycle.
  destruct (legacy_handler_outcome cfg u req s0) as [Hno Hyes].
  destruct (Legacy.refreshes u s0).
  - destruct (Hyes eq_refl) as (Hout & Hreq & _).
    split; [exact Hout|]. split; [exact Hreq|].
    fold served in Hreq. rewrite Hreq.
    destruct (legacy_fetch_log cfg u (Legacy.refresh_world s0)) as [l Hl].
    rewrite Hl. eexists. reflexivity.
  - destruct (Hno eq_refl) as (Hout & Hreq & _).
    split; [exact Hout|]. split; [exact Hreq|].
    fold served in Hreq. rewrite Hreq. eexists. reflexivity.
Qed.

(** X21: the handler of the earlier revision compares the title of the
    latest release ([name]) with the cached [version], which is a tag.
    With the manifest of the latest release in the cache and a 2xx release
    list, the request is served from the cache exactly when the title of
    the release is its tag; for a release titled otherwise the whole
    pipeline runs again on every such request. *)
Theorem X21_legacy_title_compared_with_tag (cfg : Legacy.Config)
    (u : Legacy.Upstream) (req : HttpRequest) (s0 : Legacy.Store)
    (m : Manifest) (st : Z) (e : option string)
    (latest : Legacy.Release) (older : list Legacy.Release) :
  let header := Legacy.conditional_header s0 in
  let served := Legacy.handler cfg u req s0 in
  Legacy.current_cacheData s0 = ManifestData m ->
  version m = Legacy.tag_name latest ->
  Legacy.releases_reply u header = Http st e (latest :: older) ->
  200 <= st < 300 ->
  (Legacy.name latest = Some (Legacy.tag_name latest) ->
   Legacy.outcome served = Responded 200 (ManifestData m)
   /\ Legacy.requests served = [Legacy.GetReleases header])
  /\ (Legacy.name latest <> Some (Legacy.tag_name latest) ->
      exists rest,
        Legacy.requests served
        = Legacy.GetReleases header :: Legacy.GetReleases None :: rest).
Proof.
  intros header served Hm Hver Hrel Hst.
  apply validateStatus_2xx in Hst as [Hv H304].
  destruct (legacy_handler_outcome cfg u req s0) as [Hno Hyes].
  fold served in Hno, Hyes.
  assert (Hr : Legacy.refreshes u s0
               = match Legacy.name latest with
                 | Some title => negb (String.eqb title (Legacy.tag_name latest))
                 | None => true
                 end).
  { unfold Legacy.refreshes. fold header. rewrite Hrel, Hv, Hm.
    unfold Legacy.cacheIsOutdated. cbn [status data head Legacy.version_of andb].
    rewrite H304, Hver. cbn [negb andb].
    destruct (Legacy.name latest); reflexivity. }
  split.
  - intros Hname. rewrite Hname, String.eqb_refl in Hr.
    destruct (Hno Hr) as (Hout & Hreq & _). rewrite Hm in Hout. auto.
  - intros Hname.
    assert (Hr' : Legacy.refreshes u s0 = true).
    { rewrite Hr. destruct (Legacy.name latest) as [title|]; [|reflexivity].
      destruct (String.eqb title (Legacy.tag_name latest)) eqn:E;
        [|reflexivity].
      apply String.eqb_eq in E. subst title. now destruct Hname. }
    destruct (Hyes Hr') as (_ & Hreq & _). rewrite Hreq.
    destruct (legacy_fetch_log cfg u (Legacy.refresh_world s0)) as [l Hl].
    rewrite Hl. exists l. reflexivity.
Qed.

(** ** Signature requests in the earlier revision *)

Lemma legacy_determinePlatform_sig (filename : string) :
  Legacy.determinePlatform (String.append filename ".sig")
  = Legacy.determinePlatform filename.
Proof.
  rewrite legacy_determinePlatform_eq, endsWith_app.
  change 4%nat with (String.length ".sig").
  now rewrite slice_to_neg_app.
Qed.

Lemma legacy_start_all_cons (cfg : Legacy.Config) (file : File)
    (rest : list File) (pf : gmap string PlatformAsset) (w : Legacy.World) :
  Legacy.start_all cfg (file :: rest) pf w
  = match Legacy.callback_start cfg pf file w with
    | (inl err, w1) => (inl err, w1)
    | (inr r1, w1) =>
        match Legacy.start_all cfg rest (fst r1) w1 with
        | (inl err, w2) => (inl err, w2)
        | (inr r2, w2) =>
            (inr (fst r2,
                  match snd r1 with
                  | Some p => p :: snd r2
                  | None => snd r2
                  end), w2)
        end
    end.
Proof. reflexivity. Qed.

(** One callback up to its [await]: entries are only added; a base asset
    of an enabled platform leaves an entry for it; a signature file of an
    enabled platform that has an entry starts a request. *)
Lemma legacy_callback_start_run (cfg : Legacy.Config)
    (pf : gmap string PlatformAsset) (file : File) (w : Legacy.World) :
  exists pf1 started w1,
    Legacy.callback_start cfg pf file w = (inr (pf1, started), w1)
    /\ (forall key a, pf !! key = Some a -> pf1 !! key = Some a)
    /\ (Legacy.enabled cfg (Legacy.determinePlatform (name file)) = true ->
        endsWith (name file) ".sig" = false ->
        is_Some (pf1 !! Legacy.determinePlatform (name file)))
    /\ (Legacy.enabled cfg (Legacy.determinePlatform (name file)) = true ->
        endsWith (name file) ".sig" = true ->
        is_Some (pf !! Legacy.determinePlatform (name file)) ->
        started = Some {| Legacy.target := Legacy.determinePlatform (name file);
                          Legacy.sig_url := url file |}).
Proof.
  unfold Legacy.callback_start.
  destruct (Legacy.enabled cfg _) eqn:Hen.
  - destruct (endsWith (name file) ".sig") eqn:Hsig.
    + destruct (pf !! _) as [a|] eqn:Hpf.
      * eexists pf, _, _. split; [reflexivity|].
        split; [auto|]. split; [discriminate|]. reflexivity.
      * eexists pf, _, _. split; [reflexivity|].
        split; [auto|]. split; [discriminate|].
        intros _ _ [a Ha]. discriminate Ha.
    + destruct (pf !! _) as [a|] eqn:Hpf.
      * eexists pf, _, _. split; [reflexivity|].
        split; [auto|]. split; [eauto | discriminate].
      * eexists _, _, _. split; [reflexivity|]. split; [|split].
        -- intros key a Ha.
           destruct (decide (Legacy.determinePlatform (name file) = key))
             as [<- | Hne]; [congruence|].
           now rewrite lookup_insert_ne.
        -- intros _ _. rewrite lookup_insert_eq. eauto.
        -- discriminate.
  - eexists pf, _, _. split; [reflexivity|].
    split; [auto|]. split; discriminate.
Qed.

(** A signature file of a platform that has an entry starts a request,
    wherever it stands in the list. *)
Lemma legacy_start_all_starts (cfg : Legacy.Config) (sig : File)
    (files : list File) :
  Legacy.enabled cfg (Legacy.determinePlatform (name sig)) = true ->
  endsWith (name sig) ".sig" = true ->
  In sig files ->
  forall (pf : gmap string PlatformAsset) (w : Legacy.World),
    is_Some (pf !! Legacy.determinePlatform (name sig)) ->
    exists pf' pending w',
      Legacy.start_all cfg files pf w = (inr (pf', pending), w')
      /\ In {| Legacy.target := Legacy.determinePlatform (name sig);
               Legacy.sig_url := url sig |} pending.
Proof.
  intros Hen Hsig.
  induction files as [|file rest IH]; intros Hin pf w Hpf; [destruct Hin|].
  rewrite legacy_start_all_cons.
  destruct (legacy_callback_start_run cfg pf file w)
    as (pf1 & started & w1 & -> & Hkeep & _ & Hstart).
  cbn [fst snd].
  destruct Hin as [-> | Hin].
  - rewrite (Hstart Hen Hsig Hpf).
    destruct (Legacy.start_all cfg rest pf1 w1) as [[err | r2] w2] eqn:Hrest.
    + destruct (legacy_start_all_store _ _ _ _ _ _ Hrest) as (_ & [r' Hr'] & _).
      discriminate Hr'.
    + destruct r2 as [pf' pending]. eexists _, _, _.
      split; [reflexivity|]. now left.
  - destruct (IH Hin pf1 w1) as (pf' & pending & w' & -> & Hp).
    + destruct Hpf as [a Ha]. rewrite (Hkeep _ _ Ha). eauto.
    + eexists _, _, _. split; [reflexivity|]. cbn [snd].
      destruct started; [right|]; exact Hp.
Qed.

(** The same for a signature file that comes after a base asset of its
    platform. *)
Lemma legacy_start_all_after_base (cfg : Legacy.Config) (base sig : File)
    (later : list File) :
  Legacy.enabled cfg (Legacy.determinePlatform (name base)) = true ->
  endsWith (name base) ".sig" = false ->
  endsWith (name sig) ".sig" = true ->
  Legacy.determinePlatform (name sig) = Legacy.determinePlatform (name base) ->
  In sig later ->
  forall (before : list File) (pf : gmap string PlatformAsset)
         (w : Legacy.World),
    exists pf' pending w',
      Legacy.start_all cfg (before ++ base :: later) pf w
      = (inr (pf', pending), w')
      /\ In {| Legacy.target := Legacy.determinePlatform (name sig);
               Legacy.sig_url := url sig |} pending.
Proof.
  intros Hen Hbase Hsig Hkey Hin.
  induction before as [|file before IH]; intros pf w.
  - cbn [app]. rewrite legacy_start_all_cons.
    destruct (legacy_callback_start_run cfg pf base w)
      as (pf1 & started & w1 & -> & _ & Hentry & _).
    cbn [fst snd].
    destruct (legacy_start_all_starts cfg sig later) with (pf := pf1) (w := w1)
      as (pf' & pending & w' & -> & Hp);
      [now rewrite Hkey | exact Hsig | exact Hin
      | rewrite Hkey; exact (Hentry Hen Hbase) |].
    eexists _, _, _. split; [reflexivity|]. cbn [snd].
    destruct started; [right|]; exact Hp.
  - cbn [app]. rewrite legacy_start_all_cons.
    destruct (legacy_callback_start_run cfg pf file w)
      as (pf1 & started & w1 & -> & _).
    cbn [fst snd].
    destruct (IH pf1 w1) as (pf' & pending & w' & -> & Hp).
    eexists _, _, _. split; [reflexivity|]. cbn [snd].
    destruct started; [right|]; exact Hp.
Qed.

(** One rejected signature request rejects [Promise.all], in whatever
    order the replies arrive. *)
Lemma legacy_finish_all_rejected (u : Legacy.Upstream) (p : Legacy.Pending)
    (completed : list Legacy.Pending) :
  Legacy.rejected (Legacy.signature_reply u (Legacy.sig_url p)) ->
  In p completed ->
  forall (pf : gmap string PlatformAsset) (w : Legacy.World),
    exists err, Legacy.finish_all u completed pf w = (inl err, w).
Proof.
  intros Hrej.
  induction completed as [|q rest IH]; intros Hin pf w; [destruct Hin|].
  cbn [Legacy.finish_all].
  unfold Legacy.bind at 1.
  unfold Legacy.fetchSignature_receive, Legacy.bind, Legacy.receive,
    Legacy.throw, Legacy.ret.
  destruct (Legacy.signature_reply u (Legacy.sig_url q)) as [|st e d] eqn:Hq;
    [eauto|].
  destruct (Legacy.validateStatus_default st) eqn:Hv; [|eauto].
  destruct Hin as [-> | Hin].
  - unfold Legacy.rejected in Hrej. rewrite Hq in Hrej. congruence.
  - apply (IH Hin).
Qed.

(** X22: in the earlier revision [fetchSignature] has no [catch].  When the
    archive lists a base asset of an enabled platform and, after it, its
    signature file, and the request for that signature is rejected, the
    whole cycle throws, whatever the other requests do and in whatever
    order the replies arrive: no manifest is written, while the new
    validator is already on disk. *)
Theorem X22_legacy_signature_failure_fails_cycle (cfg : Legacy.Config)
    (u : Legacy.Upstream) (w : Legacy.World) (st st2 : Z)
    (e e2 : option string) (latest : Legacy.Release)
    (older : list Legacy.Release) (before mid after : list string)
    (base : string) :
  let tag := Legacy.tag_name latest in
  let sig := Legacy.file_of cfg tag (String.append base ".sig") in
  Legacy.releases_reply u None = Http st e (latest :: older) ->
  200 <= st < 300 ->
  Legacy.archive_reply u tag
  = Http st2 e2
         (before ++ base :: mid ++ String.append base ".sig" :: after)%list ->
  200 <= st2 < 300 ->
  endsWith base ".sig" = false ->
  Legacy.enabled cfg (Legacy.determinePlatform base) = true ->
  Legacy.rejected (Legacy.signature_reply u (url sig)) ->
  exists err w',
    Legacy.fetchGitHubData cfg u w = (inl err, w')
    /\ Legacy.CACHE_FILE (Legacy.disk (Legacy.store w'))
       = Legacy.CACHE_FILE (Legacy.disk (Legacy.store w))
    /\ Legacy.ETAG_FILE (Legacy.disk (Legacy.store w'))
       = Some {| Legacy.etag := e |}.
Proof.
  intros tag sig Hrel Hst Harch Hst2 Hbase Hen Hrej.
  assert (Hdef : forall s, 200 <= s < 300 ->
                           Legacy.validateStatus_default s = true).
  { intros s Hs. unfold Legacy.validateStatus_default.
    apply andb_true_intro. split; [apply Z.leb_le | apply Z.ltb_lt]; lia. }
  rewrite legacy_fetch_stages. cbv zeta.
  rewrite Hrel, (Hdef _ Hst). cbn [head]. fold tag.
  rewrite Harch, (Hdef _ Hst2).
  rewrite map_app. cbn [map]. rewrite map_app. cbn [map]. fold sig.
  match goal with
  | |- context [Legacy.Promise_all cfg u ?files ?w0] =>
      assert (Hfail : exists err w3,
                 Legacy.Promise_all cfg u files w0 = (inl err, w3)
                 /\ Legacy.store w3 = Legacy.store w0)
  end.
  { unfold Legacy.Promise_all. unfold Legacy.bind at 1.
    assert (Hin : forall l1 l2 : list File, In sig (l1 ++ sig :: l2)%list).
    { intros l1 l2. apply in_or_app. right. now left. }
    match goal with
    | |- context [Legacy.start_all cfg (?b ++ ?x :: ?l) ?pf0 ?w0] =>
        destruct (legacy_start_all_after_base cfg x sig l Hen Hbase
                    (endsWith_app base ".sig")
                    (legacy_determinePlatform_sig base)
                    (Hin _ _)
                    b pf0 w0)
          as (pf' & pending & w1 & Hstart & Hp)
    end.
    rewrite Hstart. cbn [fst snd].
    destruct (legacy_finish_all_rejected u
                {| Legacy.target := Legacy.determinePlatform (name sig);
                   Legacy.sig_url := url sig |}
                (Legacy.arrival u pending) Hrej
                (Permutation_in _
                   (Permutation_sym (Legacy.arrival_perm u pending)) Hp)
                pf' w1) as [err Hfin].
    exists err, w1. split; [exact Hfin|].
    now destruct (legacy_start_all_store _ _ _ _ _ _ Hstart) as [Hs _]. }
  destruct Hfail as (err & w3 & -> & Hs).
  exists err, w3. rewrite Hs. cbn. auto.
Qed.

(** * The theorems at work on the example deployment *)

(** C4 on a listing that holds one Windows installer. *)
Lemma C4_platform_keys_witness :
  exists m w',
    build Example.cfg (Example.upstream [Example.release] []) Example.release
          [file_of Example.cfg "v1.0.0" "App-1.0.0.msi"] Example.cold_world
    = (inr {| ref := Allocated; val := ManifestData m |}, w')
    /\ map fst (platforms m)
       = ["linux-x86_64"; "windows-x86_64"; "darwin-x86_64"; "darwin-aarch64"]
    /\ ~ In "windows-aarch64" (map fst (platforms m))
    /\ entry "linux-x86_64" (platforms m) = Some EmptyDescriptor
    /\ (exists a, entry "windows-x86_64" (platforms m) = Some (Asset a)).
Proof.
  destruct (C4_platform_keys Example.cfg (Example.upstream [Example.release] [])
              Example.release
              [file_of Example.cfg "v1.0.0" "App-1.0.0.msi"] Example.cold_world)
    as (m & w' & Hbuild & Hkeys & Hdisabled & Hempty & Hasset).
  exists m, w'. split; [exact Hbuild|]. split; [exact Hkeys|].
  split; [apply Hdisabled; reflexivity|]. split.
  - apply Hempty; [reflexivity|].
    intros file [<- | []] _ Hkey. vm_compute in Hkey. discriminate.
  - apply (Hasset "windows-x86_64"
                  (file_of Example.cfg "v1.0.0" "App-1.0.0.msi"));
      [reflexivity | now left | reflexivity | reflexivity].
Defined.

(** C5 on a signature file that precedes its base asset. *)
Lemma C5_signature_pairing_witness :
  let u := Example.upstream [Example.release] [] in
  let sig := file_of Example.cfg "v1.0.0" "App-1.0.0.msi.sig" in
  let base := file_of Example.cfg "v1.0.0" "App-1.0.0.msi" in
  Promise_all Example.cfg u [sig; base] Example.cold_world
  = Promise_all Example.cfg u [base] Example.cold_world
  /\ exists pf' w',
       Promise_all Example.cfg u [sig; base] Example.cold_world = (inr pf', w')
       /\ exists a, descriptor_of pf' "windows-x86_64" = Asset a
                    /\ signature a = "".
Proof.
  intros u sig base.
  destruct (C5_signature_pairing Example.cfg u [sig; base] Example.cold_world)
    as (pf & pending & w1 & pf' & w' & _ & _ & Hall & _ & _ & Hdrop & Hdesc).
  split.
  - apply (Hdrop [] sig [base]); [reflexivity | reflexivity | intros b []].
  - exists pf', w'. split; [exact Hall|].
    destruct (Hdesc "windows-x86_64") as [[_ Hnone] | (a & b & Ha & Hs & _)].
    + intros before file after Hfiles Hsig Hkey b Hb.
      destruct before as [|x before].
      * destruct Hb.
      * injection Hfiles as _ Hfiles.
        destruct before as [|y before].
        -- injection Hfiles as <- _. vm_compute in Hsig. discriminate.
        -- injection Hfiles as _ Hfiles. destruct before; discriminate.
    + exfalso. apply (Hnone base); [right; now left|].
      repeat split; reflexivity.
    + exists a. split; assumption.
Defined.

(** C2 on a warm server. *)
Lemma C2_release_list_not_modified_witness :
  fetchGitHubData Example.cfg (Example.answering 304) Example.warm_world
  = (inr {| ref := InLru; val := ManifestData Example.manifest |},
     {| store := Example.warm 0; etagData := Example.etags 0;
        log := [GetReleases "W/r1"] |}).
Proof.
  exact (C2_release_list_not_modified Example.cfg (Example.answering 304)
           Example.warm_world None [] InLru (ManifestData Example.manifest)
           eq_refl eq_refl).
Defined.

(** C3 on a warm server: once with the cached release as the latest, once
    with a newer one. *)
Lemma C3_archive_not_modified_witness :
  (exists w',
      fetchGitHubData Example.cfg (Example.archive_unchanged [Example.release])
                      Example.warm_world
      = (inr {| ref := InLru; val := ManifestData Example.manifest |}, w')
      /\ log w' = [GetReleases "W/r1"; GetArchive "v1.0.0" "W/a1"])
  /\ (exists w',
        fetchGitHubData Example.cfg (Example.archive_unchanged [Example.newer])
                        Example.warm_world
        = (inr {| ref := Allocated;
                  val := ManifestData (degraded Example.cfg Example.newer) |}, w')
        /\ log w' = [GetReleases "W/r1"; GetArchive "v1.1.0" ""]).
Proof.
  split.
  - apply (C3_archive_not_modified Example.cfg
             (Example.archive_unchanged [Example.release]) Example.warm_world
             200 (Some "W/r2") None Example.release [] [] InLru
             (ManifestData Example.manifest));
      [reflexivity | lia | reflexivity | reflexivity].
  - apply (C3_archive_not_modified Example.cfg
             (Example.archive_unchanged [Example.newer]) Example.warm_world
             200 (Some "W/r2") None Example.newer [] [] InLru
             (ManifestData Example.manifest));
      [reflexivity | lia | reflexivity | reflexivity].
Defined.

(** C9 on a warm server. *)
Lemma C9_idempotent_when_not_modified_witness :
  exists w1 w2,
    fetchGitHubData Example.cfg (Example.answering 304) Example.warm_world
    = (inr {| ref := InLru; val := ManifestData Example.manifest |}, w1)
    /\ fetchGitHubData Example.cfg (Example.answering 304) w1
       = (inr {| ref := InLru; val := ManifestData Example.manifest |}, w2)
    /\ etagData w1 = Example.etags 0 /\ etagData w2 = Example.etags 0
    /\ store w1 = Example.warm 0 /\ store w2 = Example.warm 0
    /\ log w2 = [GetReleases "W/r1"; GetReleases "W/r1"].
Proof.
  assert (H304 : not_modified (Example.answering 304)).
  { repeat split; intros; exists None; eexists; reflexivity. }
  exact (C9_idempotent_when_not_modified Example.cfg (Example.answering 304)
           (Example.answering 304) Example.warm_world InLru
           (ManifestData Example.manifest) H304 H304 eq_refl).
Defined.

(** C10 at first boot. *)
Lemma C10_empty_release_list_witness :
  exists w',
    fetchGitHubData Example.cfg (Example.upstream [] []) Example.cold_world
    = (inl TypeError, w')
    /\ log w' = [GetReleases ""]
    /\ store w' = Example.cold
    /\ releases (etagData w') = Some "W/r1".
Proof.
  apply (C10_empty_release_list Example.cfg (Example.upstream [] [])
           Example.cold_world 200 (Some "W/r1")); [reflexivity | lia].
Defined.

(** C8 on a warm server whose upstream answers 403, and at first boot with
    an upstream in good health. *)
Lemma C8_always_200_witness :
  outcome (handler Example.cfg (Example.answering 403) Example.browser
                   (Example.warm 0))
  = Responded 200 (ManifestData Example.manifest)
  /\ outcome (Interval.handler Example.cfg (Example.answering 403)
                               (301 * 1000) Example.browser (Example.warm 0))
     = Responded 200 (ManifestData Example.manifest)
  /\ current_cacheData
       (store_after (handler Example.cfg (Example.answering 403)
                             Example.browser (Example.warm 0)))
     = ManifestData Example.manifest
  /\ outcome (handler Example.cfg
                      (Example.upstream [Example.release]
                         ["App-1.0.0.msi"; "App-1.0.0.msi.sig"])
                      Example.browser Example.cold)
     = Responded 200 (ManifestData Example.manifest)
  /\ outcome (Interval.handler Example.cfg
                 (Example.upstream [Example.release]
                    ["App-1.0.0.msi"; "App-1.0.0.msi.sig"])
                 0 Example.browser Example.cold)
     = Responded 200 (ManifestData Example.manifest).
Proof.
  destruct C8_always_200 as (Hbody & Hbodyi & H403 & H403i).
  assert (Hup : forall h, exists e d,
             releases_reply (Example.answering 403) h = Http 403 e d).
  { intros h. exists None, []. reflexivity. }
  destruct (H403 Example.cfg (Example.answering 403) Example.browser
                 (Example.warm 0) Hup eq_refl) as [Hout Hkeep].
  destruct (H403i Example.cfg (Example.answering 403) (301 * 1000)
                  Example.browser (Example.warm 0) Hup eq_refl) as [Houti _].
  split; [exact Hout|]. split; [exact Houti|]. split; [exact Hkeep|]. split.
  - destruct (Hbody Example.cfg
                (Example.upstream [Example.release]
                   ["App-1.0.0.msi"; "App-1.0.0.msi.sig"])
                Example.browser Example.cold) as [-> _].
    vm_compute. reflexivity.
  - destruct (Hbodyi Example.cfg
                (Example.upstream [Example.release]
                   ["App-1.0.0.msi"; "App-1.0.0.msi.sig"])
                0 Example.browser Example.cold) as [-> _].
    vm_compute. reflexivity.
Defined.

(** C1 along one timeline from first boot (requests at 0 s, 60 s and
    301 s), and on a server that fetched at time 0. *)
Lemma C1_freshness_policy_witness :
  let u := Example.upstream [Example.release] ["App-1.0.0.msi"] in
  let first := Interval.handler Example.cfg u 0 Example.browser Example.cold in
  let second := Interval.handler Example.cfg u (0 + 60 * 1000) Example.browser
                                 (store_after first) in
  let third := Interval.handler Example.cfg u (0 + 301 * 1000) Example.browser
                                (store_after second) in
  requests first <> []
  /\ requests second = []
  /\ outcome second = outcome first
  /\ (exists rest, requests third = GetReleases "W/r1" :: rest)
  /\ (requests (Interval.handler Example.cfg u (60 * 1000) Example.browser
                                 (Example.warm 0)) = []
      /\ current_etagData
           (store_after (Interval.handler Example.cfg u (60 * 1000)
                                          Example.browser (Example.warm 0)))
         = Example.etags 0)
  /\ (exists rest,
        requests (Interval.handler Example.cfg u (301 * 1000) Example.browser
                                   (Example.warm 0))
        = GetReleases "W/r1" :: rest).
Proof.
  intros u first second third.
  pose (r := fetchGitHubData Example.cfg u (fetch_world Example.cold)).
  pose (fetched := match fst r with
                   | inr o => o
                   | inl _ => {| ref := Allocated; val := EmptyObject |}
                   end).
  destruct (C1_freshness_policy Example.cfg u 0 Example.browser Example.cold)
    as (_ & _ & Hscenario).
  destruct (Hscenario fetched (snd r) u u Example.browser Example.browser
                      (60 * 1000) (301 * 1000))
    as (H1 & Ho1 & _ & Ho2 & H2 & _ & H3 & _);
    [left; reflexivity | vm_compute; reflexivity | vm_compute; reflexivity
    | lia | lia |].
  destruct (C1_freshness_policy Example.cfg u (60 * 1000) Example.browser
              (Example.warm 0)) as (Hhit & _ & _).
  destruct (C1_freshness_policy Example.cfg u (301 * 1000) Example.browser
              (Example.warm 0)) as (_ & Hmiss & _).
  split; [exact H1|]. split; [exact H2|].
  split; [exact (eq_trans Ho2 (eq_sym Ho1))|].
  split; [exact H3|]. split.
  - destruct Hhit as (_ & Hreq & _ & He);
      [reflexivity | vm_compute; reflexivity |].
    split; [exact Hreq | exact He].
  - apply Hmiss. right. vm_compute. discriminate.
Defined.

(** * The further properties at work *)

(** X1 on a warm server whose upstream returns an empty release list. *)
Lemma X1_failed_cycle_writes_nothing_witness :
  store (snd (fetchGitHubData Example.cfg (Example.upstream [] [])
                              Example.warm_world))
  = Example.warm 0.
Proof.
  apply (X1_failed_cycle_writes_nothing Example.cfg (Example.upstream [] [])
           Example.warm_world _ TypeError).
  vm_compute. reflexivity.
Defined.

(** X2 at first boot. *)
Lemma X2_returned_manifest_is_on_disk_witness :
  let r := fetchGitHubData Example.cfg
             (Example.upstream [Example.release] ["App-1.0.0.msi"])
             Example.cold_world in
  CACHE_FILE (disk (store (snd r)))
  = Some (ManifestData (built Example.cfg Example.release
            {[ "windows-x86_64" :=
                 {| signature := "";
                    asset_url :=
                      url (file_of Example.cfg "v1.0.0" "App-1.0.0.msi") |} ]}))
  /\ fst (cached_or_file (snd r)) = fst r.
Proof.
  intros r.
  pose (obj := {| ref := Allocated;
                  val := ManifestData (built Example.cfg Example.release
                           {[ "windows-x86_64" :=
                                {| signature := "";
                                   asset_url :=
                                     url (file_of Example.cfg "v1.0.0"
                                                  "App-1.0.0.msi") |} ]}) |}).
  destruct (X2_returned_manifest_is_on_disk Example.cfg
              (Example.upstream [Example.release] ["App-1.0.0.msi"])
              Example.cold_world (snd r) obj) as [Hfile Hread];
    [reflexivity | vm_compute; reflexivity |].
  split; [exact Hfile|]. rewrite Hread. vm_compute. reflexivity.
Defined.

(** X3 at first boot, with a signature request that fails. *)
Lemma X3_fresh_cycle_witness :
  exists m w',
    fetchGitHubData Example.cfg
      (Cases.archive_listed [Example.release]
         ["App-1.0.0.msi"; "App-1.0.0.msi.sig"])
      Example.cold_world
    = (inr {| ref := Allocated; val := ManifestData m |}, w')
    /\ version m = "v1.0.0"
    /\ releases (etagData w') = Some "W/r2"
    /\ or_empty_object (archives (etagData w')) !! "v1.0.0" = Some "W/a2"
    /\ ETAG_FILE (disk (store w')) = Some (etagData w').
Proof.
  destruct (X3_fresh_cycle Example.cfg
              (Cases.archive_listed [Example.release]
                 ["App-1.0.0.msi"; "App-1.0.0.msi.sig"])
              Example.cold_world 200 200 (Some "W/r2") (Some "W/a2")
              Example.release [] ["App-1.0.0.msi"; "App-1.0.0.msi.sig"])
    as (m & w' & Hf & Hv & _ & Hr & Ha & _ & _ & He);
    [reflexivity | lia | reflexivity | lia |].
  exists m, w'. auto.
Defined.

(** X5 on a signature request that is answered 500. *)
Lemma X5_fetchSignature_isolated_witness :
  exists w',
    fetchSignature (Example.answering 500) "https://example.org/App.msi.sig"
                   Example.warm_world
    = (inr "", w')
    /\ etagData w' = Example.etags 0
    /\ store w' = Example.warm 0.
Proof.
  destruct (X5_fetchSignature_isolated (Example.answering 500)
              "https://example.org/App.msi.sig" Example.warm_world)
    as (sig & w' & Hf & _ & Hs & _ & Hrej & _).
  destruct (Hrej 500 None "" eq_refl eq_refl) as [-> He].
  exists w'. auto.
Defined.

(** X6 on the signature of the Windows installer. *)
Lemma X6_signature_reused_for_own_platform_witness :
  pop (split "/" (url (file_of Example.cfg "v1.0.0" "App-1.0.0.msi.sig")))
  = Some "App-1.0.0.msi.sig"
  /\ fetchSignature_receive (Example.answering 304)
       (url (file_of Example.cfg "v1.0.0" "App-1.0.0.msi.sig")) "" Example.warm_world
     = (inr (cached_signature (ManifestData Example.manifest)
               (determinePlatform "App-1.0.0.msi.sig")),
        Example.warm_world).
Proof.
  apply (X6_signature_reused_for_own_platform Example.cfg
           (Example.answering 304) "v1.0.0" "App-1.0.0.msi.sig" ""
           Example.warm_world None "" InLru (ManifestData Example.manifest));
    reflexivity.
Defined.

(** X7 on a listing that holds a text file. *)
Lemma X7_ignored_files_witness :
  let u := Example.upstream [Example.release] [] in
  let installer := file_of Example.cfg "v1.0.0" "App-1.0.0.msi" in
  let readme := file_of Example.cfg "v1.0.0" "readme.txt" in
  let second := file_of Example.cfg "v1.0.0" "App-1.0.0-full.msi" in
  Promise_all Example.cfg u [installer; readme] Example.cold_world
  = Promise_all Example.cfg u [installer] Example.cold_world
  /\ Promise_all Example.cfg u [installer; second] Example.cold_world
     = Promise_all Example.cfg u [installer] Example.cold_world.
Proof.
  intros u installer readme second. split.
  - destruct (X7_ignored_files Example.cfg u [installer] [] readme
                Example.cold_world) as (_ & Hoff & _).
    apply Hoff. vm_compute. reflexivity.
  - destruct (X7_ignored_files Example.cfg u [installer] [] second
                Example.cold_world) as (_ & _ & Hdup).
    apply Hdup; [vm_compute; reflexivity|].
    exists installer. split; [now left|].
    repeat split; vm_compute; reflexivity.
Defined.

(** X8 on a listing with two Windows installers. *)
Lemma X8_first_base_asset_wins_witness :
  exists m w' a,
    build Example.cfg (Example.upstream [Example.release] []) Example.release
          [file_of Example.cfg "v1.0.0" "App-1.0.0.msi";
           file_of Example.cfg "v1.0.0" "App-1.0.0-full.msi"]
          Example.cold_world
    = (inr {| ref := Allocated; val := ManifestData m |}, w')
    /\ entry "windows-x86_64" (platforms m) = Some (Asset a)
    /\ asset_url a = url (file_of Example.cfg "v1.0.0" "App-1.0.0.msi").
Proof.
  apply (X8_first_base_asset_wins Example.cfg
           (Example.upstream [Example.release] []) Example.release []
           [file_of Example.cfg "v1.0.0" "App-1.0.0-full.msi"]
           (file_of Example.cfg "v1.0.0" "App-1.0.0.msi") "windows-x86_64"
           Example.cold_world).
  - repeat split; vm_compute; reflexivity.
  - intros b [].
Defined.

(** X9 on a request of the monitoring service. *)
Lemma X9_uptime_bot_is_not_counted_witness :
  let u := Example.answering 304 in
  outcome (handler Example.cfg u Cases.uptime_bot (Example.warm 0))
  = outcome (handler Example.cfg u Example.browser (Example.warm 0))
  /\ lru_statsData (cache (store_after (handler Example.cfg u Cases.uptime_bot
                                                (Example.warm 0))))
     = Some {| cacheHits := None; fetches := Some 1 |}.
Proof.
  intros u.
  destruct (X9_uptime_bot_is_not_counted Example.cfg u 0 Cases.uptime_bot
              Example.browser (Example.warm 0)) as (Hout & _ & _ & _ & Hbot).
  split; [exact Hout|].
  destruct Hbot as (Hlru & _); [vm_compute; reflexivity|].
  exact Hlru.
Defined.

(** X10 on a request within the interval. *)
Lemma X10_interval_counts_once_witness :
  let served := Interval.handler Example.cfg (Example.answering 500)
                                 (60 * 1000) Example.browser (Example.warm 0) in
  lru_statsData (cache (store_after served))
  = Some {| cacheHits := Some 1; fetches := Some 1 |}
  /\ STATS_FILE (disk (store_after served))
     = Some {| cacheHits := Some 1; fetches := Some 1 |}.
Proof.
  intros served.
  destruct (X10_interval_counts_once Example.cfg (Example.answering 500)
              (60 * 1000) Example.browser (Example.warm 0))
    as (Hlru & Hfile & _); [vm_compute; reflexivity|].
  split; [exact Hlru | exact Hfile].
Defined.

(** X11 on the first request after a restart. *)
Lemma X11_not_modified_after_restart_witness :
  let served := handler Example.cfg (Example.answering 304) Example.browser
                        Cases.restarted in
  outcome served = Responded 200 (ManifestData Example.manifest)
  /\ lru_statsData (cache (store_after served))
     = Some {| cacheHits := None; fetches := Some 2 |}
  /\ lru_cacheData (cache (store_after served))
     = Some (ManifestData Example.manifest).
Proof.
  intros served.
  destruct (X11_not_modified_after_restart Example.cfg (Example.answering 304)
              Example.browser Cases.restarted None [])
    as (Hout & _ & Hfile);
    [vm_compute; reflexivity | reflexivity | reflexivity |].
  destruct (Hfile eq_refl) as [Hstats Hlru].
  split; [exact Hout|]. split; [exact Hstats | exact Hlru].
Defined.

(** X13 after a restart, with an upstream that answers 500. *)
Lemma X13_tokens_come_from_disk_witness :
  let served := handler Example.cfg (Example.answering 500) Example.browser
                        Cases.restarted in
  lru_etagData (cache (store_after served)) = None
  /\ current_etagData (store_after served) = Example.etags 0.
Proof.
  intros served.
  destruct (X13_tokens_come_from_disk Example.cfg (Example.answering 500)
              Example.browser Cases.restarted eq_refl) as [Hlru Hkeep].
  split; [exact Hlru|].
  apply (Hkeep (AxiosError (Some 500))
               (snd (fetchGitHubData Example.cfg (Example.answering 500)
                                     (fetch_world Cases.restarted)))).
  vm_compute. reflexivity.
Defined.

(** X14 on a warm server: the archive request for a new release fails, and
    the release list answers 304 afterwards. *)
Lemma X14_token_ahead_of_manifest_witness :
  let served := Interval.handler Example.cfg (Cases.archive_down [Example.newer])
                                 (301 * 1000) Example.browser (Example.warm 0) in
  outcome served = Responded 200 (ManifestData Example.manifest)
  /\ releases (current_etagData (store_after served)) = Some "W/r2"
  /\ outcome (Interval.handler Example.cfg (Example.answering 304)
                               (602 * 1000) Example.browser (store_after served))
     = Responded 200 (ManifestData Example.manifest).
Proof.
  intros served.
  destruct (X14_token_ahead_of_manifest Example.cfg
              (Cases.archive_down [Example.newer]) (301 * 1000)
              Example.browser (Example.warm 0) (Example.etags 0) 200
              (Some "W/r2") Example.newer [])
    as (Hout & _ & _ & Hrel & Hlater);
    [reflexivity | vm_compute; reflexivity | reflexivity | lia
    | reflexivity |].
  split; [exact Hout|]. split; [exact Hrel|].
  apply (Hlater (Example.answering 304) (602 * 1000) Example.browser None []);
    [vm_compute; discriminate | reflexivity].
Defined.

(** X15 on a warm server that meets a newer release whose archive listing
    answers 304. *)
Lemma X15_degraded_manifest_replaces_cache_witness :
  let served := handler Example.cfg (Example.archive_unchanged [Example.newer])
                        Example.browser (Example.warm 0) in
  outcome served
  = Responded 200 (ManifestData (degraded Example.cfg Example.newer))
  /\ lru_cacheData (cache (store_after served))
     = Some (ManifestData (degraded Example.cfg Example.newer))
  /\ CACHE_FILE (disk (store_after served))
     = Some (ManifestData (degraded Example.cfg Example.newer)).
Proof.
  apply (X15_degraded_manifest_replaces_cache Example.cfg
           (Example.archive_unchanged [Example.newer]) Example.browser
           (Example.warm 0) 200 (Some "W/r2") None Example.newer [] []);
    [reflexivity | lia | reflexivity | reflexivity].
Defined.

(** X16 on an application whose name contains [arm64]. *)
Lemma X16_conventions_for_every_name_witness :
  determinePlatform (String.append "arm64-flasher-1.0.0-x64" ".msi")
  = "windows-aarch64".
Proof.
  destruct (X16_conventions_for_every_name "arm64-flasher-1.0.0-x64")
    as (_ & _ & _ & _ & Harm).
  apply Harm. vm_compute. reflexivity.
Defined.

(** X18 on a release list that is empty. *)
Lemma X18_legacy_validator_written_first_witness :
  let w := Legacy.refresh_world (LegacyCases.holding Example.manifest) in
  let w' := snd (Legacy.fetchGitHubData LegacyCases.cfg
                   (LegacyCases.upstream [] (Http 200 None []) (Http 200 None ""))
                   w) in
  Legacy.ETAG_FILE (Legacy.disk (Legacy.store w'))
  = Some {| Legacy.etag := Some "W/r2" |}
  /\ Legacy.CACHE_FILE (Legacy.disk (Legacy.store w'))
     = Some (ManifestData Example.manifest).
Proof.
  intros w w'.
  destruct (X18_legacy_validator_written_first LegacyCases.cfg
              (LegacyCases.upstream [] (Http 200 None []) (Http 200 None ""))
              w w' 200 (Some "W/r2") [] TypeError)
    as (Hetag & Hcache & _);
    [reflexivity | reflexivity | vm_compute; reflexivity |].
  split; [exact Hetag | exact Hcache].
Defined.

(** X19 on a server that holds [v1.0.0] when [v1.1.0] is released and the
    archive request fails. *)
Lemma X19_legacy_stale_after_failed_refresh_witness :
  let u := LegacyCases.upstream [LegacyCases.release (Some "v1.1.0")]
             (Http 500 None []) (Http 200 None "") in
  let served := Legacy.handler LegacyCases.cfg u Example.browser
                               (LegacyCases.holding Example.manifest) in
  let again := Legacy.handler LegacyCases.cfg LegacyCases.not_modified
                              Example.browser (Legacy.store_after served) in
  Legacy.outcome served = Responded 200 (ManifestData Example.manifest)
  /\ Legacy.current_etag (Legacy.store_after served)
     = {| Legacy.etag := Some "W/r2" |}
  /\ Legacy.outcome again = Responded 200 (ManifestData Example.manifest)
  /\ Legacy.requests again = [Legacy.GetReleases (Some "W/r2")].
Proof.
  intros u served again.
  destruct (X19_legacy_stale_after_failed_refresh LegacyCases.cfg u
              Example.browser (LegacyCases.holding Example.manifest)
              200 (Some "W/r2") [LegacyCases.release (Some "v1.1.0")]
              (AxiosError (Some 500))
              (snd (Legacy.fetchGitHubData LegacyCases.cfg u
                      (Legacy.refresh_world
                         (LegacyCases.holding Example.manifest)))))
    as (Hout & _ & Hetag & Hlater);
    [reflexivity | vm_compute; reflexivity | reflexivity | lia
    | vm_compute; reflexivity |].
  destruct (Hlater LegacyCases.not_modified Example.browser None [] eq_refl)
    as [Hout2 Hreq2].
  split; [exact Hout|]. split; [exact Hetag|].
  split; [exact Hout2 | exact Hreq2].
Defined.

(** X21 on a server that holds the manifest of [v1.1.0]: once with a
    release titled as its tag, once with another title. *)
Lemma X21_legacy_title_compared_with_tag_witness :
  let s0 := LegacyCases.holding LegacyCases.manifest in
  let listing := Http 200 (Some "W/a1") [] in
  let sig := Http 200 None "" in
  Legacy.requests
    (Legacy.handler LegacyCases.cfg
       (LegacyCases.upstream [LegacyCases.release (Some "v1.1.0")] listing sig)
       Example.browser s0)
  = [Legacy.GetReleases (Some "W/r1")]
  /\ exists rest,
       Legacy.requests
         (Legacy.handler LegacyCases.cfg
            (LegacyCases.upstream [LegacyCases.release (Some "Summer release")]
               listing sig)
            Example.browser s0)
       = Legacy.GetReleases (Some "W/r1") :: Legacy.GetReleases None :: rest.
Proof.
  intros s0 listing sig. split.
  - destruct (X21_legacy_title_compared_with_tag LegacyCases.cfg
                (LegacyCases.upstream [LegacyCases.release (Some "v1.1.0")]
                   listing sig)
                Example.browser s0 LegacyCases.manifest 200 (Some "W/r2")
                (LegacyCases.release (Some "v1.1.0")) [])
      as [Hsame _]; [reflexivity | reflexivity | reflexivity | lia |].
    destruct (Hsame eq_refl) as [_ Hreq]. exact Hreq.
  - destruct (X21_legacy_title_compared_with_tag LegacyCases.cfg
                (LegacyCases.upstream
                   [LegacyCases.release (Some "Summer release")] listing sig)
                Example.browser s0 LegacyCases.manifest 200 (Some "W/r2")
                (LegacyCases.release (Some "Summer release")) [])
      as [_ Hother]; [reflexivity | reflexivity | reflexivity | lia |].
    apply Hother. vm_compute. discriminate.
Defined.

(** X22 on a listing whose signature request is answered 404. *)
Lemma X22_legacy_signature_failure_fails_cycle_witness :
  let u := LegacyCases.upstream [LegacyCases.release None]
             (Http 200 (Some "W/a1") ["App-1.1.0.msi"; "App-1.1.0.msi.sig"])
             (Http 404 None "") in
  let w := Legacy.refresh_world (LegacyCases.holding Example.manifest) in
  exists err w',
    Legacy.fetchGitHubData LegacyCases.cfg u w = (inl err, w')
    /\ Legacy.CACHE_FILE (Legacy.disk (Legacy.store w'))
       = Some (ManifestData Example.manifest)
    /\ Legacy.ETAG_FILE (Legacy.disk (Legacy.store w'))
       = Some {| Legacy.etag := Some "W/r2" |}.
Proof.
  intros u w.
  apply (X22_legacy_signature_failure_fails_cycle LegacyCases.cfg u w 200 200
           (Some "W/r2") (Some "W/a1") (LegacyCases.release None) [] [] [] []
           "App-1.1.0.msi");
    [reflexivity | lia | reflexivity | lia | vm_compute; reflexivity
    | vm_compute; reflexivity | reflexivity].
Defined.
